(** * quick-resume-gen: the resume-tailoring pipeline

    A shallow embedding of [src/app.py], [src/generate_resume.py] and
    [src/resume_handler.py]: context assembly, job-info extraction, the
    tailoring request, the four document renderers and the web routes
    that tie them together, followed by the properties of the written
    specification that concern them.

    Modelling conventions.
    - A Python value obtained from JSON is a [pyval]; a [dict] is an
      association list in insertion order, looked up by first match.
    - A Python [str] is a [string] holding its UTF-8 bytes; [py_len]
      counts code points, as Python's [len] does.
    - A call that may raise returns a [result]; [Raise e] is the exception
      leaving the function.  Routes and functions that touch the session
      file or the LLM backend run in the monad [M], which threads the
      log of HTTP calls and the session file.
    - [print] statements and the layout attributes of the document
      libraries (fonts, colours, alignment) are left out.  A renderer
      makes its library calls in the order of the source; each call may
      raise, its outcome being a parameter of the development
      ([DocumentLibraries]), and the renderer returns the elements it
      handed over once the file has been written. *)

From Stdlib Require Import String Ascii List ZArith QArith Bool Lia.
From Stdlib Require Import DecimalString.
Import ListNotations.

Local Open Scope list_scope.
Local Open Scope string_scope.

(* ------------------------------------------------------------------ *)
(** ** Python values and exceptions *)

#[warnings="-register-all"]
Inductive pyval : Type :=
| PNone
| PBool (b : bool)
| PInt (n : Z)
| PFloat (x : Q)
| PStr (s : string)
| PList (l : list pyval)
| PDict (kv : list (string * pyval)).

Inductive exn : Type :=
| KeyError
| IndexError
| TypeError
| AttributeError
| ValueError
| JSONDecodeError
| RequestException
| HTTPError
| OSError
| FileNotFoundError
| RecursionError.

Inductive result (A : Type) : Type :=
| Ok (a : A)
| Raise (e : exn).

Arguments Ok {A} a.
Arguments Raise {A} e.

Definition rbind {A B} (m : result A) (k : A -> result B) : result B :=
  match m with
  | Ok a => k a
  | Raise e => Raise e
  end.

Declare Scope result_scope.
Delimit Scope result_scope with result.
Notation "x <- m ;; k" := (rbind m (fun x => k))
  (at level 100, m at next level, right associativity) : result_scope.

(** [for x in l: body] over a list, stopping at the first exception. *)
Fixpoint map_result {A B} (f : A -> result B) (l : list A) : result (list B) :=
  match l with
  | [] => Ok []
  | x :: l' =>
      match f x with
      | Raise e => Raise e
      | Ok y =>
          match map_result f l' with
          | Raise e => Raise e
          | Ok ys => Ok (y :: ys)
          end
      end
  end.

(* ------------------------------------------------------------------ *)
(** ** Strings *)

Definition nl : string := String (ascii_of_nat 10) EmptyString.
Definition dq : string := String (ascii_of_nat 34) EmptyString.

(** A byte [10xxxxxx] continues a code point; every other byte starts one. *)
Definition is_continuation (c : ascii) : bool :=
  let n := nat_of_ascii c in (128 <=? n)%nat && (n <? 192)%nat.

(** [len(s)]. *)
Fixpoint py_len (s : string) : nat :=
  match s with
  | EmptyString => 0
  | String c s' => if is_continuation c then py_len s' else S (py_len s')
  end.

(** The continuation bytes at the head of [s], and what follows them. *)
Fixpoint span_continuation (s : string) : string * string :=
  match s with
  | String c s' =>
      if is_continuation c
      then let (h, t) := span_continuation s' in (String c h, t)
      else (EmptyString, s)
  | EmptyString => (EmptyString, EmptyString)
  end.

(** [list(s)]: the characters of [s], one string per code point.  The fuel
    is the byte length, which bounds the number of code points. *)
Fixpoint py_chars_fuel (fuel : nat) (s : string) : list string :=
  match fuel, s with
  | S fuel', String c s' =>
      let (h, t) := span_continuation s' in
      String c h :: py_chars_fuel fuel' t
  | _, _ => []
  end.

Definition py_chars (s : string) : list string :=
  py_chars_fuel (String.length s) s.

(** [sep.join(l)] on a list of [str]. *)
Fixpoint join (sep : string) (l : list string) : string :=
  match l with
  | [] => EmptyString
  | [x] => x
  | x :: l' => x ++ sep ++ join sep l'
  end.

(** [s[:n]] on a [str]. *)
Definition str_slice (n : nat) (s : string) : string :=
  String.concat EmptyString (firstn n (py_chars s)).

(** [sub in s] on two [str]. *)
Definition is_substring (sub s : string) : bool :=
  match String.index 0 sub s with
  | Some _ => true
  | None => false
  end.

(** [s.replace(a, b)] for single ASCII characters [a] and [b]. *)
Fixpoint str_replace_char (a b : ascii) (s : string) : string :=
  match s with
  | EmptyString => EmptyString
  | String c s' =>
      String (if Ascii.eqb c a then b else c) (str_replace_char a b s')
  end.

(** [s.replace(a, '')] for a single ASCII character [a]. *)
Fixpoint str_remove_char (a : ascii) (s : string) : string :=
  match s with
  | EmptyString => EmptyString
  | String c s' =>
      if Ascii.eqb c a then str_remove_char a s'
      else String c (str_remove_char a s')
  end.

(** [c in s] for a single character [c]. *)
Fixpoint has_char (c : ascii) (s : string) : bool :=
  match s with
  | EmptyString => false
  | String c' s' => Ascii.eqb c' c || has_char c s'
  end.

Definition string_of_Z (n : Z) : string :=
  NilZero.string_of_int (Z.to_int n).

(* ------------------------------------------------------------------ *)
(** ** Operations on Python values *)

Fixpoint lookup (k : string) (kv : list (string * pyval)) : option pyval :=
  match kv with
  | [] => None
  | (k', v) :: kv' => if String.eqb k k' then Some v else lookup k kv'
  end.

(** [d[k] = v] on a [dict]: replace in place, or append a new key. *)
Fixpoint dict_set (k : string) (v : pyval) (kv : list (string * pyval))
  : list (string * pyval) :=
  match kv with
  | [] => [(k, v)]
  | (k', v') :: kv' =>
      if String.eqb k k' then (k', v) :: kv' else (k', v') :: dict_set k v kv'
  end.

(** [bool(v)]. *)
Definition truthy (v : pyval) : bool :=
  match v with
  | PNone => false
  | PBool b => b
  | PInt n => negb (n =? 0)%Z
  | PFloat x => negb (Qnum x =? 0)%Z
  | PStr s => negb (String.eqb s EmptyString)
  | PList l => match l with [] => false | _ => true end
  | PDict kv => match kv with [] => false | _ => true end
  end.

(** [v.get(k, default)]: only a [dict] has the method. *)
Definition py_get (v : pyval) (k : string) (default : pyval) : result pyval :=
  match v with
  | PDict kv => Ok (match lookup k kv with Some x => x | None => default end)
  | _ => Raise AttributeError
  end.

(** [v[k]] with a [str] key. *)
Definition py_item (v : pyval) (k : string) : result pyval :=
  match v with
  | PDict kv => match lookup k kv with Some x => Ok x | None => Raise KeyError end
  | _ => Raise TypeError
  end.

(** [v[0]]. *)
Definition py_first (v : pyval) : result pyval :=
  match v with
  | PList (x :: _) => Ok x
  | PList [] => Raise IndexError
  | PStr s => match py_chars s with c :: _ => Ok (PStr c) | [] => Raise IndexError end
  | PDict kv => Raise KeyError
  | _ => Raise TypeError
  end.

(** [k in v] with a [str] on the left. *)
Definition py_contains (k : string) (v : pyval) : result bool :=
  match v with
  | PDict kv => Ok (match lookup k kv with Some _ => true | None => false end)
  | PList l =>
      Ok (existsb (fun x => match x with PStr s => String.eqb s k | _ => false end) l)
  | PStr s => Ok (is_substring k s)
  | _ => Raise TypeError
  end.

(** [for x in v]: the elements a loop over [v] visits. *)
Definition py_iter (v : pyval) : result (list pyval) :=
  match v with
  | PList l => Ok l
  | PStr s => Ok (map PStr (py_chars s))
  | PDict kv => Ok (map (fun p => PStr (fst p)) kv)
  | _ => Raise TypeError
  end.

(** [v.items()]. *)
Definition py_items (v : pyval) : result (list (string * pyval)) :=
  match v with
  | PDict kv => Ok kv
  | _ => Raise AttributeError
  end.

(** [v[:n]], still to be iterated.  A [dict] rejects a slice key (with
    [TypeError] up to Python 3.11, [KeyError] from 3.12 on; no handler in
    the program tells the two apart). *)
Definition py_slice (n : nat) (v : pyval) : result pyval :=
  match v with
  | PList l => Ok (PList (firstn n l))
  | PStr s => Ok (PStr (str_slice n s))
  | _ => Raise TypeError
  end.

(** [hash(v)] succeeds: what a [set] membership test needs of [v]. *)
Definition hashable (v : pyval) : bool :=
  match v with
  | PList _ | PDict _ => false
  | _ => true
  end.

Definition as_str (v : pyval) : result string :=
  match v with
  | PStr s => Ok s
  | _ => Raise TypeError
  end.

(** [sep.join(v)]: every element visited must be a [str]. *)
Definition py_join (sep : string) (v : pyval) : result string :=
  (xs <- py_iter v ;;
   ss <- map_result as_str xs ;;
   Ok (join sep ss))%result.

(** [d[k] = x]: item assignment, which only a [dict] accepts here. *)
Definition py_setitem (v : pyval) (k : string) (x : pyval) : result pyval :=
  match v with
  | PDict kv => Ok (PDict (dict_set k x kv))
  | _ => Raise TypeError
  end.

(** Python built-ins the program calls and does not define: [repr] on a
    float, list or dict, [str.upper], and [json.loads] on a [str], which
    gives the parsed value or raises: [json.JSONDecodeError] on a text
    that is not JSON, and also [RecursionError] on a text nested too
    deeply or a plain [ValueError] on an integer literal over the digit
    limit. *)
Class Builtins : Type := {
  py_repr : pyval -> string;
  py_upper : string -> string;
  json_loads : string -> result pyval
}.

(** [str(v)], which is also what an f-string puts for [{v}]. *)
Definition py_str `{Builtins} (v : pyval) : string :=
  match v with
  | PNone => "None"
  | PBool true => "True"
  | PBool false => "False"
  | PInt n => string_of_Z n
  | PStr s => s
  | _ => py_repr v
  end.

(** [json.loads(v)]: a value that is not a [str] is a [TypeError]. *)
Definition py_json_loads `{Builtins} (v : pyval) : result pyval :=
  match v with
  | PStr s => json_loads s
  | _ => Raise TypeError
  end.

(** [r["choices"][0]["message"]["content"]], which both programs read
    from the JSON body of an LLM response. *)
Definition message_content (r : pyval) : result pyval :=
  (choices <- py_item r "choices" ;;
   choice <- py_first choices ;;
   message <- py_item choice "message" ;;
   py_item message "content")%result.

(* ------------------------------------------------------------------ *)
(** ** Documents: what a renderer hands to ReportLab or python-docx *)

(** Paragraph styles, by the name the code gives them. *)
Inductive pdf_style : Type :=
| StyleName | StyleJobTitle | StyleContact | StyleSection | StyleBody
| StyleExpTitle | StyleCompany | StyleBullet
| StyleNormal | StyleHeading2.

(** [Paragraph(text, style)] and [Spacer(w, h)].  The text is kept as the
    Python value passed, since [data.get] may hand over any JSON value. *)
Inductive flowable : Type :=
| Paragraph (text : pyval) (style : pdf_style)
| Spacer (w h : Z).

Record run : Type := { run_text : string; run_bold : bool }.

(** [doc.add_heading(text, level)] and [doc.add_paragraph(text, style)]
    with the runs later added to the paragraph. *)
Inductive block : Type :=
| AddHeading (text : pyval) (level : Z)
| AddParagraph (text : pyval) (style : option string) (runs : list run).

(** What ReportLab, python-docx and the output folder answer to the
    calls the renderers make: nothing, or the exception raised.
    [Paragraph(text, style)] parses the text as markup and raises on a
    value that is not a [str] and on markup it cannot parse;
    [add_heading], [add_paragraph] and [add_run] raise on a text
    python-docx cannot store; [doc.build(story)] and [doc.save(path)]
    write the file whose name inside the output folder is given, and
    raise when it cannot be created; [mkdir_output] is
    [output_dir.mkdir(exist_ok=True)]. *)
Class DocumentLibraries : Type := {
  Paragraph_init : pyval -> pdf_style -> result unit;
  doc_build : string -> list flowable -> result unit;
  add_heading : pyval -> Z -> result unit;
  add_paragraph : pyval -> option string -> result unit;
  add_run : string -> result unit;
  doc_save : string -> list block -> result unit;
  mkdir_output : result unit
}.

Section LibraryCalls.
Context `{L : DocumentLibraries}.

(** [Paragraph(text, style)], to be appended to the story. *)
Definition paragraph (text : pyval) (style : pdf_style) : result flowable :=
  (_ <- Paragraph_init text style ;; Ok (Paragraph text style))%result.

(** [doc.add_heading(text, level)]. *)
Definition heading (text : pyval) (level : Z) : result block :=
  (_ <- add_heading text level ;; Ok (AddHeading text level))%result.

(** [doc.add_paragraph(text, style)] with no run added afterwards. *)
Definition text_paragraph (text : pyval) (style : option string) : result block :=
  (_ <- add_paragraph text style ;; Ok (AddParagraph text style []))%result.

(** [p.add_run(text)], with the value given to its [bold] attribute. *)
Definition new_run (text : string) (bold : bool) : result run :=
  (_ <- add_run text ;; Ok {| run_text := text; run_bold := bold |})%result.

End LibraryCalls.

Definition is_bullet_flowable (f : flowable) : bool :=
  match f with
  | Paragraph _ StyleBullet => true
  | _ => false
  end.

Definition is_list_bullet (b : block) : bool :=
  match b with
  | AddParagraph _ (Some style) _ => String.eqb style "List Bullet"
  | _ => false
  end.

(** Library functions that resume_handler.py and the command line of
    generate_resume.py call on names and texts: [str.lower], [str.strip]
    and the [suffix] of a [Path] given its name. *)
Class PathBuiltins : Type := {
  py_lower : string -> string;
  py_strip : string -> string;
  path_suffix : string -> string
}.

(* ------------------------------------------------------------------ *)
(** ** resume_handler.py *)

Module ResumeHandler.

Record ResumeInfo : Type := {
  filename : string;
  filepath : string;
  file_type : string;
  size_bytes : Z;
  content : string
}.

(** [ResumeHandler.get_default_resume]: the first value of the cache. *)
Definition get_default_resume (cache : list (string * ResumeInfo))
  : option ResumeInfo :=
  match cache with
  | [] => None
  | (_, r) :: _ => Some r
  end.


(** *** Scanning the folder *)

Definition SUPPORTED_FORMATS : list string := [ ".pdf"; ".docx"; ".doc"; ".txt" ].

Definition supported (suffix : string) : bool :=
  existsb (String.eqb suffix) SUPPORTED_FORMATS.

(** One entry of [resume_folder.iterdir()], with what the file system and
    the document libraries answer for it: [stat().st_size], the
    [extract_text()] of each page PyPDF2 reads, the paragraph texts
    python-docx reads, and [read_text(encoding='utf-8', errors='ignore')]. *)
Record dir_entry : Type := {
  de_name : string;
  de_absolute : string;
  de_is_file : bool;
  de_size : result Z;
  de_pdf_pages : result (list (option string));
  de_docx_paragraphs : result (list string);
  de_text : result string
}.

(** The resume folder: absent, a path that exists but is no directory
    (where [iterdir] raises [NotADirectoryError], an [OSError]), or a
    directory with its entries in listing order. *)
Inductive folder : Type :=
| FolderMissing
| FolderIsFile
| FolderOf (entries : list dir_entry).

Section WithPathBuiltins.
Context `{P : PathBuiltins}.

(** [_extract_pdf_content]; [None] stands for the [RuntimeError] raised
    in place of any exception of the reader. *)
Definition _extract_pdf_content (e : dir_entry) : option string :=
  match de_pdf_pages e with
  | Ok pages =>
      Some (py_strip
              (String.concat ""
                 (map (fun page => match page with Some t => t | None => "" end)
                    pages)))
  | Raise _ => None
  end.

(** [_extract_docx_content]; [None] stands for the [RuntimeError]. *)
Definition _extract_docx_content (e : dir_entry) : option string :=
  match de_docx_paragraphs e with
  | Ok paragraphs => Some (py_strip (join nl paragraphs))
  | Raise _ => None
  end.

(** [_extract_content]; [None] stands for an exception. *)
Definition _extract_content (e : dir_entry) : option string :=
  let suffix := py_lower (path_suffix (de_name e)) in
  if String.eqb suffix ".pdf" then _extract_pdf_content e
  else if String.eqb suffix ".docx" || String.eqb suffix ".doc"
       then _extract_docx_content e
  else if String.eqb suffix ".txt"
       then match de_text e with Ok t => Some t | Raise _ => None end
  else Some "".

(** [cache[k] = info] on the cache dict. *)
Fixpoint cache_set (k : string) (info : ResumeInfo)
    (cache : list (string * ResumeInfo)) : list (string * ResumeInfo) :=
  match cache with
  | [] => [(k, info)]
  | (k', info') :: cache' =>
      if String.eqb k k' then (k', info) :: cache'
      else (k', info') :: cache_set k info cache'
  end.

(** What the [try] block of [_scan_resumes] stores for an entry that
    passes the test on [is_file()] and the suffix; [None] when the block
    raises (extraction or [stat]) and the entry is skipped with a
    warning. *)
Definition cache_entry (e : dir_entry) : option (string * ResumeInfo) :=
  if de_is_file e && supported (py_lower (path_suffix (de_name e))) then
    match _extract_content e with
    | Some text =>
        match de_size e with
        | Ok size =>
            Some (de_name e,
                  {| filename := de_name e;
                     filepath := de_absolute e;
                     file_type := py_lower (path_suffix (de_name e));
                     size_bytes := size;
                     content := text |})
        | Raise _ => None
        end
    | None => None
    end
  else None.

(** The body of the loop of [_scan_resumes]. *)
Definition scan_entry (cache : list (string * ResumeInfo)) (e : dir_entry)
  : list (string * ResumeInfo) :=
  match cache_entry e with
  | Some (k, info) => cache_set k info cache
  | None => cache
  end.

(** [_scan_resumes], from the cache it starts with.  A missing folder is
    created and nothing is scanned. *)
Definition _scan_resumes (f : folder) (cache : list (string * ResumeInfo))
  : result (list (string * ResumeInfo)) :=
  match f with
  | FolderMissing => Ok cache
  | FolderIsFile => Raise OSError
  | FolderOf entries => Ok (fold_left scan_entry entries cache)
  end.

(** [ResumeHandler(resume_folder)]: the cache after [__init__]. *)
Definition init (f : folder) : result (list (string * ResumeInfo)) :=
  _scan_resumes f [].

(** [reload_resumes]: the cache is cleared, then the folder scanned. *)
Definition reload_resumes (f : folder) (cache : list (string * ResumeInfo))
  : result (list (string * ResumeInfo)) :=
  _scan_resumes f [].

End WithPathBuiltins.

(** [get_resume(filename)]. *)
Fixpoint get_resume (cache : list (string * ResumeInfo)) (name : string)
  : option ResumeInfo :=
  match cache with
  | [] => None
  | (k, info) :: cache' =>
      if String.eqb name k then Some info else get_resume cache' name
  end.

(** [list_resumes()]. *)
Definition list_resumes (cache : list (string * ResumeInfo)) : list string :=
  map fst cache.

(** [get_resume_content(filename)]. *)
Definition get_resume_content (cache : list (string * ResumeInfo))
    (name : string) : option string :=
  match get_resume cache name with
  | Some resume => Some (content resume)
  | None => None
  end.

(** [get_resume_path(filename)]. *)
Definition get_resume_path (cache : list (string * ResumeInfo))
    (name : string) : option string :=
  match get_resume cache name with
  | Some resume => Some (filepath resume)
  | None => None
  end.

End ResumeHandler.

(* ------------------------------------------------------------------ *)
(** ** The world outside the process *)

(** What [load_resume] finds on disk.  [handler] is the outcome of
    importing and constructing [ResumeHandler] (its scanned cache);
    a role file is absent, or is what [open] and [json.load] make of it. *)
Record resume_files : Type := {
  handler : result (list (string * ResumeHandler.ResumeInfo));
  local_role : option (result pyval);
  parent_role : option (result pyval)
}.

(** [requests.post(url, headers=..., json=payload, timeout=...)]. *)
Record request : Type := {
  req_url : string;
  req_headers : list (string * string);
  req_payload : pyval;
  req_timeout : option Z
}.

(** A response: its status and what [response.json()] gives. *)
Record response : Type := {
  status_code : Z;
  response_json : result pyval
}.

(** The environment variables, the resume files, the LLM backend (which
    answers a request knowing the earlier ones, or fails in transport),
    the log of requests posted so far and the session file
    [output/last_session.json] ([None] while it does not exist). *)
Record world : Type := {
  environ : list (string * string);
  files : resume_files;
  backend : list request -> request -> result response;
  calls : list request;
  session_file : option pyval
}.

Definition with_calls (w : world) (cs : list request) : world :=
  {| environ := environ w; files := files w; backend := backend w;
     calls := cs; session_file := session_file w |}.

Definition with_session (w : world) (s : option pyval) : world :=
  {| environ := environ w; files := files w; backend := backend w;
     calls := calls w; session_file := s |}.

(** [os.environ.get(key, default)]. *)
Fixpoint environ_get (env : list (string * string)) (key default : string)
  : string :=
  match env with
  | [] => default
  | (k, v) :: env' => if String.eqb key k then v else environ_get env' key default
  end.

(** Code that reads or changes the world and may raise.  An exception
    keeps the changes made before it. *)
Definition M (A : Type) : Type := world -> result A * world.

Definition ret {A} (a : A) : M A := fun w => (Ok a, w).

Definition bind {A B} (m : M A) (k : A -> M B) : M B :=
  fun w =>
    match m w with
    | (Ok a, w') => k a w'
    | (Raise e, w') => (Raise e, w')
    end.

Definition lift {A} (r : result A) : M A := fun w => (r, w).

(** [try: m  except <catches>: handler]. *)
Definition try_except {A} (m : M A) (catches : exn -> bool)
    (handler : exn -> M A) : M A :=
  fun w =>
    match m w with
    | (Raise e, w') => if catches e then handler e w' else (Raise e, w')
    | ok => ok
    end.

Definition ask {A} (f : world -> A) : M A := fun w => (Ok (f w), w).

(** [requests.post]: the call is logged whether or not it succeeds. *)
Definition requests_post (req : request) : M response :=
  fun w => (backend w (calls w) req, with_calls w (calls w ++ [req])).

Declare Scope M_scope.
Delimit Scope M_scope with M.
Notation "x <- m ;; k" := (bind m (fun x => k))
  (at level 100, m at next level, right associativity) : M_scope.

Definition any_exception (e : exn) : bool := true.

Definition is_ValueError (e : exn) : bool :=
  match e with
  | ValueError | JSONDecodeError => true
  | _ => false
  end.

Definition is_JSONDecodeError (e : exn) : bool :=
  match e with
  | JSONDecodeError => true
  | _ => false
  end.

(* ------------------------------------------------------------------ *)
(** ** generate_resume.py *)

Module GenerateResume.

Section WithBuiltins.
Context `{B : Builtins} `{L : DocumentLibraries}.

(* ------------------------------------------------------------------ *)
(** *** load_resume *)

Local Open Scope result_scope.

(** [for point in points: text += f"• {point}\n"]. *)
Definition bullets_text (points : pyval) : result string :=
  ps <- py_iter points ;;
  Ok (String.concat "" (map (fun p => "• " ++ py_str p ++ nl) ps)).

(** The body of the loop over [exp.get('clients', [])]. *)
Definition client_text (client : pyval) : result string :=
  title <- py_get client "title" (PStr "Senior Software Engineer") ;;
  name <- py_item client "name" ;;
  dates <- py_item client "dates" ;;
  points <- py_get client "points" (PList []) ;;
  bl <- bullets_text points ;;
  Ok ("Client: " ++ py_str name ++ nl ++ "Title: " ++ py_str title ++ nl
      ++ "Dates: " ++ py_str dates ++ nl ++ bl ++ nl).

Definition role_selection_guidance : string :=
  nl ++ "ROLE SELECTION GUIDANCE:" ++ nl
  ++ "- For Software Engineer positions: Show ONLY the Intuit client experience AND PayPal_SWE experience" ++ nl
  ++ "- For QA/SDET/Test/Quality Engineer positions: Show ONLY the Apple client experience AND PayPal_QE experience" ++ nl
  ++ "- Include only ONE version of each company based on the job title being applied for" ++ nl
  ++ "- PayPal experience should show the role matching the job type (SWE or QE)" ++ nl.

Definition current_role_header : string := nl ++ nl ++ "CURRENT ROLE at ".

(** [current_role_text], built when [current_experience] is truthy. *)
Definition current_role_text (current exp : pyval) : result string :=
  company <- py_get exp "company" PNone ;;
  type <- py_get exp "type" (PStr "Contract") ;;
  location <- py_get exp "location" PNone ;;
  dates <- py_get exp "dates" PNone ;;
  clients <- py_get exp "clients" (PList []) ;;
  cs <- py_iter clients ;;
  cts <- map_result client_text cs ;;
  role_selection <- py_get current "role_selection" (PDict []) ;;
  Ok (current_role_header ++ py_str company ++ " (" ++ py_str type ++ "):" ++ nl
      ++ "Location: " ++ py_str location ++ nl
      ++ "Dates: " ++ py_str dates ++ nl ++ nl
      ++ String.concat "" cts
      ++ (if truthy role_selection then role_selection_guidance else "")).

(** [company_base in added_companies]: the set is created empty and the
    line that would add to it is commented out, so the test only hashes. *)
Definition in_added_companies (company_base : pyval) : result bool :=
  if hashable company_base then Ok false else Raise TypeError.

(** [f"\n[USE FOR {role_type.upper()} ROLES]\n"], under [if role_type]. *)
Definition role_type_marker (role_type : pyval) : result string :=
  if truthy role_type then
    match role_type with
    | PStr s => Ok (nl ++ "[USE FOR " ++ py_upper s ++ " ROLES]" ++ nl)
    | _ => Raise AttributeError
    end
  else Ok "".

(** The body of the loop over [missing_exp.items()]. *)
Definition missing_entry_text (item : string * pyval) : result string :=
  let (name, details) := item in
  role_type <- py_get details "role_type" (PStr "") ;;
  company_base <- py_get details "company" (PStr name) ;;
  skip <- in_added_companies company_base ;;
  if skip then Ok "" else
  marker <- role_type_marker role_type ;;
  title <- py_get details "title" (PStr "") ;;
  location <- py_get details "location" (PStr "") ;;
  dates <- py_get details "dates" (PStr "") ;;
  technologies <- py_get details "technologies" PNone ;;
  tech <- (if truthy technologies
           then j <- py_join ", " technologies ;;
                Ok ("Technologies: " ++ j ++ nl)
           else Ok "") ;;
  points <- py_get details "points" (PList []) ;;
  bl <- bullets_text points ;;
  Ok (marker ++ py_str company_base ++ nl
      ++ "Title: " ++ py_str title ++ nl
      ++ "Location: " ++ py_str location ++ nl
      ++ "Dates: " ++ py_str dates ++ nl
      ++ tech ++ "Achievements:" ++ nl ++ bl).

Definition missing_header : string :=
  nl ++ nl
  ++ "MISSING EXPERIENCE (MUST include in resume - insert in correct chronological order):"
  ++ nl.

Definition missing_text (missing_exp : pyval) : result string :=
  items <- py_items missing_exp ;;
  ts <- map_result missing_entry_text items ;;
  Ok (missing_header ++ String.concat "" ts).

(** [details['coe']] part of a restructure entry, under [if 'coe' in details]. *)
Definition coe_text (details : pyval) : result string :=
  has_coe <- py_contains "coe" details ;;
  if has_coe then
    coe <- py_item details "coe" ;;
    role <- py_get coe "role" (PStr "") ;;
    points <- py_get coe "points" (PList []) ;;
    bl <- bullets_text points ;;
    Ok ("CoE Role: " ++ py_str role ++ nl ++ bl)
  else Ok "".

(** The body of the loop over [restructure.items()]. *)
Definition restructure_entry_text (item : string * pyval) : result string :=
  let (company, details) := item in
  dates <- py_get details "dates" (PStr "") ;;
  type <- py_get details "type" (PStr "") ;;
  clients <- py_get details "clients" (PList []) ;;
  cj <- py_join ", " clients ;;
  ct <- coe_text details ;;
  Ok (nl ++ company ++ " (" ++ py_str dates ++ ") - " ++ py_str type ++ nl
      ++ "Clients: " ++ cj ++ nl ++ ct).

Definition restructure_header : string :=
  nl ++ nl
  ++ "EXPERIENCE RESTRUCTURE (show these as contract roles under parent company):"
  ++ nl.

Definition restructure_text (restructure : pyval) : result string :=
  items <- py_items restructure ;;
  ts <- map_result restructure_entry_text items ;;
  Ok (restructure_header ++ String.concat "" ts).

Definition corrections_header : string :=
  nl ++ nl ++ "DATE CORRECTIONS (use these dates instead):" ++ nl.

Definition corrections_text (date_corrections : pyval) : result string :=
  items <- py_items date_corrections ;;
  Ok (corrections_header
      ++ String.concat ""
           (map (fun item : string * pyval =>
                   "- " ++ fst item ++ ": " ++ py_str (snd item) ++ nl) items)).

(** One override step: [section = current.get(key, {})], and under
    [if section:] the rendered block is put in front of [resume_content]. *)
Definition prepend_section (current : pyval) (key : string)
    (render : pyval -> result string) (resume_content : string) : result string :=
  section <- py_get current key (PDict []) ;;
  if truthy section
  then text <- render section ;; Ok (text ++ resume_content)
  else Ok resume_content.

(** The part of [load_resume] under [with open(current_role_path) as f],
    after [current = json.load(f)]. *)
Definition apply_overrides (current : pyval) (resume_content : string)
  : result string :=
  rc1 <- prepend_section current "current_experience"
           (current_role_text current) resume_content ;;
  rc2 <- prepend_section current "missing_experience" missing_text rc1 ;;
  rc3 <- prepend_section current "experience_restructure" restructure_text rc2 ;;
  prepend_section current "date_corrections" corrections_text rc3.

(** [current_role_path]: the local file when it exists, else the parent
    project's; [None] when the chosen path does not exist. *)
Definition current_role_file (fs : resume_files) : option (result pyval) :=
  match local_role fs with
  | Some f => Some f
  | None => parent_role fs
  end.

(** [resume = handler.get_default_resume()] and
    [resume.content if resume else ""]. *)
Definition base_text (cache : list (string * ResumeHandler.ResumeInfo)) : string :=
  match ResumeHandler.get_default_resume cache with
  | Some resume => ResumeHandler.content resume
  | None => ""
  end.

(** The [try] block of [load_resume]. *)
Definition load_resume_body (fs : resume_files) : result string :=
  cache <- handler fs ;;
  let resume_content := base_text cache in
  match current_role_file fs with
  | Some file => current <- file ;; apply_overrides current resume_content
  | None => Ok resume_content
  end.

(** [load_resume()]: the context text, or [None] after any exception. *)
Definition load_resume (fs : resume_files) : option string :=
  match load_resume_body fs with
  | Ok resume_content => Some resume_content
  | Raise _ => None
  end.

(* ------------------------------------------------------------------ *)
(** *** get_llm_config *)

Record provider : Type := {
  p_name : string;
  p_url : string;
  p_model : string;
  p_env_key : string;
  p_default_key : string
}.

Definition LLM_PROVIDERS : list (string * provider) :=
  [ ("cerebras",
     {| p_name := "Cerebras";
        p_url := "https://api.cerebras.ai/v1/chat/completions";
        p_model := "llama-3.3-70b";
        p_env_key := "CEREBRAS_API_KEY";
        p_default_key := "" |});
    ("groq",
     {| p_name := "Groq";
        p_url := "https://api.groq.com/openai/v1/chat/completions";
        p_model := "llama-3.3-70b-versatile";
        p_env_key := "GROQ_API_KEY";
        p_default_key := "" |});
    ("openrouter",
     {| p_name := "OpenRouter";
        p_url := "https://openrouter.ai/api/v1/chat/completions";
        p_model := "meta-llama/llama-3.3-70b-instruct:free";
        p_env_key := "OPENROUTER_API_KEY";
        p_default_key := "" |}) ].

Record llm_config : Type := {
  cfg_provider : string;
  cfg_name : string;
  cfg_url : string;
  cfg_model : string;
  cfg_api_key : string
}.

(** The loop of [get_llm_config] over the provider names, in order. *)
Fixpoint first_available (env : list (string * string))
    (providers : list (string * provider)) : result llm_config :=
  match providers with
  | [] => Raise ValueError
  | (provider_name, config) :: providers' =>
      let api_key := environ_get env (p_env_key config) (p_default_key config) in
      if negb (String.eqb api_key "")
      then Ok {| cfg_provider := provider_name;
                 cfg_name := p_name config;
                 cfg_url := p_url config;
                 cfg_model := p_model config;
                 cfg_api_key := api_key |}
      else first_available env providers'
  end.

Definition get_llm_config : M llm_config :=
  fun w => (first_available (environ w) LLM_PROVIDERS, w).

(* ------------------------------------------------------------------ *)
(** *** get_structured_resume *)

Definition tailoring_prompt : string :=
  "Analyze the resume and job description, then return a JSON object with this EXACT structure:" ++ nl
  ++ "{" ++ nl
  ++ "    " ++ dq ++ "name" ++ dq ++ ": " ++ dq ++ "Full Name" ++ dq ++ "," ++ nl
  ++ "    " ++ dq ++ "title" ++ dq ++ ": " ++ dq ++ "Professional Title tailored to job" ++ dq ++ "," ++ nl
  ++ "    " ++ dq ++ "email" ++ dq ++ ": " ++ dq ++ "mohammedmazhermd@gmail.com" ++ dq ++ "," ++ nl
  ++ "    " ++ dq ++ "phone" ++ dq ++ ": " ++ dq ++ "(510) 771-4493" ++ dq ++ "," ++ nl
  ++ "    " ++ dq ++ "location" ++ dq ++ ": " ++ dq ++ "San Jose, CA" ++ dq ++ "," ++ nl
  ++ "    " ++ dq ++ "linkedin" ++ dq ++ ": " ++ dq ++ "linkedin URL or empty string" ++ dq ++ "," ++ nl
  ++ "    " ++ dq ++ "summary" ++ dq ++ ": " ++ dq ++ "3-4 sentence professional summary tailored to the job" ++ dq ++ "," ++ nl
  ++ "    " ++ dq ++ "skills" ++ dq ++ ": {" ++ nl
  ++ "        " ++ dq ++ "Languages" ++ dq ++ ": " ++ dq ++ "Python, Java, JavaScript, etc" ++ dq ++ "," ++ nl
  ++ "        " ++ dq ++ "Frameworks" ++ dq ++ ": " ++ dq ++ "Spring Boot, React, etc" ++ dq ++ "," ++ nl
  ++ "        " ++ dq ++ "Cloud & DevOps" ++ dq ++ ": " ++ dq ++ "AWS, Kubernetes, Docker, etc" ++ dq ++ "," ++ nl
  ++ "        " ++ dq ++ "Databases" ++ dq ++ ": " ++ dq ++ "PostgreSQL, MongoDB, etc" ++ dq ++ nl
  ++ "    }," ++ nl
  ++ "    " ++ dq ++ "experience" ++ dq ++ ": [" ++ nl
  ++ "        {" ++ nl
  ++ "            " ++ dq ++ "title" ++ dq ++ ": " ++ dq ++ "Job Title" ++ dq ++ "," ++ nl
  ++ "            " ++ dq ++ "company" ++ dq ++ ": " ++ dq ++ "Company Name" ++ dq ++ "," ++ nl
  ++ "            " ++ dq ++ "location" ++ dq ++ ": " ++ dq ++ "City, State" ++ dq ++ "," ++ nl
  ++ "            " ++ dq ++ "dates" ++ dq ++ ": " ++ dq ++ "MMM YYYY - MMM YYYY" ++ dq ++ "," ++ nl
  ++ "            " ++ dq ++ "points" ++ dq ++ ": [" ++ nl
  ++ "                " ++ dq ++ "First bullet point achievement with metrics and numbers" ++ dq ++ "," ++ nl
  ++ "                " ++ dq ++ "Second bullet point achievement with specific results" ++ dq ++ "," ++ nl
  ++ "                " ++ dq ++ "Third bullet point showing technical skills used" ++ dq ++ nl
  ++ "            ]" ++ nl
  ++ "        }" ++ nl
  ++ "    ]" ++ nl
  ++ "}" ++ nl
  ++ nl
  ++ "CRITICAL - SKILLS FORMAT:" ++ nl
  ++ "- Skills MUST be comma-separated strings like " ++ dq ++ "Java, Python, JavaScript" ++ dq ++ nl
  ++ "- Do NOT return skills as an array of characters" ++ nl
  ++ "- Example correct format: " ++ dq ++ "Languages" ++ dq ++ ": " ++ dq ++ "Java, Python, JavaScript, TypeScript" ++ dq ++ nl
  ++ nl
  ++ "CRITICAL - EXPERIENCE POINTS:" ++ nl
  ++ "- Each job MUST have a " ++ dq ++ "points" ++ dq ++ " array with 3-5 bullet points" ++ nl
  ++ "- Points should be specific achievements from the original resume" ++ nl
  ++ "- Include metrics, percentages, and specific technologies used" ++ nl
  ++ "- Do NOT return empty points arrays" ++ nl
  ++ nl
  ++ "CRITICAL - CONTACT INFO (USE EXACTLY):" ++ nl
  ++ "- Email: mohammedmazhermd@gmail.com (NOT muhammadkasim@gmail.com)" ++ nl
  ++ "- Phone: (510) 771-4493" ++ nl
  ++ "- Location: San Jose, CA" ++ nl
  ++ nl
  ++ "CRITICAL - EXPERIENCE ORDER:" ++ nl
  ++ "- List experience in REVERSE CHRONOLOGICAL ORDER (most recent job FIRST)" ++ nl
  ++ "- Galaxy I Tech (current) must be FIRST" ++ nl
  ++ "- Zyme Solutions (oldest) must be LAST" ++ nl
  ++ nl
  ++ "NOTE: For contract/consulting roles with multiple clients under one parent company," ++ nl
  ++ "format as separate entries like:" ++ nl
  ++ "- " ++ dq ++ "Galaxy I Tech - Client: Apple" ++ dq ++ nl
  ++ "- " ++ dq ++ "Galaxy I Tech - Client: Intuit" ++ dq ++ nl
  ++ "This shows the consulting relationship clearly while highlighting client work." ++ nl
  ++ nl
  ++ "CRITICAL REQUIREMENTS:" ++ nl
  ++ "- GALAXY I TECH CLIENT SELECTION (VERY IMPORTANT - SHOW ONLY ONE CLIENT):" ++ nl
  ++ "  * If job title contains " ++ dq ++ "QA" ++ dq ++ ", " ++ dq ++ "SDET" ++ dq ++ ", " ++ dq ++ "Test" ++ dq ++ ", " ++ dq ++ "Quality" ++ dq ++ ": Show ONLY " ++ dq ++ "Galaxy I Tech - Client: Apple" ++ dq ++ nl
  ++ "  * If job title contains " ++ dq ++ "Developer" ++ dq ++ ", " ++ dq ++ "Engineer" ++ dq ++ ", " ++ dq ++ "Architect" ++ dq ++ " (without QA/Test): Show ONLY " ++ dq ++ "Galaxy I Tech - Client: Intuit" ++ dq ++ nl
  ++ "  * NEVER show both Apple and Intuit together! They are the same time period - pick ONE based on job type." ++ nl
  ++ nl
  ++ "- Include ALL work experience from the original resume (every single job)" ++ nl
  ++ "- ORDER EXPERIENCE STRICTLY BY DATE (most recent first). The correct order is:" ++ nl
  ++ "  1. Galaxy I Tech (Jun 2025 - Present) - FIRST (current role) - show ONE client only!" ++ nl
  ++ "  2. Citi (Oct 2024 - Jun 2025)" ++ nl
  ++ "  3. LPL Financial (Oct 2023 - Sep 2024)" ++ nl
  ++ "  4. Amazon (Sep 2022 - Oct 2023)" ++ nl
  ++ "  5. Tusimple (Mar 2022 - Sep 2022)" ++ nl
  ++ "  6. Proofpoint (Aug 2021 - Mar 2022)" ++ nl
  ++ "  7. Altimetrik - PayPal (Mar 2020 - Aug 2021) - after Proofpoint!" ++ nl
  ++ "  8. Altimetrik - Ancestry (Jan 2019 - Mar 2020)" ++ nl
  ++ "  9. Altimetrik - Intuit (Jan 2014 - Jan 2019)" ++ nl
  ++ "  10. Barclays (Nov 2012 - Dec 2013)" ++ nl
  ++ "  11. Zyme Solutions (Jan 2007 - Nov 2012)" ++ nl
  ++ "- DATE FORMAT IS MANDATORY: Always use " ++ dq ++ "MMM YYYY - MMM YYYY" ++ dq ++ " format (e.g., " ++ dq ++ "Sep 2022 - Oct 2023" ++ dq ++ ")" ++ nl
  ++ "  * Convert " ++ dq ++ "2022-09-17" ++ dq ++ " to " ++ dq ++ "Sep 2022" ++ dq ++ nl
  ++ "  * Convert " ++ dq ++ "2023-10-31" ++ dq ++ " to " ++ dq ++ "Oct 2023" ++ dq ++ nl
  ++ "  * Use " ++ dq ++ "Present" ++ dq ++ " for current roles" ++ nl
  ++ "  * NEVER use YYYY-MM-DD format" ++ nl
  ++ "- Include at least 3-4 bullet points per job" ++ nl
  ++ "- Tailor bullet points to match the job description keywords" ++ nl
  ++ "- Keep all information truthful from the original resume" ++ nl
  ++ "- Prioritize skills mentioned in job description" ++ nl
  ++ "- Quantify achievements where possible" ++ nl
  ++ "- Return ONLY valid JSON, no other text".


(** The shape the prompt asks for, as a test on a parsed reply: only the
    keys of the prompt's example object, text fields that are strings,
    skills stored as strings per category, and experience entries whose
    bullets are a list of strings under ['points']. *)
Definition has_str (k : string) (kv : list (string * pyval)) : bool :=
  match lookup k kv with
  | Some (PStr _) => true
  | _ => false
  end.

Definition is_str (v : pyval) : bool :=
  match v with
  | PStr _ => true
  | _ => false
  end.

Definition only_keys (keys : list string) (kv : list (string * pyval)) : bool :=
  forallb (fun k => existsb (String.eqb k) keys) (map fst kv).

Definition schema_entry (job : pyval) : bool :=
  match job with
  | PDict kv =>
      only_keys ["title"; "company"; "location"; "dates"; "points"] kv
      && has_str "title" kv && has_str "company" kv
      && has_str "location" kv && has_str "dates" kv
      && match lookup "points" kv with
         | Some (PList ps) => forallb is_str ps
         | _ => false
         end
  | _ => false
  end.

Definition follows_schema (data : pyval) : bool :=
  match data with
  | PDict kv =>
      only_keys ["name"; "title"; "email"; "phone"; "location"; "linkedin";
                 "summary"; "skills"; "experience"] kv
      && has_str "name" kv && has_str "title" kv && has_str "email" kv
      && has_str "phone" kv && has_str "location" kv && has_str "linkedin" kv
      && has_str "summary" kv
      && match lookup "skills" kv with
         | Some (PDict sk) => forallb (fun item => is_str (snd item)) sk
         | _ => false
         end
      && match lookup "experience" kv with
         | Some (PList jobs) => forallb schema_entry jobs
         | _ => false
         end
  | _ => false
  end.

Local Open Scope M_scope.

Definition request_headers (llm_config : llm_config) : list (string * string) :=
  [ ("Authorization", "Bearer " ++ cfg_api_key llm_config);
    ("Content-Type", "application/json") ]
  ++ (if String.eqb (cfg_provider llm_config) "openrouter"
      then [ ("HTTP-Referer", "https://github.com/resume-generator");
             ("X-Title", "Resume Generator") ]
      else [])%list.

Definition request_payload (llm_config : llm_config)
    (job_title company job_description resume_content : pyval) : pyval :=
  PDict
    ([ ("model", PStr (cfg_model llm_config));
       ("messages",
        PList
          [ PDict [ ("role", PStr "system"); ("content", PStr tailoring_prompt) ];
            PDict [ ("role", PStr "user");
                    ("content",
                     PStr ("Job: " ++ py_str job_title ++ " at " ++ py_str company
                           ++ nl ++ nl ++ "Job Description:" ++ nl
                           ++ py_str job_description
                           ++ nl ++ nl ++ "Resume:" ++ nl
                           ++ py_str resume_content)) ] ]);
       ("max_tokens", PInt 4000);
       ("temperature", PFloat (1 # 2)) ]
     ++ (if String.eqb (cfg_provider llm_config) "groq"
            || String.eqb (cfg_provider llm_config) "cerebras"
         then [ ("response_format", PDict [ ("type", PStr "json_object") ]) ]
         else []))%list.

(** The [try] block under [if "choices" in result]: read the content,
    print its first 500 characters, parse it, and under
    [if 'skills' in data] print [data['skills']]. *)
Definition parse_choices (result_ : pyval) : result pyval :=
  (content <- message_content result_ ;;
   _ <- py_slice 500 content ;;
   data <- py_json_loads content ;;
   has_skills <- py_contains "skills" data ;;
   if has_skills
   then _ <- py_item data "skills" ;; Ok data
   else Ok data)%result.

(** What [get_structured_resume] does with [result = response.json()]. *)
Definition handle_result (result_ : pyval) : M pyval :=
  has_error <- lift (py_contains "error" result_) ;;
  if has_error then
    _ <- lift (py_item result_ "error") ;;
    ret PNone
  else
    has_choices <- lift (py_contains "choices" result_) ;;
    if has_choices
    then try_except (lift (parse_choices result_)) is_JSONDecodeError
           (fun _ => ret PNone)
    else ret PNone.

(** The one request [get_structured_resume] posts. *)
Definition tailoring_request (llm_config : llm_config)
    (job_title company job_description resume_content : pyval) : request :=
  {| req_url := cfg_url llm_config;
     req_headers := request_headers llm_config;
     req_payload := request_payload llm_config job_title company
                      job_description resume_content;
     req_timeout := None |}.

(** [get_structured_resume]; the Python [None] it returns is [PNone]. *)
Definition get_structured_resume
    (job_title company job_description resume_content : pyval) : M pyval :=
  config <- try_except (c <- get_llm_config ;; ret (Some c)) is_ValueError
              (fun _ => ret None) ;;
  match config with
  | None => ret PNone
  | Some llm_config =>
      response <- requests_post
        (tailoring_request llm_config job_title company job_description
           resume_content) ;;
      result_ <- lift (response_json response) ;;
      handle_result result_
  end.

(* ------------------------------------------------------------------ *)
(** *** generate_pdf *)

Local Open Scope result_scope.

(** The skills text of the PDF: a list is joined with [", "], anything
    else is used as it is. *)
Definition pdf_skills_text (skills : pyval) : pyval :=
  match skills with
  | PList l => PStr (join ", " (map py_str l))
  | _ => skills
  end.

(** The body of the loop over [data.get('skills', {}).items()]. *)
Definition pdf_skill_line (item : string * pyval) : result flowable :=
  let (category, skills) := item in
  paragraph (PStr ("<b>" ++ category ++ ":</b> " ++ py_str (pdf_skills_text skills)))
    StyleBody.

(** [for point in job.get('points', []): story.append(Paragraph(...))]. *)
Definition pdf_bullets (job : pyval) : result (list flowable) :=
  points <- py_get job "points" (PList []) ;;
  ps <- py_iter points ;;
  map_result (fun point => paragraph (PStr ("• " ++ py_str point)) StyleBullet) ps.

(** The body of the loop over [data.get('experience', [])]. *)
Definition pdf_job (job : pyval) : result (list flowable) :=
  title <- py_get job "title" (PStr "") ;;
  dates <- py_get job "dates" (PStr "") ;;
  heading1 <- paragraph (PStr ("<b>" ++ py_str title ++ "</b> | " ++ py_str dates))
                StyleExpTitle ;;
  company <- py_get job "company" (PStr "") ;;
  location <- py_get job "location" (PStr "") ;;
  heading2 <- paragraph (PStr (py_str company ++ " - " ++ py_str location))
                StyleCompany ;;
  bullets <- pdf_bullets job ;;
  Ok ([ heading1; heading2 ] ++ bullets ++ [ Spacer 1 6 ])%list.

(** [generate_pdf(data, output_path)]: the story, once [doc.build] has
    written it.  [output_path] is the name of the file inside the output
    folder. *)
Definition generate_pdf (data : pyval) (output_path : string)
  : result (list flowable) :=
  name <- py_get data "name" (PStr "") ;;
  p_name <- paragraph name StyleName ;;
  title <- py_get data "title" (PStr "") ;;
  p_title <- paragraph title StyleJobTitle ;;
  email <- py_get data "email" (PStr "") ;;
  phone <- py_get data "phone" (PStr "") ;;
  location <- py_get data "location" (PStr "") ;;
  p_contact <- paragraph (PStr (py_str email ++ " &nbsp;|&nbsp; " ++ py_str phone
                                ++ " &nbsp;|&nbsp; " ++ py_str location))
                 StyleContact ;;
  h_summary <- paragraph (PStr "PROFESSIONAL SUMMARY") StyleSection ;;
  summary <- py_get data "summary" (PStr "") ;;
  p_summary <- paragraph summary StyleBody ;;
  h_skills <- paragraph (PStr "TECHNICAL SKILLS") StyleSection ;;
  skills <- py_get data "skills" (PDict []) ;;
  items <- py_items skills ;;
  lines <- map_result pdf_skill_line items ;;
  h_experience <- paragraph (PStr "PROFESSIONAL EXPERIENCE") StyleSection ;;
  experience <- py_get data "experience" (PList []) ;;
  jobs <- py_iter experience ;;
  blocks <- map_result pdf_job jobs ;;
  let story :=
    ([ p_name; p_title; p_contact; h_summary; p_summary; h_skills ]
     ++ lines ++ [ h_experience ] ++ List.concat blocks)%list in
  _ <- doc_build output_path story ;;
  Ok story.

(* ------------------------------------------------------------------ *)
(** *** generate_docx *)

(** The skills text of the DOCX: a non-empty list whose elements all
    print in at most two characters is glued back together. *)
Definition docx_skills_text (skills : pyval) : string :=
  match skills with
  | PList l =>
      if truthy skills && forallb (fun s => (py_len (py_str s) <=? 2)%nat) l
      then String.concat "" (map py_str l)
      else join ", " (map py_str l)
  | _ => py_str skills
  end.

(** The body of the loop over [data['skills'].items()]. *)
Definition docx_skill_line (item : string * pyval) : result block :=
  let (category, skills) := item in
  _ <- add_paragraph (PStr "") None ;;
  r1 <- new_run (category ++ ": ") true ;;
  r2 <- new_run (docx_skills_text skills) false ;;
  Ok (AddParagraph (PStr "") None [ r1; r2 ]).

(** [for point in job['points']: doc.add_paragraph(point, style='List Bullet')]. *)
Definition docx_bullets (job : pyval) : result (list block) :=
  points <- py_item job "points" ;;
  ps <- py_iter points ;;
  map_result (fun point => text_paragraph point (Some "List Bullet")) ps.

(** The body of the loop over [data['experience']]. *)
Definition docx_job (job : pyval) : result (list block) :=
  _ <- add_paragraph (PStr "") None ;;
  title <- py_item job "title" ;;
  r1 <- new_run (py_str title) true ;;
  company <- py_item job "company" ;;
  dates <- py_item job "dates" ;;
  r2 <- new_run (" | " ++ py_str company ++ " | " ++ py_str dates) false ;;
  bullets <- docx_bullets job ;;
  Ok (AddParagraph (PStr "") None [ r1; r2 ] :: bullets).

(** [generate_docx(data, output_path)]: the blocks added, once
    [doc.save] has written them.  [output_path] is the name of the file
    inside the output folder. *)
Definition generate_docx (data : pyval) (output_path : string)
  : result (list block) :=
  name <- py_item data "name" ;;
  b_name <- heading name 0 ;;
  title <- py_item data "title" ;;
  b_title <- text_paragraph title None ;;
  email <- py_item data "email" ;;
  phone <- py_item data "phone" ;;
  location <- py_item data "location" ;;
  b_contact <- text_paragraph (PStr (py_str email ++ " | " ++ py_str phone ++ " | "
                                     ++ py_str location)) None ;;
  h_summary <- heading (PStr "Professional Summary") 1 ;;
  summary <- py_item data "summary" ;;
  b_summary <- text_paragraph summary None ;;
  h_skills <- heading (PStr "Technical Skills") 1 ;;
  skills <- py_item data "skills" ;;
  items <- py_items skills ;;
  lines <- map_result docx_skill_line items ;;
  h_experience <- heading (PStr "Professional Experience") 1 ;;
  experience <- py_item data "experience" ;;
  jobs <- py_iter experience ;;
  blocks <- map_result docx_job jobs ;;
  let added :=
    ([ b_name; b_title; b_contact; h_summary; b_summary; h_skills ]
     ++ lines ++ [ h_experience ] ++ List.concat blocks)%list in
  _ <- doc_save output_path added ;;
  Ok added.

End WithBuiltins.

(* ------------------------------------------------------------------ *)
(** *** main *)

Section CommandLine.
Context `{B : Builtins} `{P : PathBuiltins} `{L : DocumentLibraries}.

(** [input(...).strip() or default]. *)
Definition stripped_or (line default : string) : string :=
  let s := py_strip line in
  if String.eqb s "" then default else s.

(** The [while True] loop that reads the job description: [stdin] holds
    the lines [input()] will return, [lines] the list built so far.  The
    result is the list at [break] with the lines left unread; [None]
    stands for the [EOFError] of [input()] on exhausted input. *)
Fixpoint read_description_lines (stdin lines : list string)
  : option (list string * list string) :=
  match stdin with
  | [] => None
  | line :: stdin' =>
      if String.eqb line ""
         && match lines with [] => false | _ => true end
         && String.eqb (last lines "") ""
      then Some (lines, stdin')
      else read_description_lines stdin' (lines ++ [line])
  end.

(** ["\n".join(lines[:-1]) if lines else "Software Engineer role"]. *)
Definition job_description_of (lines : list string) : string :=
  match lines with
  | [] => "Software Engineer role"
  | _ => join nl (removelast lines)
  end.

(** [company.lower().replace(' ', '_').replace('.', '')]. *)
Definition safe_company (company : string) : string :=
  str_remove_char "." (str_replace_char " " "_" (py_lower company)).

Inductive written_file : Type :=
| WrittenPdf (name : string) (story : list flowable)
| WrittenDocx (name : string) (blocks : list block).

(** How [main] ends: one of its three early returns ("Could not load
    resume", end of input, "Failed to generate structured resume"), an
    exception leaving it, or its last line. *)
Inductive main_end : Type :=
| CouldNotLoadResume
| EndOfInput
| GenerationFailed
| Crashed (e : exn)
| Finished.

Record main_result : Type := {
  written : list written_file;
  ending : main_end
}.

Definition ends (e : main_end) : main_result :=
  {| written := []; ending := e |}.

(** [main()], given the lines typed at the prompts.  The files are named
    as in the [output] folder; a renderer that raises leaves no file. *)
Definition main (stdin : list string) (w : world) : main_result * world :=
  match load_resume (files w) with
  | None => (ends CouldNotLoadResume, w)
  | Some resume =>
      if String.eqb resume "" then (ends CouldNotLoadResume, w) else
      match stdin with
      | [] => (ends EndOfInput, w)
      | line1 :: stdin1 =>
          let job_title := stripped_or line1 "Senior Software Engineer" in
          match stdin1 with
          | [] => (ends EndOfInput, w)
          | line2 :: stdin2 =>
              let company := stripped_or line2 "Google" in
              match read_description_lines stdin2 [] with
              | None => (ends EndOfInput, w)
              | Some (lines, _) =>
                  let job_description := job_description_of lines in
                  match get_structured_resume (PStr job_title) (PStr company)
                          (PStr job_description)
                          (PStr (str_slice (8 * 1000) resume)) w with
                  | (Raise e, w') => (ends (Crashed e), w')
                  | (Ok data, w') =>
                      if negb (truthy data) then (ends GenerationFailed, w') else
                      match mkdir_output with
                      | Raise e => (ends (Crashed e), w')
                      | Ok _ =>
                      let pdf_name := "resume_" ++ safe_company company ++ ".pdf" in
                      let docx_name := "resume_" ++ safe_company company ++ ".docx" in
                      match generate_pdf data pdf_name with
                      | Raise e => (ends (Crashed e), w')
                      | Ok story =>
                          match generate_docx data docx_name with
                          | Raise e =>
                              ({| written := [ WrittenPdf pdf_name story ];
                                  ending := Crashed e |}, w')
                          | Ok blocks =>
                              ({| written := [ WrittenPdf pdf_name story;
                                               WrittenDocx docx_name blocks ];
                                  ending := Finished |}, w')
                          end
                      end
                      end
                  end
              end
          end
      end
  end.

End CommandLine.

End GenerateResume.
(* ------------------------------------------------------------------ *)
(** ** app.py *)

Module App.

Section WithBuiltins.
Context `{B : Builtins} `{L : DocumentLibraries}.

Definition USER_PROFILE : list (string * pyval) :=
  [ ("name", PStr "Muhammad Kasim Naina Mohammed");
    ("email", PStr "mohammedmazhermd@gmail.com");
    ("phone", PStr "(510) 771-4493");
    ("linkedin", PStr "https://www.linkedin.com/in/muhammad-kasim-0b297416/");
    ("location", PStr "San Jose, CA") ].

(** [USER_PROFILE[k]] for one of its five keys. *)
Definition profile (k : string) : pyval :=
  match lookup k USER_PROFILE with
  | Some v => v
  | None => PNone
  end.

(* ------------------------------------------------------------------ *)
(** *** save_session, load_session *)

Definition save_session (data : pyval) : M unit :=
  fun w => (Ok tt, with_session w (Some data)).

Definition load_session : M pyval :=
  fun w =>
    (Ok (match session_file w with Some data => data | None => PDict [] end), w).

(* ------------------------------------------------------------------ *)
(** *** get_llm_config, call_llm *)

(** The key literal of the source is not repeated here; the code only
    tests that it is not empty and sends it in the request header. *)
Definition DEFAULT_CEREBRAS_KEY : string := "csk-default".

Record provider : Type := {
  p_url : string;
  p_model : string;
  p_env_key : string;
  p_default_key : string
}.

(** A provider without a ["default_key"] entry has the default [""]. *)
Definition LLM_PROVIDERS : list (string * provider) :=
  [ ("cerebras",
     {| p_url := "https://api.cerebras.ai/v1/chat/completions";
        p_model := "llama-3.3-70b";
        p_env_key := "CEREBRAS_API_KEY";
        p_default_key := DEFAULT_CEREBRAS_KEY |});
    ("groq",
     {| p_url := "https://api.groq.com/openai/v1/chat/completions";
        p_model := "llama-3.3-70b-versatile";
        p_env_key := "GROQ_API_KEY";
        p_default_key := "" |});
    ("openrouter",
     {| p_url := "https://openrouter.ai/api/v1/chat/completions";
        p_model := "meta-llama/llama-3.3-70b-instruct:free";
        p_env_key := "OPENROUTER_API_KEY";
        p_default_key := "" |}) ].

Record llm_config : Type := {
  cfg_provider : string;
  cfg_url : string;
  cfg_model : string;
  cfg_api_key : string
}.

(** The loop of [get_llm_config] over [LLM_PROVIDERS.items()]. *)
Fixpoint first_available (env : list (string * string))
    (providers : list (string * provider)) : result llm_config :=
  match providers with
  | [] => Raise ValueError
  | (provider_name, config) :: providers' =>
      let from_env := environ_get env (p_env_key config) "" in
      let api_key :=
        if negb (String.eqb from_env "") then from_env else p_default_key config in
      if negb (String.eqb api_key "")
      then Ok {| cfg_provider := provider_name;
                 cfg_url := p_url config;
                 cfg_model := p_model config;
                 cfg_api_key := api_key |}
      else first_available env providers'
  end.

Definition get_llm_config : M llm_config :=
  fun w => (first_available (environ w) LLM_PROVIDERS, w).

Local Open Scope M_scope.

(** [response.raise_for_status()]. *)
Definition raise_for_status (r : response) : result unit :=
  if (400 <=? status_code r)%Z && (status_code r <? 600)%Z
  then Raise HTTPError
  else Ok tt.

(** [call_llm(prompt, max_tokens)]. *)
Definition call_llm (prompt : string) (max_tokens : Z) : M pyval :=
  config <- get_llm_config ;;
  response <- requests_post
    {| req_url := cfg_url config;
       req_headers := [ ("Authorization", "Bearer " ++ cfg_api_key config);
                        ("Content-Type", "application/json") ];
       req_payload :=
         PDict [ ("model", PStr (cfg_model config));
                 ("messages",
                  PList [ PDict [ ("role", PStr "user");
                                  ("content", PStr prompt) ] ]);
                 ("temperature", PFloat (7 # 10));
                 ("max_tokens", PInt max_tokens) ];
       req_timeout := Some 120%Z |} ;;
  _ <- lift (raise_for_status response) ;;
  lift (body <- response_json response ;;
        message_content body)%result.

(* ------------------------------------------------------------------ *)
(** *** extract_job_info *)

Definition extract_prompt_prefix : string :=
  "Extract the following from this job description and return as JSON:" ++ nl
  ++ "- job_title: The job title/position" ++ nl
  ++ "- company: The company name (or recruiter company if client not mentioned)" ++ nl
  ++ "- location: The job location" ++ nl
  ++ "- job_type: remote/hybrid/onsite" ++ nl
  ++ "- key_skills: List of top 5-7 required skills" ++ nl
  ++ nl
  ++ "Job Description:" ++ nl
  ++ "".

Definition extract_prompt_suffix : string :=
  nl
  ++ nl
  ++ "Return ONLY valid JSON, no other text:" ++ nl
  ++ "{" ++ dq ++ "job_title" ++ dq ++ ": " ++ dq ++ "..." ++ dq ++ ", " ++ dq ++ "company" ++ dq ++ ": " ++ dq ++ "..." ++ dq ++ ", " ++ dq ++ "location" ++ dq ++ ": " ++ dq ++ "..." ++ dq ++ ", " ++ dq ++ "job_type" ++ dq ++ ": " ++ dq ++ "..." ++ dq ++ ", " ++ dq ++ "key_skills" ++ dq ++ ": [...]}".


(** The text from the first ['{'] on, brace included. *)
Fixpoint from_first_open (s : string) : option string :=
  match s with
  | EmptyString => None
  | String c s' =>
      if Ascii.eqb c "{"%char then Some s else from_first_open s'
  end.

(** The longest prefix of [s] that ends in ['}']. *)
Fixpoint upto_last_close (s : string) : option string :=
  match s with
  | EmptyString => None
  | String c s' =>
      match upto_last_close s' with
      | Some t => Some (String c t)
      | None => if Ascii.eqb c "}"%char then Some (String c EmptyString) else None
      end
  end.

(** [re.search(r'\{.*\}', s, re.DOTALL)] and [match.group()]: the match
    starts at the first ['{'] that a ['}'] follows and, [.*] being greedy
    and matching newlines, runs to the last ['}'] of the text. *)
Definition search_braces (s : string) : option string :=
  match from_first_open s with
  | Some (String c rest) =>
      match upto_last_close rest with
      | Some t => Some (String c t)
      | None => None
      end
  | _ => None
  end.

Definition default_job_info : pyval :=
  PDict [ ("job_title", PStr "Software Engineer");
          ("company", PStr "Company");
          ("location", PStr "Remote");
          ("job_type", PStr "hybrid");
          ("key_skills", PList []) ].

(** The [try] block of [extract_job_info]: [Ok (Some v)] is [return v]
    from inside it, [Ok None] is falling out of it. *)
Definition parse_job_info (result_ : pyval) : result (option pyval) :=
  match result_ with
  | PStr s =>
      match search_braces s with
      | Some group =>
          match json_loads group with
          | Ok v => Ok (Some v)
          | Raise e => Raise e
          end
      | None => Ok None
      end
  | _ => Raise TypeError
  end.

(** What [extract_job_info] does with the text [call_llm] returned. *)
Definition job_info_of_response (result_ : pyval) : pyval :=
  match parse_job_info result_ with
  | Ok (Some v) => v
  | Ok None => default_job_info
  | Raise _ => default_job_info
  end.

Definition extract_prompt (job_description : pyval) : string :=
  extract_prompt_prefix ++ py_str job_description ++ extract_prompt_suffix.

Definition extract_job_info (job_description : pyval) : M pyval :=
  result_ <- call_llm (extract_prompt job_description) 500 ;;
  ret (job_info_of_response result_).

(* ------------------------------------------------------------------ *)
(** *** generate_resume_data *)

(** [data['name'] = USER_PROFILE['name']] and the four lines after it. *)
Definition override_contact (data : pyval) : result pyval :=
  (d1 <- py_setitem data "name" (profile "name") ;;
   d2 <- py_setitem d1 "email" (profile "email") ;;
   d3 <- py_setitem d2 "phone" (profile "phone") ;;
   d4 <- py_setitem d3 "linkedin" (profile "linkedin") ;;
   py_setitem d4 "location" (profile "location"))%result.

Definition resume_value (r : option string) : pyval :=
  match r with
  | Some s => PStr s
  | None => PNone
  end.

(** [generate_resume_data]; the Python [None] it returns is [PNone]. *)
Definition generate_resume_data (job_info job_description : pyval) : M pyval :=
  try_except
    (resume <- ask (fun w => GenerateResume.load_resume (files w)) ;;
     job_title <- lift (py_get job_info "job_title" (PStr "Software Engineer")) ;;
     company <- lift (py_get job_info "company" (PStr "Company")) ;;
     data <- GenerateResume.get_structured_resume job_title company
               job_description (resume_value resume) ;;
     if truthy data
     then lift (override_contact data)
     else ret PNone)
    any_exception
    (fun _ => ret PNone).

(* ------------------------------------------------------------------ *)
(** *** generate_response_email *)

Definition email_prompt_0 : string :=
  "Write a professional, concise job application response email." ++ nl
  ++ nl
  ++ "Job Title: ".

Definition email_prompt_2 : string :=
  nl
  ++ "Company: ".

Definition email_prompt_4 : string :=
  nl
  ++ "Location: ".

Definition email_prompt_6 : string :=
  nl
  ++ "Key Skills Required: ".

Definition email_prompt_8 : string :=
  nl
  ++ nl
  ++ "Candidate Info:" ++ nl
  ++ "- Name: ".

Definition email_prompt_10 : string :=
  nl
  ++ "- 12+ years Java/microservices experience" ++ nl
  ++ "- Currently at Intuit, previously at Amazon, PayPal, Citi" ++ nl
  ++ "- Expert in: Java, Spring Boot, Microservices, Kubernetes, Kafka, AWS" ++ nl
  ++ nl
  ++ "Write a SHORT (under 150 words) professional email expressing interest. Include:" ++ nl
  ++ "1. Thank them for reaching out" ++ nl
  ++ "2. Brief highlight of relevant experience (2-3 bullet points max)" ++ nl
  ++ "3. Mention availability for interview" ++ nl
  ++ "4. Professional signature with contact info" ++ nl
  ++ nl
  ++ "Return ONLY the email body, no subject line.".

Definition generate_response_email (job_info job_description : pyval) : M pyval :=
  job_title <- lift (py_get job_info "job_title" PNone) ;;
  company <- lift (py_get job_info "company" PNone) ;;
  location <- lift (py_get job_info "location" PNone) ;;
  key_skills <- lift (py_get job_info "key_skills" (PList [])) ;;
  skills <- lift (py_join ", " key_skills) ;;
  call_llm
    (email_prompt_0 ++ py_str job_title
     ++ email_prompt_2 ++ py_str company
     ++ email_prompt_4 ++ py_str location
     ++ email_prompt_6 ++ skills
     ++ email_prompt_8 ++ py_str (profile "name")
     ++ email_prompt_10)
    500.

(* ------------------------------------------------------------------ *)
(** *** The route /api/generate *)

Inductive generate_response : Type :=
| JobDescriptionRequired                        (* 400 *)
| Generated (job_info email : pyval)            (* 200, with the resume url *)
| ServerError (e : exn).                        (* 500, with [str(e)] *)

(** [generate()], given [request.json]. *)
Definition generate (data : pyval) : M generate_response :=
  job_description <- lift (py_get data "job_description" (PStr "")) ;;
  if negb (truthy job_description) then ret JobDescriptionRequired else
  try_except
    (job_info <- extract_job_info job_description ;;
     resume_data <- generate_resume_data job_info job_description ;;
     _ <- save_session (PDict [ ("resume", resume_data);
                                ("job_info", job_info);
                                ("jd", job_description) ]) ;;
     email <- generate_response_email job_info job_description ;;
     ret (Generated job_info email))
    any_exception
    (fun e => ret (ServerError e)).

(* ------------------------------------------------------------------ *)
(** *** generate_pdf, generate_docx *)

Local Open Scope result_scope.

(** The body of the loop over [data['skills'].items()]. *)
Definition pdf_skill_line (item : string * pyval) : result flowable :=
  let (category, skills) := item in
  joined <- py_join ", " skills ;;
  paragraph (PStr ("<b>" ++ category ++ ":</b> " ++ joined)) StyleNormal.

(** [for bullet in job.get('bullets', [])[:4]: story.append(Paragraph(...))]. *)
Definition pdf_bullets (job : pyval) : result (list flowable) :=
  bullets <- py_get job "bullets" (PList []) ;;
  first4 <- py_slice 4 bullets ;;
  bs <- py_iter first4 ;;
  map_result (fun bullet => paragraph (PStr ("• " ++ py_str bullet)) StyleNormal) bs.

(** The body of the loop over [data.get('experience', [])]. *)
Definition pdf_job (job : pyval) : result (list flowable) :=
  title <- py_get job "title" (PStr "") ;;
  company <- py_get job "company" (PStr "") ;;
  heading1 <- paragraph (PStr ("<b>" ++ py_str title ++ "</b> | " ++ py_str company))
                StyleNormal ;;
  dates <- py_get job "dates" (PStr "") ;;
  location <- py_get job "location" (PStr "") ;;
  heading2 <- paragraph (PStr (py_str dates ++ " | " ++ py_str location))
                StyleNormal ;;
  bullets <- pdf_bullets job ;;
  Ok ([ heading1; heading2 ] ++ bullets ++ [ Spacer 1 8 ])%list.

(** The part under [if data.get('summary')]. *)
Definition pdf_summary (data : pyval) : result (list flowable) :=
  summary <- py_get data "summary" PNone ;;
  if truthy summary
  then h <- paragraph (PStr "<b>PROFESSIONAL SUMMARY</b>") StyleHeading2 ;;
       text <- py_item data "summary" ;;
       p <- paragraph text StyleNormal ;;
       Ok [ h; p; Spacer 1 12 ]
  else Ok [].

(** The part under [if data.get('skills')]. *)
Definition pdf_skills (data : pyval) : result (list flowable) :=
  skills <- py_get data "skills" PNone ;;
  if truthy skills
  then h <- paragraph (PStr "<b>TECHNICAL SKILLS</b>") StyleHeading2 ;;
       skills' <- py_item data "skills" ;;
       items <- py_items skills' ;;
       lines <- map_result pdf_skill_line items ;;
       Ok ([ h ] ++ lines ++ [ Spacer 1 12 ])%list
  else Ok [].

(** [generate_pdf(data, output_path)]: the story, once [doc.build] has
    written it.  [output_path] is the name of the file inside the output
    folder. *)
Definition generate_pdf (data : pyval) (output_path : string)
  : result (list flowable) :=
  name <- py_get data "name" (PStr "") ;;
  p_name <- paragraph name StyleName ;;
  email <- py_get data "email" (PStr "") ;;
  phone <- py_get data "phone" (PStr "") ;;
  location <- py_get data "location" (PStr "") ;;
  p_contact <- paragraph (PStr (py_str email ++ " | " ++ py_str phone ++ " | "
                                ++ py_str location)) StyleNormal ;;
  summary <- pdf_summary data ;;
  skills <- pdf_skills data ;;
  h_experience <- paragraph (PStr "<b>PROFESSIONAL EXPERIENCE</b>") StyleHeading2 ;;
  experience <- py_get data "experience" (PList []) ;;
  jobs <- py_iter experience ;;
  blocks <- map_result pdf_job jobs ;;
  let story :=
    ([ p_name; p_contact; Spacer 1 12 ]
     ++ summary ++ skills ++ [ h_experience ] ++ List.concat blocks)%list in
  _ <- doc_build output_path story ;;
  Ok story.

(** The body of the loop over [data['skills'].items()]. *)
Definition docx_skill_line (item : string * pyval) : result block :=
  let (category, skills) := item in
  _ <- add_paragraph (PStr "") None ;;
  r1 <- new_run (category ++ ": ") true ;;
  joined <- py_join ", " skills ;;
  r2 <- new_run joined false ;;
  Ok (AddParagraph (PStr "") None [ r1; r2 ]).

(** [for bullet in job.get('bullets', [])[:4]: doc.add_paragraph(...)]. *)
Definition docx_bullets (job : pyval) : result (list block) :=
  bullets <- py_get job "bullets" (PList []) ;;
  first4 <- py_slice 4 bullets ;;
  bs <- py_iter first4 ;;
  map_result (fun bullet => text_paragraph (PStr ("• " ++ py_str bullet)) None) bs.

(** The body of the loop over [data.get('experience', [])]. *)
Definition docx_job (job : pyval) : result (list block) :=
  _ <- add_paragraph (PStr "") None ;;
  title <- py_get job "title" (PStr "") ;;
  r1 <- new_run (py_str title) true ;;
  company <- py_get job "company" (PStr "") ;;
  r2 <- new_run (" | " ++ py_str company) false ;;
  dates <- py_get job "dates" (PStr "") ;;
  location <- py_get job "location" (PStr "") ;;
  heading2 <- text_paragraph (PStr (py_str dates ++ " | " ++ py_str location)) None ;;
  bullets <- docx_bullets job ;;
  Ok ([ AddParagraph (PStr "") None [ r1; r2 ]; heading2 ] ++ bullets)%list.

(** The part under [if data.get('summary')]. *)
Definition docx_summary (data : pyval) : result (list block) :=
  summary <- py_get data "summary" PNone ;;
  if truthy summary
  then h <- heading (PStr "Professional Summary") 1 ;;
       text <- py_item data "summary" ;;
       p <- text_paragraph text None ;;
       Ok [ h; p ]
  else Ok [].

(** The part under [if data.get('skills')]. *)
Definition docx_skills (data : pyval) : result (list block) :=
  skills <- py_get data "skills" PNone ;;
  if truthy skills
  then h <- heading (PStr "Technical Skills") 1 ;;
       skills' <- py_item data "skills" ;;
       items <- py_items skills' ;;
       lines <- map_result docx_skill_line items ;;
       Ok (h :: lines)
  else Ok [].

(** [generate_docx(data, output_path)]: the blocks added, once
    [doc.save] has written them.  [output_path] is the name of the file
    inside the output folder. *)
Definition generate_docx (data : pyval) (output_path : string)
  : result (list block) :=
  name <- py_get data "name" (PStr "") ;;
  b_name <- heading name 0 ;;
  _ <- add_paragraph (PStr "") None ;;
  email <- py_get data "email" (PStr "") ;;
  phone <- py_get data "phone" (PStr "") ;;
  location <- py_get data "location" (PStr "") ;;
  r_contact <- new_run (py_str email ++ " | " ++ py_str phone ++ " | "
                        ++ py_str location) false ;;
  summary <- docx_summary data ;;
  skills <- docx_skills data ;;
  h_experience <- heading (PStr "Professional Experience") 1 ;;
  experience <- py_get data "experience" (PList []) ;;
  jobs <- py_iter experience ;;
  blocks <- map_result docx_job jobs ;;
  let added :=
    ([ b_name; AddParagraph (PStr "") None [ r_contact ] ]
     ++ summary ++ skills ++ [ h_experience ] ++ List.concat blocks)%list in
  _ <- doc_save output_path added ;;
  Ok added.

(* ------------------------------------------------------------------ *)
(** *** The route /api/resume/download *)

Inductive document : Type :=
| PdfDocument (story : list flowable)
| DocxDocument (blocks : list block).

(** What the route answers: the 400 error, or [send_file] of the file
    just written in the output folder, under a download name. *)
Inductive download_response : Type :=
| NoResumeGenerated
| SendFile (download_name : string) (file_name : string) (doc : document).

Definition no_resume_message : string :=
  "No resume generated yet. Please generate first!".

Local Open Scope M_scope.

(** [download_resume()], given the query arguments [format] and
    [company] (absent ones take the defaults ['pdf'] and ['resume']).
    An exception of [mkdir] or of a renderer leaves the route. *)
Definition download_resume (format company : option string) : M download_response :=
  let format_type := match format with Some f => f | None => "pdf" end in
  let company := match company with Some c => c | None => "resume" end in
  session <- load_session ;;
  resume_data <- lift (py_get session "resume" PNone) ;;
  if negb (truthy resume_data) then ret NoResumeGenerated else
  _ <- lift mkdir_output ;;
  let filename := "resume_" ++ company ++ "_" ++ format_type in
  let filepath := filename ++ "." ++ format_type in
  doc <- (if String.eqb format_type "pdf"
          then story <- lift (generate_pdf resume_data filepath) ;;
               ret (PdfDocument story)
          else blocks <- lift (generate_docx resume_data filepath) ;;
               ret (DocxDocument blocks)) ;;
  ret (SendFile ("resume_" ++ company ++ "." ++ format_type) filepath doc).

End WithBuiltins.

End App.
(* ------------------------------------------------------------------ *)
(** ** Notions used to state properties *)

(** What an operation may do to the world: post at most [n] requests,
    which are appended to the log, and leave the environment, the files
    and the backend alone. *)
Definition posts_at_most (n : nat) (w w' : world) : Prop :=
  environ w' = environ w /\ files w' = files w /\ backend w' = backend w
  /\ exists rs, calls w' = (calls w ++ rs)%list /\ (length rs <= n)%nat.

(** The number of items the loop over [job.get('points', [])] visits;
    0 when the entry has no such loop to run. *)
Definition points_count (job : pyval) : nat :=
  match py_get job "points" (PList []) with
  | Ok points =>
      match py_iter points with
      | Ok ps => length ps
      | Raise _ => 0
      end
  | Raise _ => 0
  end.

(** What an f-string prints for [job.get(k, '')]. *)
Definition field_text `{Builtins} (job : pyval) (k : string) : string :=
  match py_get job k (PStr "") with
  | Ok v => py_str v
  | Raise _ => ""
  end.

(** The flowables of an experience entry in the web app's PDF when no
    bullet is rendered: the two heading lines and the spacer. *)
Definition pdf_entry_heading `{Builtins} (job : pyval) : list flowable :=
  [ Paragraph (PStr ("<b>" ++ field_text job "title" ++ "</b> | "
                     ++ field_text job "company")) StyleNormal;
    Paragraph (PStr (field_text job "dates" ++ " | "
                     ++ field_text job "location")) StyleNormal;
    Spacer 1 8 ].

(** The paragraphs of an experience entry in the web app's DOCX when no
    bullet is rendered: the two heading paragraphs. *)
Definition docx_entry_heading `{Builtins} (job : pyval) : list block :=
  [ AddParagraph (PStr "") None
      [ {| run_text := field_text job "title"; run_bold := true |};
        {| run_text := " | " ++ field_text job "company"; run_bold := false |} ];
    AddParagraph (PStr (field_text job "dates" ++ " | "
                        ++ field_text job "location")) None [] ].

(** The bullet line the web app's renderers write for a bullet. *)
Definition pdf_bullet_line `{Builtins} (bullet : pyval) : flowable :=
  Paragraph (PStr ("• " ++ py_str bullet)) StyleNormal.

Definition docx_bullet_line `{Builtins} (bullet : pyval) : block :=
  AddParagraph (PStr ("• " ++ py_str bullet)) None [].

(** The text does not begin in the middle of a code point. *)
Definition starts_at_code_point (s : string) : bool :=
  match s with
  | EmptyString => true
  | String c _ => negb (is_continuation c)
  end.

(** The text one override section contributes: nothing when the key is
    missing or its value falsy, the rendered block otherwise. *)
Definition section_text (kv : list (string * pyval)) (key : string)
    (render : pyval -> result string) : result string :=
  match lookup key kv with
  | Some v => if truthy v then render v else Ok ""
  | None => Ok ""
  end.

(** The override file has the section: the key is there with a truthy
    value. *)
Definition has_section (kv : list (string * pyval)) (key : string) : bool :=
  match lookup key kv with
  | Some v => truthy v
  | None => false
  end.

(** The entries of a listing that [_scan_resumes] stores, in listing
    order, each with its key. *)
Definition accepted `{PathBuiltins} (entries : list ResumeHandler.dir_entry)
  : list (string * ResumeHandler.ResumeInfo) :=
  flat_map (fun e => match ResumeHandler.cache_entry e with
                     | Some p => [p]
                     | None => []
                     end) entries.

(** No two consecutive lines are both empty. *)
Fixpoint no_blank_pair (lines : list string) : bool :=
  match lines with
  | a :: (b :: _) as rest =>
      negb (String.eqb a "" && String.eqb b "") && no_blank_pair rest
  | _ => true
  end.

(* ------------------------------------------------------------------ *)
(** ** Concrete inputs for the examples *)

Module Samples.

Definition upper_ascii (c : ascii) : ascii :=
  let n := nat_of_ascii c in
  if (97 <=? n)%nat && (n <=? 122)%nat then ascii_of_nat (n - 32) else c.

(** [str.upper] on ASCII text. *)
Fixpoint ascii_upper (s : string) : string :=
  match s with
  | EmptyString => EmptyString
  | String c s' => String (upper_ascii c) (ascii_upper s')
  end.

(** A reply that is a JSON object: [{"title": "QA Engineer"}]. *)
Definition object_reply : string :=
  "{" ++ dq ++ "title" ++ dq ++ ": " ++ dq ++ "QA Engineer" ++ dq ++ "}".

(** JSON texts with the value [json.loads] gives for each. *)
Definition known_json : list (string * pyval) :=
  [ ("{}", PDict []);
    (object_reply, PDict [ ("title", PStr "QA Engineer") ]);
    ("5", PInt 5) ].

(** Built-ins for the examples: [json_loads] knows the texts of
    [known_json] and is only applied to them and to texts that are not
    JSON; [py_repr] is never reached, the examples printing only [str],
    [int] and [None] values. *)
Definition sample_builtins : Builtins :=
  {| py_repr := fun _ => "<repr>";
     py_upper := ascii_upper;
     json_loads := fun s =>
       match lookup s known_json with
       | Some v => Ok v
       | None => Raise JSONDecodeError
       end |}.

(** Text without control characters other than tab, newline and
    carriage return. *)
Fixpoint printable (s : string) : bool :=
  match s with
  | EmptyString => true
  | String c s' =>
      let n := nat_of_ascii c in
      ((32 <=? n)%nat || (n =? 9)%nat || (n =? 10)%nat || (n =? 13)%nat)
      && printable s'
  end.

(** Text in which every ['<'] starts a [<b>] or the [</b>] that closes
    it, the tags balanced and not nested, and every ['&'] starts
    [&nbsp;]. *)
Fixpoint simple_markup (in_bold : bool) (s : string) : bool :=
  match s with
  | EmptyString => negb in_bold
  | String c s' =>
      if Ascii.eqb c "<" then
        if String.prefix "b>" s' then negb in_bold && simple_markup true s'
        else if String.prefix "/b>" s' then in_bold && simple_markup false s'
        else false
      else if Ascii.eqb c "&" then
        String.prefix "nbsp;" s' && simple_markup in_bold s'
      else simple_markup in_bold s'
  end.

Definition sample_Paragraph (text : pyval) : result unit :=
  match text with
  | PStr s => if printable s && simple_markup false s then Ok tt else Raise ValueError
  | PNone => Raise AttributeError
  | _ => Raise TypeError
  end.

Definition sample_docx_text (text : pyval) : result unit :=
  match text with
  | PStr s => if printable s then Ok tt else Raise ValueError
  | _ => Raise TypeError
  end.

(** A file of the output folder can be created when its name has no
    ['/'], which would place it in a folder that does not exist. *)
Definition sample_create (name : string) : result unit :=
  if has_char "/" name then Raise FileNotFoundError else Ok tt.

(** Libraries for the examples, which take less than the real ones: a
    [Paragraph] takes a printable [str] of simple markup, python-docx a
    printable [str], and the output folder exists and has no
    sub-folder. *)
Definition sample_libraries : DocumentLibraries :=
  {| Paragraph_init := fun text _ => sample_Paragraph text;
     doc_build := fun name _ => sample_create name;
     add_heading := fun text _ => sample_docx_text text;
     add_paragraph := fun text _ => sample_docx_text text;
     add_run := fun text => sample_docx_text (PStr text);
     doc_save := fun name _ => sample_create name;
     mkdir_output := Ok tt |}.

(** An LLM response carrying [content]. *)
Definition reply (content : pyval) : response :=
  {| status_code := 200;
     response_json :=
       Ok (PDict [ ("choices",
                    PList [ PDict [ ("message",
                                     PDict [ ("role", PStr "assistant");
                                             ("content", content) ]) ] ]) ]) |}.

Definition sample_resume_info : ResumeHandler.ResumeInfo :=
  {| ResumeHandler.filename := "resume.txt";
     ResumeHandler.filepath := "/app/resumes/resume.txt";
     ResumeHandler.file_type := ".txt";
     ResumeHandler.size_bytes := 11;
     ResumeHandler.content := "BASE RESUME" |}.

Definition sample_files (role : option (result pyval)) : resume_files :=
  {| handler := Ok [ ("resume.txt", sample_resume_info) ];
     local_role := role;
     parent_role := None |}.

(** A world with a Groq key set, no role file, and a backend that gives
    the same outcome to every request. *)
Definition sample_world (outcome : result response) (session : option pyval)
  : world :=
  {| environ := [ ("GROQ_API_KEY", "gsk-test") ];
     files := sample_files None;
     backend := fun _ _ => outcome;
     calls := [];
     session_file := session |}.

(** An experience entry in the shape the tailoring prompt asks for, with
    six points. *)
Definition six_point_job : pyval :=
  PDict [ ("title", PStr "Senior Engineer");
          ("company", PStr "Citi");
          ("location", PStr "Tampa, FL");
          ("dates", PStr "Oct 2024 - Jun 2025");
          ("points", PList [ PStr "p1"; PStr "p2"; PStr "p3";
                             PStr "p4"; PStr "p5"; PStr "p6" ]) ].

Definition six_point_fields : list (string * pyval) :=
  [ ("name", PStr "Full Name");
    ("title", PStr "Senior Engineer");
    ("email", PStr "a@b.c");
    ("phone", PStr "555");
    ("location", PStr "San Jose, CA");
    ("linkedin", PStr "");
    ("summary", PStr "Summary.");
    ("skills", PDict [ ("Languages", PStr "Java, Python") ]);
    ("experience", PList [ six_point_job ]) ].

Definition six_point_resume : pyval := PDict six_point_fields.

(** Skills given as lists of strings: two words, and two fragments of at
    most two characters each. *)
Definition listed_skills : list (string * pyval) :=
  [ ("Languages", PList [ PStr "Java"; PStr "Python" ]);
    ("Short", PList [ PStr "Go"; PStr "C" ]) ].

Definition listed_skills_resume : pyval :=
  PDict [ ("name", PStr "Full Name");
          ("title", PStr "Senior Engineer");
          ("email", PStr "a@b.c");
          ("phone", PStr "555");
          ("location", PStr "San Jose, CA");
          ("summary", PStr "Summary.");
          ("skills", PDict listed_skills);
          ("experience", PList []) ].

(** An entry of the web app's shape, with six bullets. *)
Definition six_bullet_job : pyval :=
  PDict [ ("title", PStr "Senior Engineer");
          ("company", PStr "Citi");
          ("location", PStr "Tampa, FL");
          ("dates", PStr "Oct 2024 - Jun 2025");
          ("bullets", PList [ PStr "b1"; PStr "b2"; PStr "b3";
                              PStr "b4"; PStr "b5"; PStr "b6" ]) ].

Definition six_bullet_resume : pyval :=
  PDict [ ("name", PStr "Full Name");
          ("email", PStr "a@b.c");
          ("phone", PStr "555");
          ("location", PStr "San Jose, CA");
          ("skills", PDict listed_skills);
          ("experience", PList [ six_bullet_job ]) ].

(** An override file with all four sections. *)
Definition four_section_fields : list (string * pyval) :=
        [ ("current_experience",
           PDict [ ("company", PStr "Galaxy I Tech");
                   ("location", PStr "San Jose, CA");
                   ("dates", PStr "Jun 2025 - Present");
                   ("clients",
                    PList [ PDict [ ("name", PStr "Intuit");
                                    ("dates", PStr "Jun 2025 - Present");
                                    ("points", PList [ PStr "Built services" ]) ] ]) ]);
          ("missing_experience",
           PDict [ ("PayPal_QE",
                    PDict [ ("company", PStr "PayPal");
                            ("role_type", PStr "qe");
                            ("title", PStr "SDET");
                            ("points", PList [ PStr "Automated tests" ]) ]) ]);
          ("experience_restructure",
           PDict [ ("Altimetrik",
                    PDict [ ("dates", PStr "2014 - 2021");
                            ("type", PStr "Contract");
                            ("clients", PList [ PStr "PayPal"; PStr "Intuit" ]) ]) ]);
          ("date_corrections",
           PDict [ ("Amazon", PStr "Sep 2022 - Oct 2023") ]) ].

Definition four_section_config : pyval := PDict four_section_fields.

(** An override file with all four sections, in which the one client of
    the current role has no ["dates"]. *)
Definition undated_client_fields : list (string * pyval) :=
  [ ("current_experience",
     PDict [ ("company", PStr "Galaxy I Tech");
             ("clients",
              PList [ PDict [ ("name", PStr "Intuit");
                              ("points", PList [ PStr "Built services" ]) ] ]) ]);
    ("missing_experience",
     PDict [ ("PayPal_QE", PDict [ ("company", PStr "PayPal") ]) ]);
    ("experience_restructure",
     PDict [ ("Altimetrik", PDict [ ("dates", PStr "2014 - 2021") ]) ]);
    ("date_corrections",
     PDict [ ("Amazon", PStr "Sep 2022 - Oct 2023") ]) ].

Definition undated_client_config : pyval := PDict undated_client_fields.

Definition lower_ascii (c : ascii) : ascii :=
  let n := nat_of_ascii c in
  if (65 <=? n)%nat && (n <=? 90)%nat then ascii_of_nat (n + 32) else c.

(** [str.lower] on ASCII text. *)
Fixpoint ascii_lower (s : string) : string :=
  match s with
  | EmptyString => EmptyString
  | String c s' => String (lower_ascii c) (ascii_lower s')
  end.

Definition is_blank (c : ascii) : bool :=
  let n := nat_of_ascii c in
  (n =? 32)%nat || ((9 <=? n)%nat && (n <=? 13)%nat).

Fixpoint lstrip (s : string) : string :=
  match s with
  | String c s' => if is_blank c then lstrip s' else s
  | EmptyString => EmptyString
  end.

Definition reverse (s : string) : string :=
  string_of_list_ascii (rev (list_ascii_of_string s)).

(** [str.strip] on ASCII text. *)
Definition ascii_strip (s : string) : string :=
  reverse (lstrip (reverse (lstrip s))).

(** The part of [s] from its last ['.'] on. *)
Fixpoint from_last_dot (s : string) : option string :=
  match s with
  | EmptyString => None
  | String c s' =>
      match from_last_dot s' with
      | Some t => Some t
      | None => if Ascii.eqb c "." then Some s else None
      end
  end.

(** [Path(name).suffix]: the name from its last dot on, unless that dot
    is the first or the last character. *)
Definition name_suffix (name : string) : string :=
  match name with
  | String _ rest =>
      match from_last_dot rest with
      | Some t => if (String.length t =? 1)%nat then "" else t
      | None => ""
      end
  | EmptyString => ""
  end.

Definition sample_path_builtins : PathBuiltins :=
  {| py_lower := ascii_lower;
     py_strip := ascii_strip;
     path_suffix := name_suffix |}.

(** A directory entry that is a plain file read without error. *)
Definition text_file (name text : string) : ResumeHandler.dir_entry :=
  {| ResumeHandler.de_name := name;
     ResumeHandler.de_absolute := "/app/resumes/" ++ name;
     ResumeHandler.de_is_file := true;
     ResumeHandler.de_size := Ok (Z.of_nat (String.length text));
     ResumeHandler.de_pdf_pages := Raise ValueError;
     ResumeHandler.de_docx_paragraphs := Raise ValueError;
     ResumeHandler.de_text := Ok text |}.

(** A sub-directory of the resume folder. *)
Definition sub_directory (name : string) : ResumeHandler.dir_entry :=
  {| ResumeHandler.de_name := name;
     ResumeHandler.de_absolute := "/app/resumes/" ++ name;
     ResumeHandler.de_is_file := false;
     ResumeHandler.de_size := Ok 4096%Z;
     ResumeHandler.de_pdf_pages := Raise OSError;
     ResumeHandler.de_docx_paragraphs := Raise OSError;
     ResumeHandler.de_text := Raise OSError |}.

(** A listing with a sub-directory, notes in an unsupported format, a
    PDF that PyPDF2 cannot read, and two readable resumes. *)
Definition sample_listing : list ResumeHandler.dir_entry :=
  [ sub_directory "old";
    text_file "notes.md" "todo";
    text_file "broken.pdf" "%PDF";
    text_file "cv.TXT" "MY CV";
    text_file "second.txt" "OTHER CV" ].

Definition cv_info : ResumeHandler.ResumeInfo :=
  {| ResumeHandler.filename := "cv.TXT";
     ResumeHandler.filepath := "/app/resumes/cv.TXT";
     ResumeHandler.file_type := ".txt";
     ResumeHandler.size_bytes := 5;
     ResumeHandler.content := "MY CV" |}.

(** A world like [sample_world] whose backend answers the first [n]
    requests with [outcome] and fails in transport after that. *)
Definition failing_after (n : nat) (outcome : result response)
    (session : option pyval) : world :=
  {| environ := [ ("GROQ_API_KEY", "gsk-test") ];
     files := sample_files None;
     backend := fun earlier _ =>
                  if (length earlier <? n)%nat then outcome
                  else Raise RequestException;
     calls := [];
     session_file := session |}.

(** A world without any provider key. *)
Definition keyless_world : world :=
  {| environ := [];
     files := sample_files None;
     backend := fun _ _ => Raise RequestException;
     calls := [];
     session_file := None |}.

(** A world whose resume folder is [f], with no override file. *)
Definition folder_world `{PathBuiltins} (f : ResumeHandler.folder) : world :=
  {| environ := [ ("GROQ_API_KEY", "gsk-test") ];
     files := {| handler := ResumeHandler.init f;
                 local_role := None;
                 parent_role := None |};
     backend := fun _ _ => Raise RequestException;
     calls := [];
     session_file := None |}.

End Samples.

(* ------------------------------------------------------------------ *)
(** ** General lemmas *)

Section Lemmas.
Context `{B : Builtins}.

Lemma map_py_str_PStr (ss : list string) : map py_str (map PStr ss) = ss.
Proof.
  induction ss as [|s ss IH]; simpl; [reflexivity|].
  now rewrite IH.
Qed.

Lemma forallb_map_PStr (p : string -> bool) (ss : list string) :
  forallb (fun v => p (py_str v)) (map PStr ss) = forallb p ss.
Proof.
  induction ss as [|s ss IH]; simpl; [reflexivity|].
  now rewrite IH.
Qed.

Lemma filter_all {A} (p : A -> bool) (l : list A) :
  (forall x, In x l -> p x = true) -> filter p l = l.
Proof.
  induction l as [|a l IH]; simpl; intros Hall; [reflexivity|].
  rewrite (Hall a) by now left.
  f_equal. apply IH. intros x Hx. apply Hall. now right.
Qed.

Lemma filter_none {A} (p : A -> bool) (l : list A) :
  (forall x, In x l -> p x = false) -> filter p l = [].
Proof.
  induction l as [|a l IH]; simpl; intros Hall; [reflexivity|].
  rewrite (Hall a) by now left.
  apply IH. intros x Hx. apply Hall. now right.
Qed.

Lemma lookup_dict_set_same k v kv : lookup k (dict_set k v kv) = Some v.
Proof.
  induction kv as [|[k' v'] kv IH]; simpl.
  - now rewrite String.eqb_refl.
  - destruct (String.eqb k k') eqn:E; simpl; rewrite E; [reflexivity | exact IH].
Qed.

Lemma lookup_dict_set_other k k' v kv :
  k <> k' -> lookup k (dict_set k' v kv) = lookup k kv.
Proof.
  intros Hne. induction kv as [|[k0 v0] kv IH]; simpl.
  - destruct (String.eqb k k') eqn:E; [|reflexivity].
    apply String.eqb_eq in E. contradiction.
  - destruct (String.eqb k' k0) eqn:E'; simpl.
    + apply String.eqb_eq in E'. subst k0.
      destruct (String.eqb k k') eqn:E; [|reflexivity].
      apply String.eqb_eq in E. contradiction.
    + destruct (String.eqb k k0); [reflexivity | exact IH].
Qed.

Lemma map_result_Forall2 {X Y} (f : X -> result Y) (l : list X) (ys : list Y) :
  map_result f l = Ok ys -> Forall2 (fun x y => f x = Ok y) l ys.
Proof.
  revert ys. induction l as [|a l IH]; simpl; intros ys H.
  - injection H as <-. constructor.
  - destruct (f a) as [y|] eqn:Ey; [|discriminate].
    destruct (map_result f l) as [ys'|]; [|discriminate].
    injection H as <-. constructor; [exact Ey | now apply IH].
Qed.

Lemma map_result_map {X Y} (f : X -> result Y) (g : X -> Y) (l : list X)
    (ys : list Y) :
  (forall x y, f x = Ok y -> y = g x) ->
  map_result f l = Ok ys -> ys = map g l.
Proof.
  intros Hfg H. apply map_result_Forall2 in H.
  induction H as [|x y l ys Hxy _ IH]; simpl; [reflexivity|].
  now rewrite (Hfg x y Hxy), IH.
Qed.

Lemma Forall2_concat_flat_map {X Y} (g : X -> list Y) (l : list X)
    (ys : list (list Y)) :
  Forall2 (fun x y => y = g x) l ys -> List.concat ys = flat_map g l.
Proof.
  induction 1 as [|x y l ys Hxy _ IH]; simpl; [reflexivity|].
  now rewrite Hxy, IH.
Qed.

End Lemmas.

(* ------------------------------------------------------------------ *)
(** ** Library calls that returned *)

Section LibraryCallLemmas.
Context `{L : DocumentLibraries}.

Lemma paragraph_ok text style f :
  paragraph text style = Ok f -> f = Paragraph text style.
Proof.
  unfold paragraph. destruct (Paragraph_init text style); simpl; congruence.
Qed.

Lemma heading_ok text level b :
  heading text level = Ok b -> b = AddHeading text level.
Proof.
  unfold heading. destruct (add_heading text level); simpl; congruence.
Qed.

Lemma text_paragraph_ok text style b :
  text_paragraph text style = Ok b -> b = AddParagraph text style [].
Proof.
  unfold text_paragraph. destruct (add_paragraph text style); simpl; congruence.
Qed.

Lemma new_run_ok text bold r :
  new_run text bold = Ok r -> r = {| run_text := text; run_bold := bold |}.
Proof.
  unfold new_run. destruct (add_run text); simpl; congruence.
Qed.

End LibraryCallLemmas.

(** One step of a computation that returned: the first call returned. *)
Ltac ok_step H :=
  match type of H with
  | rbind ?m _ = Ok _ =>
      let x := fresh "x" in
      let E := fresh "E" in
      destruct m as [x|] eqn:E; cbn [rbind] in H; [|discriminate H]
  end.

(** The goal is a hypothesis about the same call. *)
Ltac same_call :=
  match goal with
  | H : ?call = _ |- ?call = _ => exact H
  end.

(** What a library call that returned has built. *)
Ltac built :=
  repeat match goal with
         | E : paragraph _ _ = Ok _ |- _ => apply paragraph_ok in E; subst
         | E : heading _ _ = Ok _ |- _ => apply heading_ok in E; subst
         | E : text_paragraph _ _ = Ok _ |- _ => apply text_paragraph_ok in E; subst
         | E : new_run _ _ = Ok _ |- _ => apply new_run_ok in E; subst
         end.


(* ------------------------------------------------------------------ *)
(** ** Renderers of generate_resume.py: bullets and skills *)

Section GenerateResumeRenderers.
Context `{B : Builtins} `{L : DocumentLibraries}.

Lemma pdf_bullets_built job fs :
  GenerateResume.pdf_bullets job = Ok fs ->
  exists points ps,
    py_get job "points" (PList []) = Ok points /\ py_iter points = Ok ps
    /\ fs = map (fun point => Paragraph (PStr ("• " ++ py_str point)) StyleBullet) ps.
Proof.
  unfold GenerateResume.pdf_bullets. intros H.
  ok_step H. ok_step H. do 2 eexists. split; [reflexivity|]. split; [eassumption|].
  apply (map_result_map _ _ _ _ (fun point f => paragraph_ok _ _ f) H).
Qed.

Lemma pdf_job_built job fs :
  GenerateResume.pdf_job job = Ok fs ->
  exists h1 h2 bullets,
    GenerateResume.pdf_bullets job = Ok bullets
    /\ fs = Paragraph h1 StyleExpTitle :: Paragraph h2 StyleCompany
            :: (bullets ++ [ Spacer 1 6 ])%list.
Proof.
  unfold GenerateResume.pdf_job. intros H.
  repeat ok_step H. built. injection H as <-.
  do 3 eexists. split; reflexivity.
Qed.

Lemma filter_bullet_paragraphs (g : pyval -> pyval) (ps : list pyval) :
  filter is_bullet_flowable (map (fun p => Paragraph (g p) StyleBullet) ps)
  = map (fun p => Paragraph (g p) StyleBullet) ps.
Proof.
  apply filter_all. intros x Hx. apply in_map_iff in Hx.
  destruct Hx as [p [<- _]]. reflexivity.
Qed.

Lemma pdf_job_bullet_count job fs :
  GenerateResume.pdf_job job = Ok fs ->
  length (filter is_bullet_flowable fs) = points_count job.
Proof.
  intros H. destruct (pdf_job_built job fs H) as [h1 [h2 [bullets [Hb ->]]]].
  destruct (pdf_bullets_built job bullets Hb) as [points [ps [Hp [Hi ->]]]].
  unfold points_count. rewrite Hp, Hi.
  cbn [filter is_bullet_flowable]. rewrite filter_app.
  rewrite (filter_bullet_paragraphs (fun p => PStr ("• " ++ py_str p))).
  cbn [filter is_bullet_flowable]. now rewrite app_nil_r, length_map.
Qed.

Lemma docx_bullets_built job bs :
  GenerateResume.docx_bullets job = Ok bs ->
  exists points ps,
    py_item job "points" = Ok points /\ py_iter points = Ok ps
    /\ bs = map (fun point => AddParagraph point (Some "List Bullet") []) ps.
Proof.
  unfold GenerateResume.docx_bullets. intros H.
  ok_step H. ok_step H. do 2 eexists. split; [reflexivity|]. split; [eassumption|].
  apply (map_result_map _ _ _ _ (fun point b => text_paragraph_ok _ _ b) H).
Qed.

Lemma docx_job_built job bs :
  GenerateResume.docx_job job = Ok bs ->
  exists runs bullets,
    GenerateResume.docx_bullets job = Ok bullets
    /\ bs = AddParagraph (PStr "") None runs :: bullets.
Proof.
  unfold GenerateResume.docx_job. intros H.
  repeat ok_step H. built. injection H as <-.
  do 2 eexists. split; reflexivity.
Qed.

Lemma py_item_get v k x d : py_item v k = Ok x -> py_get v k d = Ok x.
Proof.
  destruct v as [| | | | | |kv]; try discriminate. simpl.
  destruct (lookup k kv); [congruence | discriminate].
Qed.

Lemma docx_job_bullet_count job bs :
  GenerateResume.docx_job job = Ok bs ->
  length (filter is_list_bullet bs) = points_count job.
Proof.
  intros H. destruct (docx_job_built job bs H) as [runs [bullets [Hb ->]]].
  destruct (docx_bullets_built job bullets Hb) as [points [ps [Hp [Hi ->]]]].
  unfold points_count. rewrite (py_item_get _ _ _ (PList []) Hp), Hi.
  cbn [filter is_list_bullet].
  rewrite filter_all, length_map; [reflexivity|].
  intros x Hx. apply in_map_iff in Hx. destruct Hx as [p [<- _]]. reflexivity.
Qed.

(** What a story that [generate_pdf] returned is made of. *)
Lemma generate_pdf_built data path story :
  GenerateResume.generate_pdf data path = Ok story ->
  exists name title contact summary skills items lines experience jobs blocks,
    py_get data "name" (PStr "") = Ok name
    /\ py_get data "title" (PStr "") = Ok title
    /\ py_get data "summary" (PStr "") = Ok summary
    /\ py_get data "skills" (PDict []) = Ok skills
    /\ py_items skills = Ok items
    /\ map_result GenerateResume.pdf_skill_line items = Ok lines
    /\ py_get data "experience" (PList []) = Ok experience
    /\ py_iter experience = Ok jobs
    /\ map_result GenerateResume.pdf_job jobs = Ok blocks
    /\ doc_build path story = Ok tt
    /\ story
       = ([ Paragraph name StyleName;
            Paragraph title StyleJobTitle;
            Paragraph contact StyleContact;
            Paragraph (PStr "PROFESSIONAL SUMMARY") StyleSection;
            Paragraph summary StyleBody;
            Paragraph (PStr "TECHNICAL SKILLS") StyleSection ]
          ++ lines
          ++ [ Paragraph (PStr "PROFESSIONAL EXPERIENCE") StyleSection ]
          ++ List.concat blocks)%list.
Proof.
  unfold GenerateResume.generate_pdf. intros H.
  repeat ok_step H. cbv zeta in H. repeat ok_step H. built.
  injection H as <-.
  match goal with u : unit |- _ => destruct u end.
  do 10 eexists. repeat (split; [reflexivity || same_call|]). reflexivity.
Qed.

(** What the blocks that [generate_docx] returned are made of. *)
Lemma generate_docx_built data path added :
  GenerateResume.generate_docx data path = Ok added ->
  exists name title contact summary skills items lines experience jobs blocks,
    py_item data "name" = Ok name
    /\ py_item data "title" = Ok title
    /\ py_item data "summary" = Ok summary
    /\ py_item data "skills" = Ok skills
    /\ py_items skills = Ok items
    /\ map_result GenerateResume.docx_skill_line items = Ok lines
    /\ py_item data "experience" = Ok experience
    /\ py_iter experience = Ok jobs
    /\ map_result GenerateResume.docx_job jobs = Ok blocks
    /\ doc_save path added = Ok tt
    /\ added
       = ([ AddHeading name 0;
            AddParagraph title None [];
            AddParagraph contact None [];
            AddHeading (PStr "Professional Summary") 1;
            AddParagraph summary None [];
            AddHeading (PStr "Technical Skills") 1 ]
          ++ lines
          ++ [ AddHeading (PStr "Professional Experience") 1 ]
          ++ List.concat blocks)%list.
Proof.
  unfold GenerateResume.generate_docx. intros H.
  repeat ok_step H. cbv zeta in H. repeat ok_step H. built.
  injection H as <-.
  match goal with u : unit |- _ => destruct u end.
  do 10 eexists. repeat (split; [reflexivity || same_call|]). reflexivity.
Qed.

Lemma pdf_skill_line_built item f :
  GenerateResume.pdf_skill_line item = Ok f ->
  f = Paragraph
        (PStr ("<b>" ++ fst item ++ ":</b> "
               ++ py_str (GenerateResume.pdf_skills_text (snd item))))
        StyleBody.
Proof.
  destruct item as [category skills]. unfold GenerateResume.pdf_skill_line.
  apply paragraph_ok.
Qed.

Lemma docx_skill_line_built item b :
  GenerateResume.docx_skill_line item = Ok b ->
  b = AddParagraph (PStr "") None
        [ {| run_text := fst item ++ ": "; run_bold := true |};
          {| run_text := GenerateResume.docx_skills_text (snd item);
             run_bold := false |} ].
Proof.
  destruct item as [category skills]. unfold GenerateResume.docx_skill_line.
  intros H. repeat ok_step H. built. now injection H as <-.
Qed.

Lemma Forall2_bullet_counts {X} (f : pyval -> result (list X)) (p : X -> bool)
    (jobs : list pyval) (blocks : list (list X)) :
  (forall job xs, f job = Ok xs -> length (filter p xs) = points_count job) ->
  Forall2 (fun job xs => f job = Ok xs) jobs blocks ->
  Forall2 (fun job xs => length (filter p xs) = points_count job) jobs blocks.
Proof.
  intros Hf H. induction H; constructor; auto.
Qed.

(** C1, as amended.  Neither renderer of generate_resume.py caps the
    bullets of an experience entry.  For a resume whose ['experience'] is
    a list of entries, whenever [generate_pdf] returns, the story ends
    with one group of flowables per entry, in order, and the group of an
    entry holds exactly as many bullet paragraphs (style Bullet) as the
    entry has points, nothing before the groups being a bullet; whenever
    [generate_docx] returns, the same holds of its 'List Bullet'
    paragraphs.  So an entry with six points has six bullet lines in
    both documents. *)
Theorem C1_no_bullet_cap (kv : list (string * pyval)) (jobs : list pyval) :
  lookup "experience" kv = Some (PList jobs) ->
  (forall path story,
      GenerateResume.generate_pdf (PDict kv) path = Ok story ->
      exists head groups,
        story = (head ++ List.concat groups)%list
        /\ filter is_bullet_flowable head = []
        /\ Forall2 (fun job fs =>
                      length (filter is_bullet_flowable fs) = points_count job)
             jobs groups)
  /\ (forall path added,
         GenerateResume.generate_docx (PDict kv) path = Ok added ->
         exists head groups,
           added = (head ++ List.concat groups)%list
           /\ filter is_list_bullet head = []
           /\ Forall2 (fun job bs =>
                         length (filter is_list_bullet bs) = points_count job)
                jobs groups).
Proof.
  intros Hexp. split.
  - intros path story H.
    destruct (generate_pdf_built _ _ _ H)
      as (name & title & contact & summary & skills & items & lines & experience
          & jobs' & blocks & _ & _ & _ & _ & _ & Hlines & He & Hi & Hblocks & _ & ->).
    cbn [py_get] in He. rewrite Hexp in He. injection He as <-.
    cbn [py_iter] in Hi. injection Hi as <-.
    exists ([ Paragraph name StyleName;
              Paragraph title StyleJobTitle;
              Paragraph contact StyleContact;
              Paragraph (PStr "PROFESSIONAL SUMMARY") StyleSection;
              Paragraph summary StyleBody;
              Paragraph (PStr "TECHNICAL SKILLS") StyleSection ]
            ++ lines
            ++ [ Paragraph (PStr "PROFESSIONAL EXPERIENCE") StyleSection ])%list,
      blocks.
    split; [|split].
    + now rewrite <- !app_assoc.
    + rewrite !filter_app. cbn [filter is_bullet_flowable app].
      rewrite (filter_none is_bullet_flowable lines); [reflexivity|].
      intros f Hf. apply map_result_Forall2 in Hlines.
      clear -Hlines Hf. induction Hlines as [|item y l ys Hy _ IH]; [contradiction|].
      destruct Hf as [<-|Hf]; [|now apply IH].
      now rewrite (pdf_skill_line_built _ _ Hy).
    + apply (Forall2_bullet_counts GenerateResume.pdf_job).
      * exact pdf_job_bullet_count.
      * now apply map_result_Forall2.
  - intros path added H.
    destruct (generate_docx_built _ _ _ H)
      as (name & title & contact & summary & skills & items & lines & experience
          & jobs' & blocks & _ & _ & _ & _ & _ & Hlines & He & Hi & Hblocks & _ & ->).
    cbn [py_item] in He. rewrite Hexp in He. injection He as <-.
    cbn [py_iter] in Hi. injection Hi as <-.
    exists ([ AddHeading name 0;
              AddParagraph title None [];
              AddParagraph contact None [];
              AddHeading (PStr "Professional Summary") 1;
              AddParagraph summary None [];
              AddHeading (PStr "Technical Skills") 1 ]
            ++ lines
            ++ [ AddHeading (PStr "Professional Experience") 1 ])%list,
      blocks.
    split; [|split].
    + now rewrite <- !app_assoc.
    + rewrite !filter_app. cbn [filter is_list_bullet app].
      rewrite (filter_none is_list_bullet lines); [reflexivity|].
      intros f Hf. apply map_result_Forall2 in Hlines.
      clear -Hlines Hf. induction Hlines as [|item y l ys Hy _ IH]; [contradiction|].
      destruct Hf as [<-|Hf]; [|now apply IH].
      now rewrite (docx_skill_line_built _ _ Hy).
    + apply (Forall2_bullet_counts GenerateResume.docx_job).
      * exact docx_job_bullet_count.
      * now apply map_result_Forall2.
Qed.

Lemma pdf_skills_text_strings (ss : list string) :
  GenerateResume.pdf_skills_text (PList (map PStr ss)) = PStr (join ", " ss).
Proof. unfold GenerateResume.pdf_skills_text. now rewrite map_py_str_PStr. Qed.

Lemma docx_skills_text_strings (ss : list string) :
  GenerateResume.docx_skills_text (PList (map PStr ss))
  = (if forallb (fun s => (py_len s <=? 2)%nat) ss
     then String.concat "" ss
     else join ", " ss).
Proof.
  unfold GenerateResume.docx_skills_text.
  rewrite map_py_str_PStr.
  rewrite (forallb_map_PStr (fun s => (py_len s <=? 2)%nat) ss).
  destruct ss as [|s ss']; reflexivity.
Qed.

Lemma Forall2_in_left {X Y} (R : X -> Y -> Prop) (l : list X) (ys : list Y) x :
  Forall2 R l ys -> In x l -> exists y, In y ys /\ R x y.
Proof.
  induction 1 as [|a b l ys Hab _ IH]; intros Hin; [contradiction|].
  destruct Hin as [<-|Hin].
  - exists b. split; [now left | exact Hab].
  - destruct (IH Hin) as [y [Hy HR]]. exists y. split; [now right | exact HR].
Qed.

(** C7.  For a skills category whose value is a list of strings, the
    document each renderer of generate_resume.py returns shows the
    category with its elements joined: the PDF story holds the paragraph
    with the elements joined by [", "]; the DOCX holds the paragraph
    whose second run joins them by [", "] too, unless every element has
    at most two characters, in which case that run is their concatenation
    with no separator. *)
Theorem C7_skills_join
    (data : pyval) (sk : list (string * pyval)) (category : string)
    (ss : list string) :
  In (category, PList (map PStr ss)) sk ->
  (forall path story,
      py_get data "skills" (PDict []) = Ok (PDict sk) ->
      GenerateResume.generate_pdf data path = Ok story ->
      In (Paragraph (PStr ("<b>" ++ category ++ ":</b> " ++ join ", " ss)) StyleBody)
         story)
  /\ (forall path added,
         py_item data "skills" = Ok (PDict sk) ->
         GenerateResume.generate_docx data path = Ok added ->
         In (AddParagraph (PStr "") None
               [ {| run_text := category ++ ": "; run_bold := true |};
                 {| run_text := (if forallb (fun s => (py_len s <=? 2)%nat) ss
                                 then String.concat "" ss
                                 else join ", " ss);
                    run_bold := false |} ])
            added).
Proof.
  intros Hin. split.
  - intros path story Hsk H.
    destruct (generate_pdf_built _ _ _ H)
      as (name & title & contact & summary & skills & items & lines & experience
          & jobs & blocks & _ & _ & _ & Hs & Hitems & Hlines & _ & _ & _ & _ & ->).
    rewrite Hsk in Hs. injection Hs as <-. injection Hitems as <-.
    apply map_result_Forall2 in Hlines.
    destruct (Forall2_in_left _ _ _ _ Hlines Hin) as [f [Hf Hline]].
    apply pdf_skill_line_built in Hline. cbn [fst snd] in Hline.
    rewrite pdf_skills_text_strings in Hline. cbn [py_str] in Hline. subst f.
    apply in_or_app. right. apply in_or_app. now left.
  - intros path added Hsk H.
    destruct (generate_docx_built _ _ _ H)
      as (name & title & contact & summary & skills & items & lines & experience
          & jobs & blocks & _ & _ & _ & Hs & Hitems & Hlines & _ & _ & _ & _ & ->).
    rewrite Hsk in Hs. injection Hs as <-. injection Hitems as <-.
    apply map_result_Forall2 in Hlines.
    destruct (Forall2_in_left _ _ _ _ Hlines Hin) as [b [Hb Hline]].
    apply docx_skill_line_built in Hline. cbn [fst snd] in Hline.
    rewrite docx_skills_text_strings in Hline. subst b.
    apply in_or_app. right. apply in_or_app. now left.
Qed.

End GenerateResumeRenderers.
(* ------------------------------------------------------------------ *)
(** ** Renderers of app.py: the bullets of a tailored resume *)

Section AppRenderers.
Context `{B : Builtins} `{L : DocumentLibraries}.

Lemma map_result_ok {X Y} (f : X -> result Y) (l : list X) :
  (forall x, In x l -> exists y, f x = Ok y) ->
  exists ys, map_result f l = Ok ys.
Proof.
  induction l as [|a l IH]; simpl; intros Hall.
  - now exists [].
  - destruct (Hall a) as [y Hy]; [now left|].
    destruct IH as [ys Hys]; [intros x Hx; apply Hall; now right|].
    rewrite Hy, Hys. now eexists.
Qed.

Lemma map_result_as_str (ss : list string) :
  map_result as_str (map PStr ss) = Ok ss.
Proof.
  induction ss as [|s ss IH]; simpl; [reflexivity|].
  now rewrite IH.
Qed.

(** Joining a [str] joins its characters. *)
Lemma py_join_str (sep s : string) :
  py_join sep (PStr s) = Ok (join sep (py_chars s)).
Proof.
  unfold py_join. simpl. now rewrite map_result_as_str.
Qed.

Lemma only_keys_lookup_none keys kv k :
  GenerateResume.only_keys keys kv = true ->
  existsb (String.eqb k) keys = false ->
  lookup k kv = None.
Proof.
  unfold GenerateResume.only_keys.
  induction kv as [|[k' v] kv IH]; simpl; intros Hkeys Hk; [reflexivity|].
  apply andb_prop in Hkeys. destruct Hkeys as [Hk' Hrest].
  destruct (String.eqb k k') eqn:E.
  - apply String.eqb_eq in E. subst k'. rewrite Hk in Hk'. discriminate.
  - now apply IH.
Qed.

(** An entry in the prompt's shape has no ['bullets'] key. *)
Lemma schema_entry_no_bullets job :
  GenerateResume.schema_entry job = true ->
  exists kv, job = PDict kv /\ lookup "bullets" kv = None.
Proof.
  destruct job as [| | | | |l|kv]; simpl; try discriminate.
  intros H. exists kv. split; [reflexivity|].
  repeat (apply andb_prop in H; destruct H as [H ?]).
  eapply only_keys_lookup_none; [exact H | reflexivity].
Qed.

(** Without a ['bullets'] key the bullet loops have nothing to visit. *)
Lemma no_bullets_key kv :
  lookup "bullets" kv = None ->
  App.pdf_bullets (PDict kv) = Ok [] /\ App.docx_bullets (PDict kv) = Ok [].
Proof.
  intros Hb. unfold App.pdf_bullets, App.docx_bullets. simpl.
  now rewrite Hb.
Qed.

Lemma field_text_get job k v :
  py_get job k (PStr "") = Ok v -> py_str v = field_text job k.
Proof. intros H. unfold field_text. now rewrite H. Qed.

(** The flowables of an entry that [pdf_job] returned: its two heading
    lines, its bullets and the spacer. *)
Lemma app_pdf_job_built job fs :
  App.pdf_job job = Ok fs ->
  exists bullets,
    App.pdf_bullets job = Ok bullets
    /\ fs = (firstn 2 (pdf_entry_heading job) ++ bullets ++ [ Spacer 1 8 ])%list.
Proof.
  unfold App.pdf_job. intros H. repeat ok_step H. built. injection H as <-.
  eexists. split; [reflexivity|].
  unfold pdf_entry_heading. cbn [firstn].
  repeat match goal with
         | E : py_get job _ (PStr "") = Ok _ |- _ =>
             rewrite (field_text_get _ _ _ E); clear E
         end.
  reflexivity.
Qed.

(** The paragraphs of an entry that [docx_job] returned: its two heading
    paragraphs and its bullets. *)
Lemma app_docx_job_built job bs :
  App.docx_job job = Ok bs ->
  exists bullets,
    App.docx_bullets job = Ok bullets
    /\ bs = (docx_entry_heading job ++ bullets)%list.
Proof.
  unfold App.docx_job. intros H. repeat ok_step H. built. injection H as <-.
  eexists. split; [reflexivity|].
  unfold docx_entry_heading.
  repeat match goal with
         | E : py_get job _ (PStr "") = Ok _ |- _ =>
             rewrite (field_text_get _ _ _ E); clear E
         end.
  reflexivity.
Qed.

(** What a story that the web app's [generate_pdf] returned is made of. *)
Lemma app_generate_pdf_built data path story :
  App.generate_pdf data path = Ok story ->
  exists name contact summary skills experience jobs blocks,
    py_get data "name" (PStr "") = Ok name
    /\ App.pdf_summary data = Ok summary
    /\ App.pdf_skills data = Ok skills
    /\ py_get data "experience" (PList []) = Ok experience
    /\ py_iter experience = Ok jobs
    /\ map_result App.pdf_job jobs = Ok blocks
    /\ doc_build path story = Ok tt
    /\ story
       = ([ Paragraph name StyleName; Paragraph contact StyleNormal; Spacer 1 12 ]
          ++ summary ++ skills
          ++ [ Paragraph (PStr "<b>PROFESSIONAL EXPERIENCE</b>") StyleHeading2 ]
          ++ List.concat blocks)%list
    /\ contact = PStr (field_text data "email" ++ " | " ++ field_text data "phone"
                       ++ " | " ++ field_text data "location").
Proof.
  unfold App.generate_pdf. intros H.
  repeat ok_step H. cbv zeta in H. repeat ok_step H. built.
  injection H as <-.
  match goal with u : unit |- _ => destruct u end.
  do 7 eexists. repeat (split; [reflexivity || same_call|]).
  repeat match goal with
         | E : py_get data _ (PStr "") = Ok _ |- _ =>
             rewrite <- (field_text_get _ _ _ E); clear E
         end.
  reflexivity.
Qed.

(** What the blocks that the web app's [generate_docx] returned are made
    of. *)
Lemma app_generate_docx_built data path added :
  App.generate_docx data path = Ok added ->
  exists name contact summary skills experience jobs blocks,
    py_get data "name" (PStr "") = Ok name
    /\ App.docx_summary data = Ok summary
    /\ App.docx_skills data = Ok skills
    /\ py_get data "experience" (PList []) = Ok experience
    /\ py_iter experience = Ok jobs
    /\ map_result App.docx_job jobs = Ok blocks
    /\ doc_save path added = Ok tt
    /\ added
       = ([ AddHeading name 0;
            AddParagraph (PStr "") None [ {| run_text := contact; run_bold := false |} ] ]
          ++ summary ++ skills
          ++ [ AddHeading (PStr "Professional Experience") 1 ]
          ++ List.concat blocks)%list
    /\ contact = field_text data "email" ++ " | " ++ field_text data "phone"
                 ++ " | " ++ field_text data "location".
Proof.
  unfold App.generate_docx. intros H.
  repeat ok_step H. cbv zeta in H. repeat ok_step H. built.
  injection H as <-.
  repeat match goal with u : unit |- _ => destruct u end.
  do 7 eexists. repeat (split; [reflexivity || same_call|]).
  repeat match goal with
         | E : py_get data _ (PStr "") = Ok _ |- _ =>
             rewrite <- (field_text_get _ _ _ E); clear E
         end.
  reflexivity.
Qed.

(** What a download that sent a file has rendered. *)
Lemma download_sent format company w w' download_name file doc kv resume :
  session_file w = Some (PDict kv) ->
  lookup "resume" kv = Some resume ->
  App.download_resume format company w
  = (Ok (App.SendFile download_name file doc), w') ->
  let format_type := match format with Some f => f | None => "pdf" end in
  let company_name := match company with Some c => c | None => "resume" end in
  w' = w
  /\ download_name = "resume_" ++ company_name ++ "." ++ format_type
  /\ file = ("resume_" ++ company_name ++ "_" ++ format_type) ++ "." ++ format_type
  /\ match doc with
     | App.PdfDocument story =>
         format_type = "pdf" /\ App.generate_pdf resume file = Ok story
     | App.DocxDocument added =>
         format_type <> "pdf" /\ App.generate_docx resume file = Ok added
     end.
Proof.
  intros Hs Hr. unfold App.download_resume, App.load_session.
  unfold bind at 1. rewrite Hs. unfold bind at 1. unfold lift at 1.
  cbn [py_get]. rewrite Hr.
  destruct (truthy resume); cbn [negb]; [|unfold ret; discriminate].
  unfold bind at 1. unfold lift at 1.
  destruct mkdir_output as [u|e]; [|discriminate].
  unfold bind, lift, ret.
  destruct (String.eqb _ "pdf") eqn:Ef.
  - destruct (App.generate_pdf resume _) as [story|e] eqn:Hg; [|discriminate].
    intros [= <- <- <- <-]. apply String.eqb_eq in Ef.
    repeat split; try reflexivity; [exact Ef | exact Hg].
  - destruct (App.generate_docx resume _) as [added|e] eqn:Hg; [|discriminate].
    intros [= <- <- <- <-]. apply String.eqb_neq in Ef.
    repeat split; try reflexivity; [exact Ef | exact Hg].
Qed.

Lemma schema_jobs_headings_pdf jobs blocks :
  (forall job, In job jobs ->
     exists jkv, job = PDict jkv /\ lookup "bullets" jkv = None) ->
  map_result App.pdf_job jobs = Ok blocks ->
  List.concat blocks = flat_map pdf_entry_heading jobs.
Proof.
  intros Hjobs H. apply map_result_Forall2 in H.
  apply Forall2_concat_flat_map.
  induction H as [|job fs jobs blocks Hjob _ IH]; constructor.
  - destruct (Hjobs job (or_introl eq_refl)) as [jkv [-> Hb]].
    destruct (app_pdf_job_built _ _ Hjob) as [bullets [Hbl ->]].
    rewrite (proj1 (no_bullets_key jkv Hb)) in Hbl. now injection Hbl as <-.
  - apply IH. intros j Hj. apply Hjobs. now right.
Qed.

Lemma schema_jobs_headings_docx jobs blocks :
  (forall job, In job jobs ->
     exists jkv, job = PDict jkv /\ lookup "bullets" jkv = None) ->
  map_result App.docx_job jobs = Ok blocks ->
  List.concat blocks = flat_map docx_entry_heading jobs.
Proof.
  intros Hjobs H. apply map_result_Forall2 in H.
  apply Forall2_concat_flat_map.
  induction H as [|job fs jobs blocks Hjob _ IH]; constructor.
  - destruct (Hjobs job (or_introl eq_refl)) as [jkv [-> Hb]].
    destruct (app_docx_job_built _ _ Hjob) as [bullets [Hbl ->]].
    rewrite (proj2 (no_bullets_key jkv Hb)) in Hbl. injection Hbl as <-.
    now rewrite app_nil_r.
  - apply IH. intros j Hj. apply Hjobs. now right.
Qed.

(** C2.  A structured resume in the shape the tailoring prompt asks for
    keeps the bullets of each experience entry under ['points'].  The
    renderers of the web app read ['bullets'], so for every entry their
    bullet loops visit nothing.  Whenever the web app's [generate_pdf]
    returns a story for such a resume, the story is the name, the
    contact line, the summary and skills parts, the experience heading
    and then, entry by entry, the two heading lines and the spacer and
    nothing else; whenever [generate_docx] returns, the experience
    heading is followed by the two heading paragraphs of each entry.  A
    download that sends a file for a session holding that resume sends
    one of these two documents. *)
Theorem C2_points_never_rendered (data : pyval) :
  GenerateResume.follows_schema data = true ->
  exists jobs,
    py_item data "experience" = Ok (PList jobs)
    /\ (forall job, In job jobs ->
          App.pdf_bullets job = Ok [] /\ App.docx_bullets job = Ok [])
    /\ (forall path story,
          App.generate_pdf data path = Ok story ->
          exists name contact summary skills,
            App.pdf_summary data = Ok summary
            /\ App.pdf_skills data = Ok skills
            /\ story
               = ([ Paragraph name StyleName; Paragraph contact StyleNormal;
                    Spacer 1 12 ]
                  ++ summary ++ skills
                  ++ Paragraph (PStr "<b>PROFESSIONAL EXPERIENCE</b>") StyleHeading2
                     :: flat_map pdf_entry_heading jobs)%list)
    /\ (forall path added,
          App.generate_docx data path = Ok added ->
          exists name contact summary skills,
            App.docx_summary data = Ok summary
            /\ App.docx_skills data = Ok skills
            /\ added
               = ([ AddHeading name 0; AddParagraph (PStr "") None [ contact ] ]
                  ++ summary ++ skills
                  ++ AddHeading (PStr "Professional Experience") 1
                     :: flat_map docx_entry_heading jobs)%list)
    /\ (forall w rest format company w' download_name file doc,
          session_file w = Some (PDict (("resume", data) :: rest)) ->
          App.download_resume format company w
          = (Ok (App.SendFile download_name file doc), w') ->
          match doc with
          | App.PdfDocument story => App.generate_pdf data file = Ok story
          | App.DocxDocument added => App.generate_docx data file = Ok added
          end).
Proof.
  intros Hschema.
  destruct data as [| | | | |l|kv]; simpl in Hschema; try discriminate.
  repeat rewrite andb_true_iff in Hschema.
  destruct Hschema as [[[[[[[[[Hkeys Hname] Htitle] Hemail] Hphone] Hloc] Hlinked]
                          Hsummary] Hsk] Hexps].
  destruct (lookup "experience" kv) as [[| | | | |jobs|]|] eqn:Hexp; try discriminate.
  assert (Hjobs : forall job, In job jobs ->
            exists jkv, job = PDict jkv /\ lookup "bullets" jkv = None).
  { intros job Hin. apply schema_entry_no_bullets.
    rewrite forallb_forall in Hexps. now apply Hexps. }
  exists jobs.
  split; [simpl; now rewrite Hexp|].
  split; [|split; [|split]].
  - intros job Hin. destruct (Hjobs job Hin) as [jkv [-> Hb]].
    now apply no_bullets_key.
  - intros path story H.
    destruct (app_generate_pdf_built _ _ _ H)
      as (name & contact & summary & skills & experience & jobs' & blocks
          & _ & Hsum & Hskills & He & Hi & Hblocks & _ & -> & _).
    cbn [py_get] in He. rewrite Hexp in He. injection He as <-.
    cbn [py_iter] in Hi. injection Hi as <-.
    exists name, contact, summary, skills.
    split; [exact Hsum|]. split; [exact Hskills|].
    now rewrite (schema_jobs_headings_pdf jobs blocks Hjobs Hblocks).
  - intros path added H.
    destruct (app_generate_docx_built _ _ _ H)
      as (name & contact & summary & skills & experience & jobs' & blocks
          & _ & Hsum & Hskills & He & Hi & Hblocks & _ & -> & _).
    cbn [py_get] in He. rewrite Hexp in He. injection He as <-.
    cbn [py_iter] in Hi. injection Hi as <-.
    exists name, {| run_text := contact; run_bold := false |}, summary, skills.
    split; [exact Hsum|]. split; [exact Hskills|].
    now rewrite (schema_jobs_headings_docx jobs blocks Hjobs Hblocks).
  - intros w rest format company w' download_name file doc Hs Hd.
    destruct (download_sent format company w w' download_name file doc _ (PDict kv)
                Hs eq_refl Hd) as (_ & _ & _ & Hdoc).
    destruct doc; now destruct Hdoc.
Qed.

End AppRenderers.

(* ------------------------------------------------------------------ *)
(** ** Context assembly: load_resume *)

Section ContextAssembly.
Context `{B : Builtins}.

Lemma prepend_section_present kv key render rc v text :
  lookup key kv = Some v ->
  truthy v = true ->
  render v = Ok text ->
  GenerateResume.prepend_section (PDict kv) key render rc = Ok (text ++ rc).
Proof.
  intros Hk Ht Hr. unfold GenerateResume.prepend_section. simpl.
  now rewrite Hk, Ht, Hr.
Qed.

Lemma prepend_section_raises kv key render rc v e :
  lookup key kv = Some v ->
  truthy v = true ->
  render v = Raise e ->
  GenerateResume.prepend_section (PDict kv) key render rc = Raise e.
Proof.
  intros Hk Ht Hr. unfold GenerateResume.prepend_section. simpl.
  now rewrite Hk, Ht, Hr.
Qed.

(** Every rendered block opens with its own heading. *)
Lemma corrections_text_header v d :
  GenerateResume.corrections_text v = Ok d ->
  exists t, d = GenerateResume.corrections_header ++ t.
Proof.
  unfold GenerateResume.corrections_text.
  destruct (py_items v) as [items|e]; simpl; [|discriminate].
  intros [= <-]. now eexists.
Qed.

Lemma restructure_text_header v r :
  GenerateResume.restructure_text v = Ok r ->
  exists t, r = GenerateResume.restructure_header ++ t.
Proof.
  unfold GenerateResume.restructure_text.
  destruct (py_items v) as [items|e]; simpl; [|discriminate].
  destruct (map_result _ items) as [ts|e]; simpl; [|discriminate].
  intros [= <-]. now eexists.
Qed.

Lemma missing_text_header v m :
  GenerateResume.missing_text v = Ok m ->
  exists t, m = GenerateResume.missing_header ++ t.
Proof.
  unfold GenerateResume.missing_text.
  destruct (py_items v) as [items|e]; simpl; [|discriminate].
  destruct (map_result _ items) as [ts|e]; simpl; [|discriminate].
  intros [= <-]. now eexists.
Qed.

Lemma current_role_text_header current v c :
  GenerateResume.current_role_text current v = Ok c ->
  exists t, c = GenerateResume.current_role_header ++ t.
Proof.
  unfold GenerateResume.current_role_text, rbind.
  repeat match goal with
         | |- context [match ?x with Ok _ => _ | Raise _ => _ end] =>
             destruct x; [|discriminate]
         end.
  intros [= <-]. now eexists.
Qed.

(** C5, as amended.  When the override file holds all four sections,
    the outcome depends on whether every block renders.  If the four
    renderings return, the context returned by [load_resume] is the
    date-corrections block, then the experience-restructure block, then
    the missing-experience block, then the current-role block, then the
    base resume text; each block opens with its own heading, so each is
    non-empty and ends before the next one starts, and the
    date-corrections block lists one line per correction.  If one of the
    four renderings raises, [load_resume] returns [None]: nothing is
    assembled, in any order. *)
Theorem C5_override_order
    (fs : resume_files) (cache : list (string * ResumeHandler.ResumeInfo))
    (kv : list (string * pyval)) (vd vr vm vc : pyval) :
  handler fs = Ok cache ->
  GenerateResume.current_role_file fs = Some (Ok (PDict kv)) ->
  lookup "date_corrections" kv = Some vd -> truthy vd = true ->
  lookup "experience_restructure" kv = Some vr -> truthy vr = true ->
  lookup "missing_experience" kv = Some vm -> truthy vm = true ->
  lookup "current_experience" kv = Some vc -> truthy vc = true ->
  (forall d r m c,
      GenerateResume.corrections_text vd = Ok d ->
      GenerateResume.restructure_text vr = Ok r ->
      GenerateResume.missing_text vm = Ok m ->
      GenerateResume.current_role_text (PDict kv) vc = Ok c ->
      GenerateResume.load_resume fs
      = Some (d ++ r ++ m ++ c ++ GenerateResume.base_text cache)
      /\ (exists t, d = GenerateResume.corrections_header ++ t)
      /\ (exists t, r = GenerateResume.restructure_header ++ t)
      /\ (exists t, m = GenerateResume.missing_header ++ t)
      /\ (exists t, c = GenerateResume.current_role_header ++ t)
      /\ (0 < String.length d)%nat /\ (0 < String.length r)%nat
      /\ (0 < String.length m)%nat /\ (0 < String.length c)%nat
      /\ (forall items,
             py_items vd = Ok items ->
             d = GenerateResume.corrections_header
                 ++ String.concat ""
                      (map (fun item : string * pyval =>
                              "- " ++ fst item ++ ": " ++ py_str (snd item) ++ nl)
                         items)))
  /\ ((exists e, GenerateResume.corrections_text vd = Raise e)
      \/ (exists e, GenerateResume.restructure_text vr = Raise e)
      \/ (exists e, GenerateResume.missing_text vm = Raise e)
      \/ (exists e, GenerateResume.current_role_text (PDict kv) vc = Raise e) ->
      GenerateResume.load_resume fs = None).
Proof.
  intros Hh Hf Hd Htd Hr Htr Hm Htm Hc Htc.
  split.
  - intros d r m c Hdt Hrt Hmt Hct.
    destruct (corrections_text_header _ _ Hdt) as [td Ed].
    destruct (restructure_text_header _ _ Hrt) as [tr Er].
    destruct (missing_text_header _ _ Hmt) as [tm Em].
    destruct (current_role_text_header _ _ _ Hct) as [tc Ec].
    split.
    + unfold GenerateResume.load_resume, GenerateResume.load_resume_body.
      rewrite Hh. simpl rbind. rewrite Hf. simpl rbind.
      unfold GenerateResume.apply_overrides.
      rewrite (prepend_section_present kv _ _ _ vc c Hc Htc Hct). simpl rbind.
      rewrite (prepend_section_present kv _ _ _ vm m Hm Htm Hmt). simpl rbind.
      rewrite (prepend_section_present kv _ _ _ vr r Hr Htr Hrt). simpl rbind.
      rewrite (prepend_section_present kv _ _ _ vd d Hd Htd Hdt).
      reflexivity.
    + repeat split; try (eexists; eassumption);
        try (subst; simpl; apply Nat.lt_0_succ).
      intros items Hitems. unfold GenerateResume.corrections_text in Hdt.
      rewrite Hitems in Hdt. simpl in Hdt. now injection Hdt as <-.
  - intros Hfail.
    unfold GenerateResume.load_resume, GenerateResume.load_resume_body.
    rewrite Hh. simpl rbind. rewrite Hf. simpl rbind.
    unfold GenerateResume.apply_overrides.
    destruct (GenerateResume.current_role_text (PDict kv) vc) as [c|e] eqn:Hct;
      [|now rewrite (prepend_section_raises kv _ _ _ vc e Hc Htc Hct)].
    rewrite (prepend_section_present kv _ _ _ vc c Hc Htc Hct). simpl rbind.
    destruct (GenerateResume.missing_text vm) as [m|e] eqn:Hmt;
      [|now rewrite (prepend_section_raises kv _ _ _ vm e Hm Htm Hmt)].
    rewrite (prepend_section_present kv _ _ _ vm m Hm Htm Hmt). simpl rbind.
    destruct (GenerateResume.restructure_text vr) as [r|e] eqn:Hrt;
      [|now rewrite (prepend_section_raises kv _ _ _ vr e Hr Htr Hrt)].
    rewrite (prepend_section_present kv _ _ _ vr r Hr Htr Hrt). simpl rbind.
    destruct (GenerateResume.corrections_text vd) as [d|e] eqn:Hdt;
      [|now rewrite (prepend_section_raises kv _ _ _ vd e Hd Htd Hdt)].
    destruct Hfail as [[e H]|[[e H]|[[e H]|[e H]]]]; discriminate.
Qed.

(** A block that fails to render makes the whole assembly fail. *)
Lemma load_resume_block_raises fs cache current e :
  handler fs = Ok cache ->
  GenerateResume.current_role_file fs = Some (Ok current) ->
  GenerateResume.apply_overrides current (GenerateResume.base_text cache) = Raise e ->
  GenerateResume.load_resume fs = None.
Proof.
  intros Hh Hf Ha.
  unfold GenerateResume.load_resume, GenerateResume.load_resume_body.
  rewrite Hh. simpl. rewrite Hf. simpl. now rewrite Ha.
Qed.

(** C4, as amended.  An error raised while opening or parsing the
    override file is caught by [load_resume], which then returns [None]:
    the caller gets no context at all, not the base resume text (and no
    exception either).  Without an override file the result is the base
    text.  A missing base resume is not an error: the base text is then
    empty, and what is returned is whatever the override file prepends to
    it, the empty string when there is no such file. *)
Theorem C4_config_error_returns_none (fs : resume_files) :
  (forall e,
      GenerateResume.current_role_file fs = Some (Raise e) ->
      GenerateResume.load_resume fs = None)
  /\ (forall cache,
         handler fs = Ok cache ->
         GenerateResume.current_role_file fs = None ->
         GenerateResume.load_resume fs = Some (GenerateResume.base_text cache))
  /\ (handler fs = Ok [] ->
      (GenerateResume.current_role_file fs = None ->
       GenerateResume.load_resume fs = Some "")
      /\ (forall current ctx,
             GenerateResume.current_role_file fs = Some (Ok current) ->
             GenerateResume.apply_overrides current "" = Ok ctx ->
             GenerateResume.load_resume fs = Some ctx)).
Proof.
  unfold GenerateResume.load_resume, GenerateResume.load_resume_body.
  split; [|split].
  - intros e Hf. rewrite Hf.
    destruct (handler fs); reflexivity.
  - intros cache Hh Hf. now rewrite Hh, Hf.
  - intros Hh. rewrite Hh. simpl. split.
    + intros Hf. now rewrite Hf.
    + intros current ctx Hf Ha. rewrite Hf. simpl.
      unfold GenerateResume.base_text in *. simpl. now rewrite Ha.
Qed.

End ContextAssembly.

(* ------------------------------------------------------------------ *)
(** ** Job-info extraction *)

Section Extraction.
Context `{B : Builtins}.

Lemma from_first_open_spec s t :
  App.from_first_open s = Some t ->
  exists pre rest,
    s = pre ++ String "{" rest /\ t = String "{" rest
    /\ has_char "{" pre = false.
Proof.
  revert t. induction s as [|c s IH]; simpl; intros t H; [discriminate|].
  destruct (Ascii.eqb c "{") eqn:E.
  - apply Ascii.eqb_eq in E. subst c. injection H as <-.
    exists "", s. repeat split.
  - destruct (IH t H) as [pre [rest [-> [-> Hpre]]]].
    exists (String c pre), rest. repeat split. simpl. now rewrite E.
Qed.

Lemma upto_last_close_spec s t :
  App.upto_last_close s = Some t ->
  exists mid post,
    s = mid ++ String "}" post /\ t = mid ++ "}"
    /\ has_char "}" post = false.
Proof.
  revert t. induction s as [|c s IH]; simpl; intros t H; [discriminate|].
  destruct (App.upto_last_close s) as [t'|] eqn:Hs.
  - injection H as <-.
    destruct (IH t' eq_refl) as [mid [post [-> [-> Hpost]]]].
    exists (String c mid), post. repeat split. exact Hpost.
  - destruct (Ascii.eqb c "}") eqn:E; [|discriminate].
    apply Ascii.eqb_eq in E. subst c. injection H as <-.
    exists "", s. repeat split.
    clear IH. induction s as [|c s IHs]; [reflexivity|].
    simpl in Hs. destruct (App.upto_last_close s); [discriminate|].
    destruct (Ascii.eqb c "}") eqn:E; [discriminate|].
    simpl. rewrite E. now apply IHs.
Qed.

(** The match of [\{.*\}] runs from the first ['{'] of the text to its
    last ['}']. *)
Lemma search_braces_spec s g :
  App.search_braces s = Some g ->
  exists pre mid post,
    s = pre ++ String "{" (mid ++ String "}" post)
    /\ g = String "{" (mid ++ "}")
    /\ has_char "{" pre = false
    /\ has_char "}" post = false.
Proof.
  unfold App.search_braces.
  destruct (App.from_first_open s) as [[|c rest]|] eqn:Hopen; try discriminate.
  destruct (App.upto_last_close rest) as [t|] eqn:Hclose; [|discriminate].
  intros [= <-].
  destruct (from_first_open_spec _ _ Hopen) as [pre [rest' [-> [[= -> ->] Hpre]]]].
  destruct (upto_last_close_spec _ _ Hclose) as [mid [post [-> [-> Hpost]]]].
  exists pre, mid, post. repeat split; assumption.
Qed.

Lemma from_first_open_none s :
  has_char "{" s = false -> App.from_first_open s = None.
Proof.
  induction s as [|c s IH]; simpl; [reflexivity|].
  destruct (Ascii.eqb c "{"); simpl; [discriminate | exact IH].
Qed.

(** A text without an opening brace has no match. *)
Lemma search_braces_no_open s :
  has_char "{" s = false -> App.search_braces s = None.
Proof.
  intros H. unfold App.search_braces. now rewrite from_first_open_none.
Qed.

(** Whatever the reply is, the [try] block ends in the parsed value or
    in the default record. *)
Lemma job_info_of_response_cases content :
  App.job_info_of_response content = App.default_job_info
  \/ exists s g,
       content = PStr s /\ App.search_braces s = Some g
       /\ json_loads g = Ok (App.job_info_of_response content).
Proof.
  unfold App.job_info_of_response, App.parse_job_info.
  destruct content as [| | | |s| |]; try (now left).
  destruct (App.search_braces s) as [g|] eqn:Hs; [|now left].
  destruct (json_loads g) as [v|e] eqn:Hg; [|now left].
  right. exists s, g. repeat split; solve [reflexivity | assumption].
Qed.

(** The web app always finds a provider: Cerebras has a default key. *)
Lemma app_provider_available env :
  exists config, App.first_available env App.LLM_PROVIDERS = Ok config.
Proof.
  unfold App.LLM_PROVIDERS. simpl.
  destruct (String.eqb (environ_get env "CEREBRAS_API_KEY" "") "") eqn:E; simpl.
  - now eexists.
  - rewrite E. simpl. now eexists.
Qed.

(** [call_llm] leaves the session file alone. *)
Lemma call_llm_session prompt max_tokens w :
  session_file (snd (App.call_llm prompt max_tokens w)) = session_file w.
Proof.
  unfold App.call_llm, bind, App.get_llm_config, requests_post, lift.
  destruct (App.first_available (environ w) App.LLM_PROVIDERS) as [config|e];
    [|reflexivity].
  destruct (backend w (calls w) _) as [resp|e]; [|reflexivity].
  destruct (App.raise_for_status resp); reflexivity.
Qed.

(** C6.  When the text returned by the LLM has no [{...}] match, or has
    one (first ['{'] to last ['}']) that [json.loads] does not parse,
    whatever it raises on it, the extractor returns exactly the default
    record. *)
Theorem C6_fallback_record (job_description : pyval) (s : string) (w w' : world) :
  App.call_llm (App.extract_prompt job_description) 500 w = (Ok (PStr s), w') ->
  (forall g v, App.search_braces s = Some g -> json_loads g <> Ok v) ->
  App.extract_job_info job_description w
  = (Ok (PDict [ ("job_title", PStr "Software Engineer");
                 ("company", PStr "Company");
                 ("location", PStr "Remote");
                 ("job_type", PStr "hybrid");
                 ("key_skills", PList []) ]), w').
Proof.
  intros Hcall Hnoparse.
  unfold App.extract_job_info, bind. rewrite Hcall. unfold ret.
  unfold App.job_info_of_response, App.parse_job_info.
  destruct (App.search_braces s) as [g|] eqn:Hs; [|reflexivity].
  destruct (json_loads g) as [v|e] eqn:Hg; [|reflexivity].
  now destruct (Hnoparse g v eq_refl).
Qed.

(** C3, as amended.  Once [call_llm] has returned, the extractor cannot
    raise: it returns the object parsed from the reply or the default
    record.  A failure of the LLM call itself (transport, timeout, HTTP
    status, malformed response body) is not absorbed: it leaves
    [extract_job_info] as an exception, and the generate route answers
    it with an error 500. *)
Theorem C3_llm_failure_propagates (job_description : pyval) (w : world) :
  match App.call_llm (App.extract_prompt job_description) 500 w with
  | (Ok content, w') =>
      exists job_info,
        App.extract_job_info job_description w = (Ok job_info, w')
        /\ (job_info = App.default_job_info
            \/ exists s g,
                 content = PStr s /\ App.search_braces s = Some g
                 /\ json_loads g = Ok job_info)
  | (Raise e, w') =>
      App.extract_job_info job_description w = (Raise e, w')
      /\ (truthy job_description = true ->
          forall rest,
            App.generate (PDict (("job_description", job_description) :: rest)) w
            = (Ok (App.ServerError e), w'))
  end.
Proof.
  destruct (App.call_llm (App.extract_prompt job_description) 500 w)
    as [[content|e] w'] eqn:Hcall.
  - exists (App.job_info_of_response content). split.
    + unfold App.extract_job_info, bind. now rewrite Hcall.
    + apply job_info_of_response_cases.
  - assert (Hex : App.extract_job_info job_description w = (Raise e, w')).
    { unfold App.extract_job_info, bind. now rewrite Hcall. }
    split; [exact Hex|].
    intros Ht rest.
    unfold App.generate, bind at 1, lift. simpl py_get. cbv beta iota.
    rewrite Ht. cbn [negb].
    unfold try_except. unfold bind at 1. rewrite Hex. reflexivity.
Qed.

End Extraction.

(* ------------------------------------------------------------------ *)
(** ** The tailoring request *)

Section Tailoring.
Context `{B : Builtins}.


Lemma message_content_has_choices kv content :
  message_content (PDict kv) = Ok content ->
  exists choices, lookup "choices" kv = Some choices.
Proof.
  unfold message_content. simpl.
  destruct (lookup "choices" kv) as [choices|]; [now eexists | discriminate].
Qed.




(** [handle_result] neither posts nor touches the session file. *)
Lemma handle_result_world r w :
  snd (GenerateResume.handle_result r w) = w.
Proof.
  unfold GenerateResume.handle_result, bind, lift, ret, try_except.
  destruct (py_contains "error" r) as [[|]|]; [| |reflexivity].
  - destruct (py_item r "error"); reflexivity.
  - destruct (py_contains "choices" r) as [[|]|]; [| reflexivity | reflexivity].
    destruct (GenerateResume.parse_choices r) as [data|e]; [reflexivity|].
    destruct (is_JSONDecodeError e); reflexivity.
Qed.

(** Without any provider key no request is posted and the result is
    [None]. *)
Lemma get_structured_resume_no_provider jt co jd rc w :
  GenerateResume.first_available (environ w) GenerateResume.LLM_PROVIDERS
  = Raise ValueError ->
  GenerateResume.get_structured_resume jt co jd rc w = (Ok PNone, w).
Proof.
  intros Hcfg. unfold GenerateResume.get_structured_resume.
  unfold bind at 1. unfold try_except, bind at 1.
  unfold GenerateResume.get_llm_config. now rewrite Hcfg.
Qed.

(** A transport failure of the one request leaves the requestor as an
    exception; the request is not repeated. *)
Lemma get_structured_resume_transport_failure jt co jd rc w config e :
  GenerateResume.first_available (environ w) GenerateResume.LLM_PROVIDERS
  = Ok config ->
  backend w (calls w) (GenerateResume.tailoring_request config jt co jd rc)
  = Raise e ->
  GenerateResume.get_structured_resume jt co jd rc w
  = (Raise e,
     with_calls w (calls w ++ [GenerateResume.tailoring_request config jt co jd rc])).
Proof.
  intros Hcfg Hpost. unfold GenerateResume.get_structured_resume.
  unfold bind at 1. unfold try_except, bind at 1.
  unfold GenerateResume.get_llm_config. rewrite Hcfg. unfold ret at 1.
  unfold bind at 1. unfold requests_post. now rewrite Hpost.
Qed.



End Tailoring.

(* ------------------------------------------------------------------ *)
(** ** The generate and download routes *)

Section Routes.
Context `{B : Builtins} `{L : DocumentLibraries}.

Lemma override_contact_profile data d :
  App.override_contact data = Ok d ->
  forall k v, lookup k App.USER_PROFILE = Some v -> py_item d k = Ok v.
Proof.
  destruct data as [| | | | | |kv]; try discriminate.
  unfold App.override_contact. simpl. intros [= <-] k v Hk.
  unfold App.USER_PROFILE in Hk. simpl in Hk. simpl.
  repeat match type of Hk with
         | (if String.eqb k ?key then _ else _) = _ =>
             let E := fresh "E" in
             destruct (String.eqb k key) eqn:E;
             [ apply String.eqb_eq in E; subst k; injection Hk as <-;
               repeat (rewrite lookup_dict_set_other by discriminate);
               now rewrite lookup_dict_set_same
             | ]
         end.
  discriminate.
Qed.

(** [generate_resume_data] catches every exception, and what it returns
    is [None] or a resume whose contact fields were overwritten. *)
Lemma generate_resume_data_cases job_info job_description w :
  exists d w',
    App.generate_resume_data job_info job_description w = (Ok d, w')
    /\ (d = PNone \/ exists data, App.override_contact data = Ok d).
Proof.
  unfold App.generate_resume_data, try_except, bind, ask, lift, ret.
  destruct (py_get job_info "job_title" _) as [job_title|e];
    [|do 2 eexists; split; [reflexivity | now left]].
  destruct (py_get job_info "company" _) as [company|e];
    [|do 2 eexists; split; [reflexivity | now left]].
  destruct (GenerateResume.get_structured_resume _ _ _ _ w) as [[data|e] w1];
    [|do 2 eexists; split; [reflexivity | now left]].
  destruct (truthy data);
    [|do 2 eexists; split; [reflexivity | now left]].
  destruct (App.override_contact data) as [d|e] eqn:Ho;
    do 2 eexists; (split; [reflexivity|]).
  - right. now exists data.
  - now left.
Qed.


Lemma generate_response_email_session job_info job_description w :
  session_file (snd (App.generate_response_email job_info job_description w))
  = session_file w.
Proof.
  unfold App.generate_response_email, bind, lift.
  repeat match goal with
         | |- context [match ?x with Ok _ => _ | Raise _ => _ end] =>
             destruct x; [|reflexivity]
         end.
  apply call_llm_session.
Qed.

(** C10.  A generate request whose job-info extraction returned goes on
    to tailoring and then writes the session file, whatever tailoring
    gave: the stored resume is the tailoring outcome.  When that outcome
    is [None], every download request made afterwards is answered with
    the "No resume generated yet" error, whatever the session file held
    before. *)
Theorem C10_session_overwritten
    (data job_description job_info : pyval) (w w1 : world) :
  py_get data "job_description" (PStr "") = Ok job_description ->
  truthy job_description = true ->
  App.extract_job_info job_description w = (Ok job_info, w1) ->
  exists resume w2 r w3,
    App.generate_resume_data job_info job_description w1 = (Ok resume, w2)
    /\ App.generate data w = (Ok r, w3)
    /\ session_file w3
       = Some (PDict [ ("resume", resume); ("job_info", job_info);
                       ("jd", job_description) ])
    /\ (resume = PNone ->
        forall format company,
          App.download_resume format company w3 = (Ok App.NoResumeGenerated, w3)).
Proof.
  intros Hjd Ht Hex.
  destruct (generate_resume_data_cases job_info job_description w1)
    as [resume [w2 [Hres _]]].
  set (stored := PDict [ ("resume", resume); ("job_info", job_info);
                         ("jd", job_description) ]).
  destruct (App.generate_response_email job_info job_description
              (with_session w2 (Some stored))) as [email w3] eqn:Hemail.
  assert (Hsession : session_file w3 = Some stored).
  { pose proof (generate_response_email_session job_info job_description
                  (with_session w2 (Some stored))) as Hs.
    rewrite Hemail in Hs. exact Hs. }
  assert (Hgen : exists r, App.generate data w = (Ok r, w3)).
  { unfold App.generate. unfold bind at 1. unfold lift at 1. rewrite Hjd.
    rewrite Ht. cbn [negb]. unfold try_except.
    unfold bind at 1. rewrite Hex.
    unfold bind at 1. rewrite Hres.
    unfold bind at 1. unfold App.save_session at 1.
    unfold bind at 1. fold stored. rewrite Hemail.
    destruct email as [email|e]; now eexists. }
  destruct Hgen as [r Hgen].
  exists resume, w2, r, w3.
  split; [exact Hres|]. split; [exact Hgen|]. split; [exact Hsession|].
  intros -> format company.
  unfold App.download_resume, App.load_session, bind, lift, ret.
  rewrite Hsession. reflexivity.
Qed.

End Routes.

(* ------------------------------------------------------------------ *)
(** ** Provider selection and the requests posted *)

Section Providers.
Context `{B : Builtins}.

Lemma app_first_available_cerebras (env : list (string * string)) :
  exists key,
    App.first_available env App.LLM_PROVIDERS
    = Ok {| App.cfg_provider := "cerebras";
            App.cfg_url := "https://api.cerebras.ai/v1/chat/completions";
            App.cfg_model := "llama-3.3-70b";
            App.cfg_api_key := key |}
    /\ key <> ""
    /\ (key = environ_get env "CEREBRAS_API_KEY" ""
        \/ (environ_get env "CEREBRAS_API_KEY" "" = ""
            /\ key = App.DEFAULT_CEREBRAS_KEY)).
Proof.
  unfold App.LLM_PROVIDERS. simpl.
  destruct (String.eqb (environ_get env "CEREBRAS_API_KEY" "") "") eqn:E; simpl.
  - apply String.eqb_eq in E. eexists. split; [reflexivity|].
    split; [discriminate|]. right. now split.
  - rewrite E. simpl. eexists. split; [reflexivity|].
    apply String.eqb_neq in E. split; [exact E | now left].
Qed.

(** The web app always selects Cerebras: its entry comes first and has a
    default key, so neither [get_llm_config] can raise nor can the Groq
    or OpenRouter entries ever be reached.  The key is the environment's
    when that is set and not empty, the default otherwise. *)
Theorem app_config_always_cerebras (env : list (string * string)) :
  exists key,
    App.first_available env App.LLM_PROVIDERS
    = Ok {| App.cfg_provider := "cerebras";
            App.cfg_url := "https://api.cerebras.ai/v1/chat/completions";
            App.cfg_model := "llama-3.3-70b";
            App.cfg_api_key := key |}
    /\ key <> ""
    /\ (key = environ_get env "CEREBRAS_API_KEY" ""
        \/ (environ_get env "CEREBRAS_API_KEY" "" = ""
            /\ key = App.DEFAULT_CEREBRAS_KEY)).
Proof. exact (app_first_available_cerebras env). Qed.

(** The command-line generator takes the first of Cerebras, Groq and
    OpenRouter whose environment variable is set and not empty, with that
    variable as the key, and raises [ValueError] exactly when all three
    are unset or empty. *)
Theorem gen_config_priority (env : list (string * string)) :
  let c := environ_get env "CEREBRAS_API_KEY" "" in
  let g := environ_get env "GROQ_API_KEY" "" in
  let o := environ_get env "OPENROUTER_API_KEY" "" in
  match GenerateResume.first_available env GenerateResume.LLM_PROVIDERS with
  | Raise e => e = ValueError /\ c = "" /\ g = "" /\ o = ""
  | Ok config =>
      GenerateResume.cfg_api_key config <> ""
      /\ ((c <> "" /\ GenerateResume.cfg_provider config = "cerebras"
           /\ GenerateResume.cfg_api_key config = c)
          \/ (c = "" /\ g <> "" /\ GenerateResume.cfg_provider config = "groq"
              /\ GenerateResume.cfg_api_key config = g)
          \/ (c = "" /\ g = "" /\ o <> ""
              /\ GenerateResume.cfg_provider config = "openrouter"
              /\ GenerateResume.cfg_api_key config = o))
  end.
Proof.
  intros c g o. unfold GenerateResume.LLM_PROVIDERS. simpl.
  fold c g o.
  destruct (String.eqb c "") eqn:Ec; simpl.
  - apply String.eqb_eq in Ec.
    destruct (String.eqb g "") eqn:Eg; simpl.
    + apply String.eqb_eq in Eg.
      destruct (String.eqb o "") eqn:Eo; simpl.
      * apply String.eqb_eq in Eo. now repeat split.
      * apply String.eqb_neq in Eo. split; [exact Eo|].
        right. right. now repeat split.
    + apply String.eqb_neq in Eg. split; [exact Eg|].
      right. left. now repeat split.
  - apply String.eqb_neq in Ec. split; [exact Ec|].
    left. now repeat split.
Qed.

(** With no provider key in the environment the tailoring requestor
    returns [None] at once: nothing is posted and the world is as before. *)
Theorem tailoring_without_key_posts_nothing
    (job_title company job_description resume_content : pyval) (w : world) :
  environ_get (environ w) "CEREBRAS_API_KEY" "" = "" ->
  environ_get (environ w) "GROQ_API_KEY" "" = "" ->
  environ_get (environ w) "OPENROUTER_API_KEY" "" = "" ->
  GenerateResume.get_structured_resume job_title company job_description
    resume_content w
  = (Ok PNone, w).
Proof.
  intros Hc Hg Ho.
  unfold GenerateResume.get_structured_resume.
  unfold bind at 1. unfold try_except, bind at 1.
  unfold GenerateResume.get_llm_config, GenerateResume.LLM_PROVIDERS. simpl.
  now rewrite Hc, Hg, Ho.
Qed.

Lemma posts_at_most_refl n w : posts_at_most n w w.
Proof.
  repeat split. exists []. split; [now rewrite app_nil_r | apply Nat.le_0_l].
Qed.

Lemma posts_at_most_trans n m w1 w2 w3 :
  posts_at_most n w1 w2 -> posts_at_most m w2 w3 ->
  posts_at_most (n + m) w1 w3.
Proof.
  intros [He1 [Hf1 [Hb1 [rs1 [Hc1 Hl1]]]]] [He2 [Hf2 [Hb2 [rs2 [Hc2 Hl2]]]]].
  repeat split; try congruence.
  exists (rs1 ++ rs2)%list. split.
  - now rewrite Hc2, Hc1, app_assoc.
  - rewrite length_app. lia.
Qed.

Lemma posts_at_most_weaken n m w w' :
  (n <= m)%nat -> posts_at_most n w w' -> posts_at_most m w w'.
Proof.
  intros Hle [He [Hf [Hb [rs [Hc Hl]]]]].
  repeat split; try assumption. exists rs. split; [assumption | lia].
Qed.

Lemma posts_one w req :
  posts_at_most 1 w (with_calls w (calls w ++ [req])).
Proof.
  repeat split. exists [req]. split; [reflexivity | apply Nat.le_refl].
Qed.

Lemma get_structured_resume_world jt co jd rc w :
  snd (GenerateResume.get_structured_resume jt co jd rc w) = w
  \/ exists req,
       snd (GenerateResume.get_structured_resume jt co jd rc w)
       = with_calls w (calls w ++ [req]).
Proof.
  remember (GenerateResume.get_structured_resume jt co jd rc w) as out eqn:Hout.
  unfold GenerateResume.get_structured_resume in Hout.
  unfold bind at 1 in Hout. unfold try_except, bind at 1 in Hout.
  unfold GenerateResume.get_llm_config in Hout.
  destruct (GenerateResume.first_available (environ w) GenerateResume.LLM_PROVIDERS)
    as [config|e].
  - right. unfold ret at 1 in Hout. unfold bind at 1 in Hout.
    unfold requests_post in Hout.
    exists (GenerateResume.tailoring_request config jt co jd rc).
    destruct (backend w (calls w)
                (GenerateResume.tailoring_request config jt co jd rc))
      as [resp|e]; [|now subst out].
    unfold bind at 1 in Hout. unfold lift at 1 in Hout.
    destruct (response_json resp) as [r|e]; [|now subst out].
    subst out. apply handle_result_world.
  - left. destruct (is_ValueError e); now subst out.
Qed.

(** The tailoring requestor posts at most one request, whatever the
    backend answers, and never writes the session file. *)
Theorem tailoring_posts_at_most_once
    (job_title company job_description resume_content : pyval) (w : world) :
  posts_at_most 1 w
    (snd (GenerateResume.get_structured_resume job_title company
            job_description resume_content w))
  /\ session_file (snd (GenerateResume.get_structured_resume job_title company
                          job_description resume_content w))
     = session_file w.
Proof.
  destruct (get_structured_resume_world job_title company job_description
              resume_content w) as [->|[req ->]].
  - split; [|reflexivity].
    apply posts_at_most_weaken with (n := 0%nat);
      [apply Nat.le_0_l | apply posts_at_most_refl].
  - split; [apply posts_one | reflexivity].
Qed.

Lemma message_content_not_decode_error r e :
  message_content r = Raise e -> is_JSONDecodeError e = false.
Proof.
  unfold message_content, rbind.
  destruct r as [| | | | | |kv]; simpl; try (intros [= <-]; reflexivity).
  destruct (lookup "choices" kv) as [choices|]; [|intros [= <-]; reflexivity].
  assert (Hitem : forall v k x, py_item v k = Raise x -> is_JSONDecodeError x = false).
  { intros v k x. destruct v as [| | | | | |kv']; simpl;
      try (intros [= <-]; reflexivity).
    destruct (lookup k kv'); [discriminate | intros [= <-]; reflexivity]. }
  destruct (py_first choices) as [choice|e1] eqn:Hfirst.
  - destruct (py_item choice "message") as [message|e2] eqn:Hm.
    + apply Hitem.
    + intros [= <-]. exact (Hitem _ _ _ Hm).
  - intros [= <-].
    destruct choices as [| | | |s|l|kv']; simpl in Hfirst;
      try (injection Hfirst as <-; reflexivity).
    + destruct (py_chars s); [injection Hfirst as <-; reflexivity | discriminate].
    + destruct l; [injection Hfirst as <-; reflexivity | discriminate].
Qed.

(** A response body that is an object without ["error"]: with no
    ["choices"] entry the requestor returns [None]; with one from which
    no message content can be read, the [KeyError], [IndexError] or
    [TypeError] of the lookup leaves the function, since only
    [json.JSONDecodeError] is caught; so does the [TypeError] raised for
    a content that is not a string. *)
Theorem malformed_envelope_raises (kv : list (string * pyval)) (w : world) :
  lookup "error" kv = None ->
  (lookup "choices" kv = None ->
   GenerateResume.handle_result (PDict kv) w = (Ok PNone, w))
  /\ (forall e,
         lookup "choices" kv <> None ->
         message_content (PDict kv) = Raise e ->
         GenerateResume.handle_result (PDict kv) w = (Raise e, w))
  /\ (forall content,
         message_content (PDict kv) = Ok content ->
         (forall s, content <> PStr s) ->
         GenerateResume.handle_result (PDict kv) w = (Raise TypeError, w)).
Proof.
  intros Herr.
  unfold GenerateResume.handle_result, bind, lift, ret, try_except.
  cbn [py_contains]. rewrite Herr.
  split; [|split].
  - intros Hch. now rewrite Hch.
  - intros e Hch Hmc.
    destruct (lookup "choices" kv); [|contradiction].
    unfold GenerateResume.parse_choices. rewrite Hmc. cbn [rbind].
    now rewrite (message_content_not_decode_error _ _ Hmc).
  - intros content Hmc Hns.
    destruct (message_content_has_choices _ _ Hmc) as [choices Hch].
    rewrite Hch.
    unfold GenerateResume.parse_choices. rewrite Hmc. cbn [rbind].
    destruct content as [| | | |s|l|d]; try reflexivity.
    exfalso. now apply (Hns s).
Qed.

Lemma call_llm_world prompt max_tokens w :
  exists req,
    snd (App.call_llm prompt max_tokens w) = with_calls w (calls w ++ [req]).
Proof.
  destruct (app_first_available_cerebras (environ w)) as [key [Hcfg _]].
  remember (App.call_llm prompt max_tokens w) as out eqn:Hout.
  unfold App.call_llm in Hout.
  unfold bind at 1 in Hout. unfold App.get_llm_config in Hout.
  rewrite Hcfg in Hout.
  match type of Hout with
  | context [requests_post ?r] => set (req := r) in Hout
  end.
  unfold bind at 1 in Hout. unfold requests_post in Hout.
  exists req.
  destruct (backend w (calls w) req) as [resp|e]; [|now subst out].
  unfold bind, lift in Hout.
  destruct (App.raise_for_status resp); now subst out.
Qed.

(** [call_llm] posts exactly one request, to Cerebras, with a timeout of
    120 seconds, whatever comes back; an answer with a 4xx or 5xx status
    raises [HTTPError] even when its body holds a message.  The session
    file is not touched. *)
Theorem call_llm_posts_once (prompt : string) (max_tokens : Z) (w : world) :
  exists req,
    snd (App.call_llm prompt max_tokens w) = with_calls w (calls w ++ [req])
    /\ req_url req = "https://api.cerebras.ai/v1/chat/completions"
    /\ req_timeout req = Some 120%Z
    /\ py_item (req_payload req) "max_tokens" = Ok (PInt max_tokens)
    /\ (forall resp,
           backend w (calls w) req = Ok resp ->
           (400 <= status_code resp < 600)%Z ->
           fst (App.call_llm prompt max_tokens w) = Raise HTTPError).
Proof.
  destruct (app_first_available_cerebras (environ w)) as [key [Hcfg _]].
  remember (App.call_llm prompt max_tokens w) as out eqn:Hout.
  unfold App.call_llm in Hout.
  unfold bind at 1 in Hout. unfold App.get_llm_config in Hout.
  rewrite Hcfg in Hout.
  match type of Hout with
  | context [requests_post ?r] => set (req := r) in Hout
  end.
  unfold bind at 1 in Hout. unfold requests_post in Hout.
  exists req. split; [|split; [|split; [|split]]]; try reflexivity.
  - destruct (backend w (calls w) req) as [resp|e]; [|now subst out].
    unfold bind, lift in Hout.
    destruct (App.raise_for_status resp); now subst out.
  - intros resp Hpost [Hlo Hhi]. rewrite Hpost in Hout.
    unfold bind, lift, App.raise_for_status in Hout.
    apply Z.leb_le in Hlo. apply Z.ltb_lt in Hhi.
    rewrite Hlo, Hhi in Hout. now subst out.
Qed.

End Providers.

(* ------------------------------------------------------------------ *)
(** ** The tailored resume and the two routes, continued *)

Section RoutesContinued.
Context `{B : Builtins} `{L : DocumentLibraries}.

Lemma override_contact_dict kv :
  exists kv',
    App.override_contact (PDict kv) = Ok (PDict kv')
    /\ (forall k, lookup k App.USER_PROFILE = None -> lookup k kv' = lookup k kv)
    /\ (forall k v, lookup k App.USER_PROFILE = Some v -> lookup k kv' = Some v).
Proof.
  unfold App.override_contact. simpl. eexists. split; [reflexivity|]. split.
  - intros k Hk. unfold App.USER_PROFILE in Hk. simpl in Hk.
    repeat match type of Hk with
           | (if String.eqb k ?key then _ else _) = _ =>
               let E := fresh "E" in
               destruct (String.eqb k key) eqn:E; [discriminate|];
               apply String.eqb_neq in E
           end.
    now repeat (rewrite lookup_dict_set_other by assumption).
  - intros k v Hk.
    assert (H : py_item (PDict (dict_set "location" (App.profile "location")
                  (dict_set "linkedin" (App.profile "linkedin")
                     (dict_set "phone" (App.profile "phone")
                        (dict_set "email" (App.profile "email")
                           (dict_set "name" (App.profile "name") kv)))))) k
                = Ok v).
    { apply (override_contact_profile (PDict kv)); [reflexivity | exact Hk]. }
    simpl in H. destruct (lookup k _); [now injection H as -> | discriminate].
Qed.


(** In every other case the resume handed on is [None]: when tailoring
    raises (transport failure, malformed response), returns [None], or
    returns anything but a non-empty object, such as [{}] or a JSON
    list.  No exception leaves [generate_resume_data]. *)
Theorem untailored_outcomes_give_none
    (ji : list (string * pyval)) (job_description : pyval)
    (r : result pyval) (w w1 : world) :
  GenerateResume.get_structured_resume
    (match lookup "job_title" ji with Some t => t | None => PStr "Software Engineer" end)
    (match lookup "company" ji with Some c => c | None => PStr "Company" end)
    job_description
    (App.resume_value (GenerateResume.load_resume (files w))) w
  = (r, w1) ->
  (forall item kv, r <> Ok (PDict (item :: kv))) ->
  App.generate_resume_data (PDict ji) job_description w = (Ok PNone, w1).
Proof.
  intros Hrun Hnot.
  unfold App.generate_resume_data, try_except, bind, ask, lift, ret.
  cbn [py_get]. rewrite Hrun.
  destruct r as [data|e]; [|reflexivity].
  destruct data as [| | | | |l|kv]; cbn [truthy];
    try reflexivity;
    try (match goal with |- context [if ?b then _ else _] => destruct b end;
         reflexivity).
  destruct kv as [|item kv0]; [reflexivity|].
  exfalso. now apply (Hnot item kv0).
Qed.

Lemma generate_resume_data_world job_info job_description w :
  snd (App.generate_resume_data job_info job_description w) = w
  \/ exists req,
       snd (App.generate_resume_data job_info job_description w)
       = with_calls w (calls w ++ [req]).
Proof.
  remember (App.generate_resume_data job_info job_description w) as out eqn:Hout.
  unfold App.generate_resume_data, try_except, bind, ask, lift, ret in Hout.
  destruct (py_get job_info "job_title" _) as [job_title|e];
    [|left; now subst out].
  destruct (py_get job_info "company" _) as [company|e];
    [|left; now subst out].
  match type of Hout with
  | context [GenerateResume.get_structured_resume ?a ?b ?c ?d w] =>
      pose proof (get_structured_resume_world a b c d w) as Hw;
      destruct (GenerateResume.get_structured_resume a b c d w) as [[data|e] w1]
  end; simpl in Hw.
  - assert (Hsnd : snd out = w1).
    { destruct (truthy data); [|now subst out].
      destruct (App.override_contact data); now subst out. }
    rewrite Hsnd. exact Hw.
  - assert (Hsnd : snd out = w1) by now subst out.
    rewrite Hsnd. exact Hw.
Qed.

Lemma generate_response_email_world job_info job_description w :
  snd (App.generate_response_email job_info job_description w) = w
  \/ exists req,
       snd (App.generate_response_email job_info job_description w)
       = with_calls w (calls w ++ [req]).
Proof.
  remember (App.generate_response_email job_info job_description w) as out eqn:Hout.
  unfold App.generate_response_email, bind, lift in Hout.
  repeat match type of Hout with
         | context [match ?x with Ok _ => _ | Raise _ => _ end] =>
             destruct x; [|left; now subst out]
         end.
  right. subst out. apply call_llm_world.
Qed.

Lemma posts_with_calls n w rs :
  (length rs <= n)%nat -> posts_at_most n w (with_calls w (calls w ++ rs)).
Proof.
  intros Hl. repeat split. exists rs. now split.
Qed.

Lemma posts_at_most_one_of w w' :
  (w' = w \/ exists req, w' = with_calls w (calls w ++ [req])) ->
  posts_at_most 1 w w' /\ session_file w' = session_file w.
Proof.
  intros [->|[req ->]].
  - split; [|reflexivity].
    apply posts_at_most_weaken with (n := 0%nat);
      [apply Nat.le_0_l | apply posts_at_most_refl].
  - split; [apply posts_one | reflexivity].
Qed.

(** A request without a job description (the key missing, or its value
    empty or otherwise falsy) is rejected with the 400 answer before
    anything happens: no request is posted and the session file keeps
    what it held. *)
Theorem generate_rejects_empty_description
    (kv : list (string * pyval)) (w : world) :
  match lookup "job_description" kv with
  | Some v => truthy v = false
  | None => True
  end ->
  App.generate (PDict kv) w = (Ok App.JobDescriptionRequired, w).
Proof.
  intros H. unfold App.generate. unfold bind at 1. unfold lift at 1.
  cbn [py_get].
  destruct (lookup "job_description" kv) as [v|]; [now rewrite H | reflexivity].
Qed.

(** For a JSON object as request body, [generate] always answers: no
    exception leaves it.  It posts at most three requests (extraction,
    tailoring, e-mail) and changes neither the environment nor the
    files. *)
Theorem generate_posts_at_most_three (kv : list (string * pyval)) (w : world) :
  exists r w',
    App.generate (PDict kv) w = (Ok r, w') /\ posts_at_most 3 w w'.
Proof.
  remember (App.generate (PDict kv) w) as out eqn:Hout.
  unfold App.generate in Hout. unfold bind at 1 in Hout. unfold lift at 1 in Hout.
  cbn [py_get] in Hout.
  set (jd := match lookup "job_description" kv with
             | Some x => x | None => PStr "" end) in Hout.
  destruct (truthy jd); cbn [negb] in Hout.
  2:{ subst out. do 2 eexists. split; [reflexivity|].
      apply posts_at_most_weaken with (n := 0%nat);
        [apply Nat.le_0_l | apply posts_at_most_refl]. }
  unfold try_except in Hout. unfold bind at 1 in Hout.
  destruct (call_llm_world (App.extract_prompt jd) 500 w) as [req1 Hw1].
  assert (Hex : snd (App.extract_job_info jd w) = with_calls w (calls w ++ [req1])).
  { rewrite <- Hw1. unfold App.extract_job_info, bind.
    destruct (App.call_llm (App.extract_prompt jd) 500 w) as [[c|e] w0]; reflexivity. }
  destruct (App.extract_job_info jd w) as [[ji|e] w1]; simpl in Hex; subst w1.
  2:{ subst out. do 2 eexists. split; [reflexivity|].
      apply posts_with_calls. simpl. lia. }
  set (w1 := with_calls w (calls w ++ [req1])) in *.
  assert (P1 : posts_at_most 1 w w1) by apply posts_one.
  unfold bind at 1 in Hout.
  destruct (generate_resume_data_cases ji jd w1) as [resume [w2 [Hres _]]].
  pose proof (posts_at_most_one_of w1 w2) as P2.
  destruct P2 as [P2 _].
  { pose proof (generate_resume_data_world ji jd w1) as H.
    rewrite Hres in H. exact H. }
  rewrite Hres in Hout.
  unfold bind at 1 in Hout. unfold App.save_session at 1 in Hout.
  unfold bind at 1 in Hout.
  set (w2' := with_session w2 _) in Hout.
  pose proof (posts_at_most_one_of w2'
                (snd (App.generate_response_email ji jd w2'))
                (generate_response_email_world ji jd w2')) as [P3 _].
  assert (P23 : posts_at_most 2 w1 (snd (App.generate_response_email ji jd w2'))).
  { apply (posts_at_most_trans 1 1 w1 w2' _); [|exact P3].
    destruct P2 as [He [Hf [Hb Hc]]]. repeat split; assumption. }
  pose proof (posts_at_most_trans 1 2 _ _ _ P1 P23) as P.
  destruct (App.generate_response_email ji jd w2') as [[email|e] w3];
    simpl in P; subst out; do 2 eexists; (split; [reflexivity | exact P]).
Qed.

(** The session file is written before the e-mail is requested: when the
    e-mail step fails, [generate] answers with the error 500 and yet the
    session already holds the new resume, which a later download
    serves. *)
Theorem email_failure_keeps_new_session
    (data job_description job_info resume : pyval) (w w1 w2 w3 : world) (e : exn) :
  py_get data "job_description" (PStr "") = Ok job_description ->
  truthy job_description = true ->
  App.extract_job_info job_description w = (Ok job_info, w1) ->
  App.generate_resume_data job_info job_description w1 = (Ok resume, w2) ->
  App.generate_response_email job_info job_description
    (with_session w2
       (Some (PDict [ ("resume", resume); ("job_info", job_info);
                      ("jd", job_description) ])))
  = (Raise e, w3) ->
  App.generate data w = (Ok (App.ServerError e), w3)
  /\ session_file w3
     = Some (PDict [ ("resume", resume); ("job_info", job_info);
                     ("jd", job_description) ]).
Proof.
  intros Hjd Ht Hex Hres Hemail. split.
  - unfold App.generate. unfold bind at 1. unfold lift at 1. rewrite Hjd.
    rewrite Ht. cbn [negb]. unfold try_except.
    unfold bind at 1. rewrite Hex.
    unfold bind at 1. rewrite Hres.
    unfold bind at 1. unfold App.save_session at 1.
    unfold bind at 1. now rewrite Hemail.
  - pose proof (generate_response_email_session job_info job_description
                  (with_session w2
                     (Some (PDict [ ("resume", resume); ("job_info", job_info);
                                    ("jd", job_description) ])))) as Hs.
    rewrite Hemail in Hs. exact Hs.
Qed.

(** [download_resume] posts nothing and leaves the session file alone:
    whatever it answers, and also when a renderer raises, the
    environment, the session file and the log of requests are as they
    were. *)
Theorem download_reads_only (format company : option string) (w : world) :
  snd (App.download_resume format company w) = w.
Proof.
  unfold App.download_resume, App.load_session, bind, lift, ret.
  destruct (py_get _ "resume" PNone) as [resume_data|e]; [|reflexivity].
  destruct (truthy resume_data); cbn [negb]; [|reflexivity].
  destruct mkdir_output; [|reflexivity].
  destruct (String.eqb _ "pdf").
  - destruct (App.generate_pdf resume_data _); reflexivity.
  - destruct (App.generate_docx resume_data _); reflexivity.
Qed.

(** The resume a download would render: the ['resume'] entry of the
    session object, [None] without a session file or without the entry. *)
Lemma download_no_resume_iff_aux format company w kv :
  match session_file w with Some data => data | None => PDict [] end = PDict kv ->
  (fst (App.download_resume format company w) = Ok App.NoResumeGenerated
   <-> truthy (match lookup "resume" kv with Some r => r | None => PNone end)
       = false).
Proof.
  intros Hs.
  unfold App.download_resume, App.load_session, bind, lift, ret.
  rewrite Hs. cbn [py_get].
  destruct (truthy _); cbn [negb].
  - split; [|discriminate].
    destruct mkdir_output; [|discriminate].
    destruct (String.eqb _ "pdf").
    + destruct (App.generate_pdf _ _); discriminate.
    + destruct (App.generate_docx _ _); discriminate.
  - split; reflexivity.
Qed.

(** With no session file, or one holding an object, a download is
    answered "No resume generated yet" exactly when the stored ['resume']
    is missing or falsy ([None], [{}], ...); in particular before any
    generation. *)
Theorem download_refused_iff_no_resume
    (format company : option string) (w : world) (kv : list (string * pyval)) :
  session_file w = None /\ kv = [] \/ session_file w = Some (PDict kv) ->
  (fst (App.download_resume format company w) = Ok App.NoResumeGenerated
   <-> truthy (match lookup "resume" kv with Some r => r | None => PNone end)
       = false).
Proof.
  intros H. apply download_no_resume_iff_aux.
  destruct H as [[-> ->]| ->]; reflexivity.
Qed.

(** The route renders a PDF only for the format ["pdf"].  For any other
    value of the [format] argument and a session holding a resume, the
    request ends as [generate_docx] does on the file
    [resume_<company>_<format>.<format>] of the output folder: the blocks
    it returns are sent under the name [resume_<company>.<format>], and
    an exception it raises, as when the file cannot be created, leaves
    the route; so does an exception of [mkdir]. *)
Theorem download_other_format_is_docx
    (format : string) (company : option string) (w : world)
    (kv : list (string * pyval)) (resume : pyval) :
  session_file w = Some (PDict kv) ->
  lookup "resume" kv = Some resume ->
  truthy resume = true ->
  format <> "pdf" ->
  let company_name := match company with Some c => c | None => "resume" end in
  let file := ("resume_" ++ company_name ++ "_" ++ format) ++ "." ++ format in
  App.download_resume (Some format) company w
  = (match mkdir_output with
     | Raise e => Raise e
     | Ok _ =>
         match App.generate_docx resume file with
         | Ok blocks =>
             Ok (App.SendFile ("resume_" ++ company_name ++ "." ++ format) file
                   (App.DocxDocument blocks))
         | Raise e => Raise e
         end
     end, w).
Proof.
  intros Hs Hr Ht Hf company_name file.
  unfold App.download_resume, App.load_session, bind, lift, ret.
  rewrite Hs. cbn [py_get]. rewrite Hr, Ht. cbn [negb].
  destruct mkdir_output; [|reflexivity].
  apply String.eqb_neq in Hf. rewrite Hf. fold company_name. fold file.
  now destruct (App.generate_docx resume file).
Qed.

(** After a generate request whose tailoring gave a resume, a PDF
    download that sends a file sends the story [generate_pdf] returned
    for that resume, and the story opens with the name and the contact
    line of [USER_PROFILE], whatever the LLM answered. *)
Theorem served_pdf_opens_with_profile
    (data job_description job_info resume : pyval) (w w1 w2 w' : world)
    (company : option string) (download_name file : string)
    (doc : App.document) :
  py_get data "job_description" (PStr "") = Ok job_description ->
  truthy job_description = true ->
  App.extract_job_info job_description w = (Ok job_info, w1) ->
  App.generate_resume_data job_info job_description w1 = (Ok resume, w2) ->
  resume <> PNone ->
  App.download_resume (Some "pdf") company (snd (App.generate data w))
  = (Ok (App.SendFile download_name file doc), w') ->
  exists story rest,
    doc = App.PdfDocument story
    /\ App.generate_pdf resume file = Ok story
    /\ story
       = Paragraph (PStr "Muhammad Kasim Naina Mohammed") StyleName
         :: Paragraph
              (PStr "mohammedmazhermd@gmail.com | (510) 771-4493 | San Jose, CA")
              StyleNormal
         :: rest.
Proof.
  intros Hjd Ht Hex Hres Hnn Hdown.
  destruct (generate_resume_data_cases job_info job_description w1)
    as [d [w2' [Hd Hcases]]].
  rewrite Hres in Hd. injection Hd as <- <-.
  destruct Hcases as [->|[tailored Ho]]; [contradiction|].
  destruct tailored as [| | | | | |kv]; try discriminate.
  destruct (override_contact_dict kv) as [kv' [Ho' [_ Hprofile]]].
  rewrite Ho' in Ho. injection Ho as <-.
  set (stored := [ ("resume", PDict kv'); ("job_info", job_info);
                   ("jd", job_description) ]).
  assert (Hsession : session_file (snd (App.generate data w))
                     = Some (PDict stored)).
  { unfold App.generate. unfold bind at 1. unfold lift at 1. rewrite Hjd.
    rewrite Ht. cbn [negb]. unfold try_except.
    unfold bind at 1. rewrite Hex.
    unfold bind at 1. rewrite Hres.
    unfold bind at 1. unfold App.save_session at 1.
    unfold bind at 1. fold stored.
    pose proof (generate_response_email_session job_info job_description
                  (with_session w2 (Some (PDict stored)))) as Hs.
    destruct (App.generate_response_email job_info job_description
                (with_session w2 (Some (PDict stored)))) as [[email|e] w3];
      exact Hs. }
  destruct (download_sent (Some "pdf") company _ w' download_name file doc
              stored (PDict kv') Hsession eq_refl Hdown)
    as (_ & _ & _ & Hdoc).
  destruct doc as [story|added]; [|now destruct Hdoc as [Hf _]].
  destruct Hdoc as [_ Hstory].
  destruct (app_generate_pdf_built _ _ _ Hstory)
    as (name & contact & summary & skills & experience & jobs & blocks
        & Hname & _ & _ & _ & _ & _ & _ & Heq & ->).
  exists story. eexists. split; [reflexivity|]. split; [exact Hstory|].
  rewrite Heq. cbn [app].
  cbn [py_get] in Hname. rewrite (Hprofile "name" _ eq_refl) in Hname.
  injection Hname as <-.
  unfold field_text. cbn [py_get].
  rewrite (Hprofile "email" _ eq_refl), (Hprofile "phone" _ eq_refl),
    (Hprofile "location" _ eq_refl).
  reflexivity.
Qed.

End RoutesContinued.

(* ------------------------------------------------------------------ *)
(** ** The renderers, continued *)

Section RenderersContinued.
Context `{B : Builtins} `{L : DocumentLibraries}.

Lemma app_pdf_bullets_list kv bs fs :
  lookup "bullets" kv = Some (PList bs) ->
  App.pdf_bullets (PDict kv) = Ok fs ->
  fs = map pdf_bullet_line (firstn 4 bs).
Proof.
  intros Hb. unfold App.pdf_bullets. cbn [py_get rbind]. rewrite Hb.
  cbn [py_slice py_iter rbind].
  apply (map_result_map _ pdf_bullet_line).
  intros x y. apply paragraph_ok.
Qed.

Lemma app_docx_bullets_list kv bs ds :
  lookup "bullets" kv = Some (PList bs) ->
  App.docx_bullets (PDict kv) = Ok ds ->
  ds = map docx_bullet_line (firstn 4 bs).
Proof.
  intros Hb. unfold App.docx_bullets. cbn [py_get rbind]. rewrite Hb.
  cbn [py_slice py_iter rbind].
  apply (map_result_map _ docx_bullet_line).
  intros x y. apply text_paragraph_ok.
Qed.

Lemma app_pdf_job_capped job fs :
  App.pdf_job job = Ok fs ->
  forall kv bs,
    job = PDict kv -> lookup "bullets" kv = Some (PList bs) ->
    fs = (firstn 2 (pdf_entry_heading job)
          ++ map pdf_bullet_line (firstn 4 bs) ++ [ Spacer 1 8 ])%list
    /\ length fs = (3 + Nat.min 4 (length bs))%nat.
Proof.
  intros H kv bs -> Hb.
  destruct (app_pdf_job_built _ _ H) as [bullets [Hbl ->]].
  rewrite (app_pdf_bullets_list kv bs bullets Hb Hbl).
  split; [reflexivity|].
  rewrite !length_app, length_map, !length_firstn.
  cbn [pdf_entry_heading length]. lia.
Qed.

Lemma app_docx_job_capped job ds :
  App.docx_job job = Ok ds ->
  forall kv bs,
    job = PDict kv -> lookup "bullets" kv = Some (PList bs) ->
    ds = (docx_entry_heading job ++ map docx_bullet_line (firstn 4 bs))%list
    /\ length ds = (2 + Nat.min 4 (length bs))%nat.
Proof.
  intros H kv bs -> Hb.
  destruct (app_docx_job_built _ _ H) as [bullets [Hbl ->]].
  rewrite (app_docx_bullets_list kv bs bullets Hb Hbl).
  split; [reflexivity|].
  rewrite length_app, length_map, length_firstn.
  cbn [docx_entry_heading length]. lia.
Qed.

Lemma Forall2_impl {X Y} (P Q : X -> Y -> Prop) (l : list X) (ys : list Y) :
  (forall x y, P x y -> Q x y) -> Forall2 P l ys -> Forall2 Q l ys.
Proof. intros HPQ H. induction H; constructor; auto. Qed.

(** The web app's renderers cap the bullets of an entry at four.
    Whenever [generate_pdf] returns a story, the story ends with one
    group of flowables per experience entry, in order, and the group of
    an entry whose ['bullets'] is a list is its two heading lines, one
    bullet line for each of the first four bullets and no other, and the
    spacer; whenever [generate_docx] returns, the group of such an entry
    is its two heading paragraphs and the bullet paragraphs of its first
    four bullets. *)
Theorem app_renderers_cap_bullets (data : pyval) (jobs : list pyval) :
  py_get data "experience" (PList []) = Ok (PList jobs) ->
  (forall path story,
      App.generate_pdf data path = Ok story ->
      exists head groups,
        story = (head ++ List.concat groups)%list
        /\ Forall2
             (fun job fs =>
                forall kv bs,
                  job = PDict kv -> lookup "bullets" kv = Some (PList bs) ->
                  fs = (firstn 2 (pdf_entry_heading job)
                        ++ map pdf_bullet_line (firstn 4 bs)
                        ++ [ Spacer 1 8 ])%list
                  /\ length fs = (3 + Nat.min 4 (length bs))%nat)
             jobs groups)
  /\ (forall path added,
         App.generate_docx data path = Ok added ->
         exists head groups,
           added = (head ++ List.concat groups)%list
           /\ Forall2
                (fun job ds =>
                   forall kv bs,
                     job = PDict kv -> lookup "bullets" kv = Some (PList bs) ->
                     ds = (docx_entry_heading job
                           ++ map docx_bullet_line (firstn 4 bs))%list
                     /\ length ds = (2 + Nat.min 4 (length bs))%nat)
                jobs groups).
Proof.
  intros Hexp. split.
  - intros path story H.
    destruct (app_generate_pdf_built _ _ _ H)
      as (name & contact & summary & skills & experience & jobs' & blocks
          & _ & _ & _ & He & Hi & Hblocks & _ & -> & _).
    rewrite Hexp in He. injection He as <-.
    cbn [py_iter] in Hi. injection Hi as <-.
    exists ([ Paragraph name StyleName; Paragraph contact StyleNormal; Spacer 1 12 ]
            ++ summary ++ skills
            ++ [ Paragraph (PStr "<b>PROFESSIONAL EXPERIENCE</b>") StyleHeading2 ])%list,
      blocks.
    split; [now rewrite <- !app_assoc|].
    apply map_result_Forall2 in Hblocks.
    apply (Forall2_impl _ _ _ _ app_pdf_job_capped Hblocks).
  - intros path added H.
    destruct (app_generate_docx_built _ _ _ H)
      as (name & contact & summary & skills & experience & jobs' & blocks
          & _ & _ & _ & He & Hi & Hblocks & _ & -> & _).
    rewrite Hexp in He. injection He as <-.
    cbn [py_iter] in Hi. injection Hi as <-.
    exists ([ AddHeading name 0;
              AddParagraph (PStr "") None
                [ {| run_text := contact; run_bold := false |} ] ]
            ++ summary ++ skills
            ++ [ AddHeading (PStr "Professional Experience") 1 ])%list,
      blocks.
    split; [now rewrite <- !app_assoc|].
    apply map_result_Forall2 in Hblocks.
    apply (Forall2_impl _ _ _ _ app_docx_job_capped Hblocks).
Qed.

Lemma map_result_as_str_raises (l : list pyval) :
  (exists x, In x l /\ GenerateResume.is_str x = false) ->
  map_result as_str l = Raise TypeError.
Proof.
  induction l as [|a l IH]; intros [x [Hin Hx]]; [contradiction|].
  simpl. destruct a as [| | | |s| |]; try reflexivity.
  simpl. rewrite IH; [reflexivity|].
  destruct Hin as [<-|Hin]; [discriminate | now exists x].
Qed.

Lemma app_pdf_skills_built data sk skills :
  py_get data "skills" PNone = Ok (PDict sk) -> sk <> [] ->
  App.pdf_skills data = Ok skills ->
  exists lines,
    map_result App.pdf_skill_line sk = Ok lines
    /\ skills = ([ Paragraph (PStr "<b>TECHNICAL SKILLS</b>") StyleHeading2 ]
                 ++ lines ++ [ Spacer 1 12 ])%list.
Proof.
  intros Hsk Hne. unfold App.pdf_skills. rewrite Hsk. cbn [rbind].
  destruct sk as [|item sk']; [contradiction|]. cbn [truthy].
  intros H. repeat ok_step H. built. injection H as <-.
  destruct data as [| | | | | |kv]; try discriminate.
  cbn [py_get] in Hsk. cbn [py_item] in *.
  destruct (lookup "skills" kv); [|discriminate].
  injection Hsk as ->.
  match goal with E : Ok _ = Ok _ |- _ => injection E as <- end.
  match goal with E : py_items _ = Ok _ |- _ => injection E as <- end.
  eexists. split; [eassumption | reflexivity].
Qed.

Lemma app_docx_skills_built data sk skills :
  py_get data "skills" PNone = Ok (PDict sk) -> sk <> [] ->
  App.docx_skills data = Ok skills ->
  exists lines,
    map_result App.docx_skill_line sk = Ok lines
    /\ skills = AddHeading (PStr "Technical Skills") 1 :: lines.
Proof.
  intros Hsk Hne. unfold App.docx_skills. rewrite Hsk. cbn [rbind].
  destruct sk as [|item sk']; [contradiction|]. cbn [truthy].
  intros H. repeat ok_step H. built. injection H as <-.
  destruct data as [| | | | | |kv]; try discriminate.
  cbn [py_get] in Hsk. cbn [py_item] in *.
  destruct (lookup "skills" kv); [|discriminate].
  injection Hsk as ->.
  match goal with E : Ok _ = Ok _ |- _ => injection E as <- end.
  match goal with E : py_items _ = Ok _ |- _ => injection E as <- end.
  eexists. split; [eassumption | reflexivity].
Qed.

Lemma app_pdf_skill_line_built category v f :
  App.pdf_skill_line (category, v) = Ok f ->
  exists joined,
    py_join ", " v = Ok joined
    /\ f = Paragraph (PStr ("<b>" ++ category ++ ":</b> " ++ joined)) StyleNormal.
Proof.
  unfold App.pdf_skill_line. intros H. ok_step H. built.
  eexists. split; reflexivity.
Qed.

Lemma app_docx_skill_line_built category v b :
  App.docx_skill_line (category, v) = Ok b ->
  exists joined,
    py_join ", " v = Ok joined
    /\ b = AddParagraph (PStr "") None
             [ {| run_text := category ++ ": "; run_bold := true |};
               {| run_text := joined; run_bold := false |} ].
Proof.
  unfold App.docx_skill_line. intros H. repeat ok_step H. built.
  injection H as <-. eexists. split; reflexivity.
Qed.

(** The web app joins a skills value with [", "] without converting its
    elements.  For a category of the resume's skills whose value joins to
    a text, the story [generate_pdf] returns holds the category's line
    with that text and the blocks [generate_docx] returns hold the
    paragraph with the same text.  A list of strings joins as such; a
    plain string, the shape the tailoring prompt asks for, is iterated
    and joins to its characters separated by [", "].  When the value is
    a list holding anything but strings, neither renderer returns a
    document. *)
Theorem app_skills_join_shapes
    (data : pyval) (sk : list (string * pyval)) (category : string) (v : pyval) :
  py_get data "skills" PNone = Ok (PDict sk) ->
  In (category, v) sk ->
  (forall joined,
      py_join ", " v = Ok joined ->
      (forall path story,
          App.generate_pdf data path = Ok story ->
          In (Paragraph (PStr ("<b>" ++ category ++ ":</b> " ++ joined)) StyleNormal)
             story)
      /\ (forall path added,
             App.generate_docx data path = Ok added ->
             In (AddParagraph (PStr "") None
                   [ {| run_text := category ++ ": "; run_bold := true |};
                     {| run_text := joined; run_bold := false |} ])
                added))
  /\ (forall ss, v = PList (map PStr ss) -> py_join ", " v = Ok (join ", " ss))
  /\ (forall s, v = PStr s -> py_join ", " v = Ok (join ", " (py_chars s)))
  /\ (forall l x,
         v = PList l -> In x l -> GenerateResume.is_str x = false ->
         (forall path story, App.generate_pdf data path <> Ok story)
         /\ (forall path added, App.generate_docx data path <> Ok added)).
Proof.
  intros Hsk Hin.
  assert (Hne : sk <> []) by (intros ->; contradiction).
  assert (Hpdf : forall path story,
             App.generate_pdf data path = Ok story ->
             exists joined,
               py_join ", " v = Ok joined
               /\ In (Paragraph (PStr ("<b>" ++ category ++ ":</b> " ++ joined))
                        StyleNormal) story).
  { intros path story H.
    destruct (app_generate_pdf_built _ _ _ H)
      as (name & contact & summary & skills & experience & jobs & blocks
          & _ & _ & Hskills & _ & _ & _ & _ & -> & _).
    destruct (app_pdf_skills_built _ _ _ Hsk Hne Hskills) as [lines [Hlines ->]].
    apply map_result_Forall2 in Hlines.
    destruct (Forall2_in_left _ _ _ _ Hlines Hin) as [f [Hf Hline]].
    destruct (app_pdf_skill_line_built _ _ _ Hline) as [joined [Hj ->]].
    exists joined. split; [exact Hj|].
    apply in_or_app. right. apply in_or_app. right.
    apply in_or_app. left. apply in_or_app. right.
    apply in_or_app. now left. }
  assert (Hdocx : forall path added,
             App.generate_docx data path = Ok added ->
             exists joined,
               py_join ", " v = Ok joined
               /\ In (AddParagraph (PStr "") None
                        [ {| run_text := category ++ ": "; run_bold := true |};
                          {| run_text := joined; run_bold := false |} ]) added).
  { intros path added H.
    destruct (app_generate_docx_built _ _ _ H)
      as (name & contact & summary & skills & experience & jobs & blocks
          & _ & _ & Hskills & _ & _ & _ & _ & -> & _).
    destruct (app_docx_skills_built _ _ _ Hsk Hne Hskills) as [lines [Hlines ->]].
    apply map_result_Forall2 in Hlines.
    destruct (Forall2_in_left _ _ _ _ Hlines Hin) as [b [Hb Hline]].
    destruct (app_docx_skill_line_built _ _ _ Hline) as [joined [Hj ->]].
    exists joined. split; [exact Hj|].
    apply in_or_app. right. apply in_or_app. right.
    apply in_or_app. left. now right. }
  split; [|split; [|split]].
  - intros joined Hj. split.
    + intros path story H. destruct (Hpdf path story H) as [j [Hj' Hin']].
      rewrite Hj in Hj'. now injection Hj' as <-.
    + intros path added H. destruct (Hdocx path added H) as [j [Hj' Hin']].
      rewrite Hj in Hj'. now injection Hj' as <-.
  - intros ss ->. unfold py_join. cbn [py_iter rbind].
    now rewrite map_result_as_str.
  - intros s ->. apply py_join_str.
  - intros l x -> Hx Hns.
    assert (Hj : py_join ", " (PList l) = Raise TypeError).
    { unfold py_join. cbn [py_iter rbind].
      rewrite map_result_as_str_raises by (now exists x). reflexivity. }
    split.
    + intros path story H. destruct (Hpdf path story H) as [j [Hj' _]].
      rewrite Hj in Hj'. discriminate.
    + intros path added H. destruct (Hdocx path added H) as [j [Hj' _]].
      rewrite Hj in Hj'. discriminate.
Qed.

Lemma pdf_blocks_bullet_count jobs blocks :
  map_result GenerateResume.pdf_job jobs = Ok blocks ->
  length (filter is_bullet_flowable (List.concat blocks))
  = list_sum (map points_count jobs).
Proof.
  revert blocks. induction jobs as [|job jobs IH]; simpl; intros blocks H.
  - now injection H as <-.
  - destruct (GenerateResume.pdf_job job) as [fs|] eqn:Hjob; [|discriminate].
    destruct (map_result GenerateResume.pdf_job jobs) as [rest|]; [|discriminate].
    injection H as <-. simpl.
    rewrite filter_app, length_app, (pdf_job_bullet_count _ _ Hjob).
    now rewrite (IH rest eq_refl).
Qed.

(** Whenever the command-line PDF renderer succeeds, the bullet
    paragraphs of the whole story are as many as the points of all the
    entries together: no entry is capped and nothing else is laid out as
    a bullet. *)
Theorem pdf_story_bullet_total
    (data : pyval) (path : string) (story : list flowable) :
  GenerateResume.generate_pdf data path = Ok story ->
  exists experience jobs,
    py_get data "experience" (PList []) = Ok experience
    /\ py_iter experience = Ok jobs
    /\ length (filter is_bullet_flowable story)
       = list_sum (map points_count jobs).
Proof.
  intros H.
  destruct (generate_pdf_built _ _ _ H)
    as (name & title & contact & summary & skills & items & lines & experience
        & jobs & blocks & _ & _ & _ & _ & _ & Hlines & He & Hi & Hblocks & _ & ->).
  exists experience, jobs. split; [exact He|]. split; [exact Hi|].
  rewrite !filter_app. cbn [filter is_bullet_flowable app].
  rewrite (filter_none is_bullet_flowable lines).
  - cbn [app]. exact (pdf_blocks_bullet_count jobs blocks Hblocks).
  - intros f Hf. apply map_result_Forall2 in Hlines.
    clear -Hlines Hf. induction Hlines as [|item y l ys Hy _ IH]; [contradiction|].
    destruct Hf as [<-|Hf]; [|now apply IH].
    now rewrite (pdf_skill_line_built _ _ Hy).
Qed.

(** The two command-line renderers treat a missing field differently.
    The DOCX renderer indexes the resume: when any of [name], [title],
    [email], [phone], [location], [summary], [skills] or [experience] is
    missing it raises and returns no document.  The PDF renderer uses
    [get] with defaults: whenever it returns for a resume with neither
    [skills] nor [experience], the story is the seven fixed paragraphs,
    blank where [name], [title] or [summary] is missing. *)
Theorem docx_requires_fields_pdf_defaults (kv : list (string * pyval)) :
  (forall k,
      In k ["name"; "title"; "email"; "phone"; "location"; "summary"; "skills";
            "experience"] ->
      lookup k kv = None ->
      forall path added, GenerateResume.generate_docx (PDict kv) path <> Ok added)
  /\ (lookup "skills" kv = None ->
      lookup "experience" kv = None ->
      forall path story,
        GenerateResume.generate_pdf (PDict kv) path = Ok story ->
        length story = 7%nat
        /\ forall k,
             In k ["name"; "title"; "summary"] ->
             lookup k kv = None ->
             exists style, In (Paragraph (PStr "") style) story).
Proof.
  split.
  - intros k Hin Hk path added H.
    unfold GenerateResume.generate_docx in H.
    repeat ok_step H. cbn [py_item] in *.
    simpl in Hin.
    repeat (destruct Hin as [<-|Hin];
            [rewrite Hk in *; discriminate|]).
    exact Hin.
  - intros Hs He path story H.
    destruct (generate_pdf_built _ _ _ H)
      as (name & title & contact & summary & skills & items & lines & experience
          & jobs & blocks & Hn & Ht & Hsum & Hsk & Hitems & Hlines & Hexp & Hi
          & Hblocks & _ & ->).
    cbn [py_get] in Hn, Ht, Hsum, Hsk, Hexp. rewrite Hs in Hsk. rewrite He in Hexp.
    injection Hsk as <-. injection Hexp as <-.
    injection Hitems as <-. injection Hi as <-.
    injection Hlines as <-. injection Hblocks as <-.
    split; [reflexivity|].
    intros k Hin Hk. simpl in Hin.
    destruct Hin as [<-|[<-|[<-|[]]]]; rewrite Hk in *.
    + injection Hn as <-. eexists. simpl. eauto 10.
    + injection Ht as <-. eexists. simpl. eauto 10.
    + injection Hsum as <-. eexists. simpl. eauto 10.
Qed.

Lemma span_continuation_spec s :
  let (h, t) := span_continuation s in
  s = h ++ t /\ py_len h = 0%nat /\ starts_at_code_point t = true
  /\ (String.length t <= String.length s)%nat.
Proof.
  induction s as [|c s IH]; simpl; [repeat split; apply Nat.le_refl|].
  destruct (is_continuation c) eqn:E.
  - destruct (span_continuation s) as [h t].
    destruct IH as [-> [Hh [Ht Hl]]]. simpl. rewrite E.
    repeat split; try assumption. lia.
  - simpl. rewrite E. repeat split. apply Nat.le_refl.
Qed.

Lemma py_chars_fuel_spec fuel s :
  (String.length s <= fuel)%nat ->
  String.concat "" (py_chars_fuel fuel s) = s
  /\ (starts_at_code_point s = true ->
      forallb (fun c => (py_len c =? 1)%nat) (py_chars_fuel fuel s) = true).
Proof.
  revert s. induction fuel as [|fuel IH]; intros s Hlen.
  - destruct s; [now split | simpl in Hlen; lia].
  - destruct s as [|c s]; [now split|].
    simpl. pose proof (span_continuation_spec s) as Hspan.
    destruct (span_continuation s) as [h t].
    destruct Hspan as [-> [Hh [Ht Hl]]].
    destruct (IH t) as [Hcat Hall]; [simpl in Hlen; lia|].
    split.
    + assert (Hc : forall l, String.concat "" (String c h :: l)
                             = String c h ++ String.concat "" l).
      { intros [|x l]; simpl; [|reflexivity].
        clear. induction h as [|a h IHh]; simpl; [reflexivity|].
        f_equal. injection IHh as IHh. now f_equal. }
      rewrite Hc, Hcat. reflexivity.
    + simpl. intros Hstart. apply negb_true_iff in Hstart. rewrite Hstart, Hh.
      simpl. now apply Hall.
Qed.

(** The fragment test of the DOCX renderer undoes the fault it was
    written for: when a skills string reaches it split into its
    characters, the text it renders is the original string again. *)
Theorem docx_rejoins_fragmented_string (s : string) :
  starts_at_code_point s = true ->
  GenerateResume.docx_skills_text (PList (map PStr (py_chars s))) = s.
Proof.
  intros Hstart.
  destruct (py_chars_fuel_spec (String.length s) s (Nat.le_refl _)) as [Hcat Hall].
  specialize (Hall Hstart). fold (py_chars s) in Hcat, Hall.
  unfold GenerateResume.docx_skills_text.
  rewrite map_py_str_PStr.
  rewrite (forallb_map_PStr (fun c => (py_len c <=? 2)%nat) (py_chars s)).
  assert (Hle : forallb (fun c => (py_len c <=? 2)%nat) (py_chars s) = true).
  { rewrite forallb_forall in Hall |- *. intros c Hc.
    specialize (Hall c Hc). apply Nat.eqb_eq in Hall. rewrite Hall. reflexivity. }
  rewrite Hle.
  destruct (py_chars s) as [|c cs] eqn:Hchars.
  - simpl in Hcat. now rewrite <- Hcat.
  - simpl map. cbn [truthy andb]. exact Hcat.
Qed.

End RenderersContinued.

(* ------------------------------------------------------------------ *)
(** ** Context assembly, continued *)

Section ContextAssemblyContinued.
Context `{B : Builtins}.

Lemma prepend_section_text kv key render rc :
  GenerateResume.prepend_section (PDict kv) key render rc
  = (text <- section_text kv key render ;; Ok (text ++ rc))%result.
Proof.
  unfold GenerateResume.prepend_section, section_text. cbn [py_get rbind].
  destruct (lookup key kv) as [v|]; [|reflexivity].
  cbn [truthy]. destruct (truthy v); [|reflexivity].
  destruct (render v); reflexivity.
Qed.

Lemma append_assoc (a b c : string) : (a ++ b) ++ c = a ++ b ++ c.
Proof.
  induction a as [|x a IH]; simpl; [reflexivity | now rewrite IH].
Qed.

Lemma apply_overrides_sections
    (kv : list (string * pyval)) (resume_content : string) :
  GenerateResume.apply_overrides (PDict kv) resume_content
  = (c <- section_text kv "current_experience"
            (GenerateResume.current_role_text (PDict kv)) ;;
     m <- section_text kv "missing_experience" GenerateResume.missing_text ;;
     r <- section_text kv "experience_restructure" GenerateResume.restructure_text ;;
     d <- section_text kv "date_corrections" GenerateResume.corrections_text ;;
     Ok (d ++ r ++ m ++ c ++ resume_content))%result.
Proof.
  unfold GenerateResume.apply_overrides.
  rewrite !prepend_section_text.
  destruct (section_text kv "current_experience" _) as [c|]; [|reflexivity].
  cbn [rbind]. rewrite prepend_section_text.
  destruct (section_text kv "missing_experience" _) as [m|]; [|reflexivity].
  cbn [rbind]. rewrite prepend_section_text.
  destruct (section_text kv "experience_restructure" _) as [r|]; [|reflexivity].
  cbn [rbind]. rewrite prepend_section_text.
  destruct (section_text kv "date_corrections" _) as [d|]; reflexivity.
Qed.

(** For any override object, whichever of its sections are present, the
    assembled text is the date-corrections block, the restructure block,
    the missing-experience block and the current-role block, in this
    order, followed by the text it started from; an absent or empty
    section contributes nothing, and the assembly fails as soon as one
    present section fails to render. *)
Theorem overrides_concatenate_in_order
    (kv : list (string * pyval)) (resume_content : string) :
  GenerateResume.apply_overrides (PDict kv) resume_content
  = (c <- section_text kv "current_experience"
            (GenerateResume.current_role_text (PDict kv)) ;;
     m <- section_text kv "missing_experience" GenerateResume.missing_text ;;
     r <- section_text kv "experience_restructure" GenerateResume.restructure_text ;;
     d <- section_text kv "date_corrections" GenerateResume.corrections_text ;;
     Ok (d ++ r ++ m ++ c ++ resume_content))%result.
Proof. exact (apply_overrides_sections kv resume_content). Qed.

Lemma section_text_empty_iff kv key render header text :
  (forall v t, render v = Ok t -> exists tail, t = header ++ tail) ->
  header <> "" ->
  section_text kv key render = Ok text ->
  (text = "" <-> has_section kv key = false).
Proof.
  intros Hhead Hne. unfold section_text, has_section.
  destruct (lookup key kv) as [v|]; [|intros [= <-]; now split].
  destruct (truthy v); [|intros [= <-]; now split].
  intros Hr. destruct (Hhead v text Hr) as [tail ->].
  split; [|discriminate].
  destruct header; [contradiction | discriminate].
Qed.

Lemma append_empty (a b : string) : a ++ b = "" -> a = "" /\ b = "".
Proof. destruct a; simpl; [now split | discriminate]. Qed.

(** Overrides only ever prepend: whenever the assembly succeeds, the
    text it started from is still there, whole, at the end, and what
    stands before it is empty exactly when the override object has none
    of the four sections. *)
Theorem overrides_only_prepend
    (kv : list (string * pyval)) (resume_content ctx : string) :
  GenerateResume.apply_overrides (PDict kv) resume_content = Ok ctx ->
  exists prefix,
    ctx = prefix ++ resume_content
    /\ (prefix = ""
        <-> has_section kv "current_experience" = false
            /\ has_section kv "missing_experience" = false
            /\ has_section kv "experience_restructure" = false
            /\ has_section kv "date_corrections" = false).
Proof.
  rewrite apply_overrides_sections.
  destruct (section_text kv "current_experience" _) as [c|] eqn:Hc; [|discriminate].
  destruct (section_text kv "missing_experience" _) as [m|] eqn:Hm; [|discriminate].
  destruct (section_text kv "experience_restructure" _) as [r|] eqn:Hr; [|discriminate].
  destruct (section_text kv "date_corrections" _) as [d|] eqn:Hd; [|discriminate].
  cbn [rbind]. intros [= <-].
  exists (d ++ r ++ m ++ c). split; [now rewrite !append_assoc|].
  pose proof (section_text_empty_iff kv _ _ GenerateResume.current_role_header c
                (current_role_text_header (PDict kv)) ltac:(discriminate) Hc) as Ic.
  pose proof (section_text_empty_iff kv _ _ GenerateResume.missing_header m
                missing_text_header ltac:(discriminate) Hm) as Im.
  pose proof (section_text_empty_iff kv _ _ GenerateResume.restructure_header r
                restructure_text_header ltac:(discriminate) Hr) as Ir.
  pose proof (section_text_empty_iff kv _ _ GenerateResume.corrections_header d
                corrections_text_header ltac:(discriminate) Hd) as Id.
  split.
  - intros H. apply append_empty in H. destruct H as [Hd0 H].
    apply append_empty in H. destruct H as [Hr0 H].
    apply append_empty in H. destruct H as [Hm0 Hc0].
    repeat split; [apply Ic | apply Im | apply Ir | apply Id]; assumption.
  - intros [H1 [H2 [H3 H4]]].
    apply Ic in H1. apply Im in H2. apply Ir in H3. apply Id in H4.
    now subst.
Qed.

(** An override file whose JSON value is not an object (a list, a
    string, a number, [null]) makes [load_resume] return [None], whatever
    resume was found. *)
Theorem non_object_config_fails (fs : resume_files) (current : pyval) :
  GenerateResume.current_role_file fs = Some (Ok current) ->
  (forall kv, current <> PDict kv) ->
  GenerateResume.load_resume fs = None.
Proof.
  intros Hf Hnd.
  unfold GenerateResume.load_resume, GenerateResume.load_resume_body.
  destruct (handler fs) as [cache|]; [|reflexivity].
  cbn [rbind]. rewrite Hf. cbn [rbind].
  unfold GenerateResume.apply_overrides, GenerateResume.prepend_section.
  destruct current as [| | | | | |kv]; try reflexivity.
  exfalso. now apply (Hnd kv).
Qed.

Lemma map_result_raises {X Y} (f : X -> result Y) (l : list X) :
  (exists x, In x l /\ exists e, f x = Raise e) ->
  exists e, map_result f l = Raise e.
Proof.
  induction l as [|a l IH]; intros [x [Hin [e He]]]; [contradiction|].
  simpl. destruct (f a) as [y|e'] eqn:Ha; [|now eexists].
  destruct IH as [e'' He''].
  - destruct Hin as [<-|Hin]; [congruence | now exists x; split; [|exists e]].
  - rewrite He''. now eexists.
Qed.

(** One client entry of the current role that lacks its ['name'] or its
    ['dates'] is enough to lose the whole context: [load_resume] returns
    [None], not the resume without the override. *)
Theorem client_without_name_or_dates_fails
    (fs : resume_files) (kv exp client : list (string * pyval))
    (clients : list pyval) :
  GenerateResume.current_role_file fs = Some (Ok (PDict kv)) ->
  lookup "current_experience" kv = Some (PDict exp) ->
  exp <> [] ->
  lookup "clients" exp = Some (PList clients) ->
  In (PDict client) clients ->
  lookup "name" client = None \/ lookup "dates" client = None ->
  GenerateResume.load_resume fs = None.
Proof.
  intros Hf Hexp Hne Hcl Hin Hmiss.
  unfold GenerateResume.load_resume, GenerateResume.load_resume_body.
  destruct (handler fs) as [cache|]; [|reflexivity].
  cbn [rbind]. rewrite Hf. cbn [rbind].
  rewrite apply_overrides_sections.
  assert (Hraise : exists e,
             section_text kv "current_experience"
               (GenerateResume.current_role_text (PDict kv)) = Raise e).
  { unfold section_text. rewrite Hexp.
    destruct exp as [|item exp0]; [contradiction|]. cbn [truthy].
    unfold GenerateResume.current_role_text. cbn [py_get rbind].
    rewrite Hcl. cbn [py_iter rbind].
    destruct (map_result_raises GenerateResume.client_text clients) as [e He].
    - exists (PDict client). split; [exact Hin|].
      unfold GenerateResume.client_text. cbn [py_get py_item rbind].
      destruct Hmiss as [Hn|Hd].
      + rewrite Hn. now eexists.
      + destruct (lookup "name" client); rewrite ?Hd; now eexists.
    - rewrite He. now eexists. }
  destruct Hraise as [e ->]. reflexivity.
Qed.

End ContextAssemblyContinued.

(* ------------------------------------------------------------------ *)
(** ** Job-info extraction, continued *)

Section ExtractionContinued.
Context `{B : Builtins}.

Lemma from_first_open_app pre rest :
  has_char "{" pre = false ->
  App.from_first_open (pre ++ String "{" rest) = Some (String "{" rest).
Proof.
  induction pre as [|c pre IH]; simpl; [reflexivity|].
  destruct (Ascii.eqb c "{"); simpl; [discriminate | exact IH].
Qed.

Lemma upto_last_close_none s :
  has_char "}" s = false -> App.upto_last_close s = None.
Proof.
  induction s as [|c s IH]; simpl; [reflexivity|].
  destruct (Ascii.eqb c "}"); simpl; [discriminate|].
  intros H. now rewrite IH.
Qed.

Lemma upto_last_close_app mid post :
  has_char "}" post = false ->
  App.upto_last_close (mid ++ String "}" post) = Some (mid ++ "}").
Proof.
  intros Hpost. induction mid as [|c mid IH]; simpl.
  - now rewrite (upto_last_close_none post Hpost).
  - now rewrite IH.
Qed.

Lemma search_braces_app pre mid post :
  has_char "{" pre = false ->
  has_char "}" post = false ->
  App.search_braces (pre ++ String "{" (mid ++ String "}" post))
  = Some (String "{" (mid ++ "}")).
Proof.
  intros Hpre Hpost. unfold App.search_braces.
  rewrite (from_first_open_app pre _ Hpre).
  now rewrite (upto_last_close_app mid post Hpost).
Qed.

(** Prose around the JSON object is ignored: when the reply has no
    ['{'] before an opening brace and no ['}'] after a closing one, the
    extractor parses exactly the text between and including the two
    braces and returns what [json.loads] makes of it. *)
Theorem extractor_ignores_surrounding_prose
    (pre mid post : string) (v : pyval) :
  has_char "{" pre = false ->
  has_char "}" post = false ->
  json_loads (String "{" (mid ++ "}")) = Ok v ->
  App.search_braces (pre ++ String "{" (mid ++ String "}" post))
  = Some (String "{" (mid ++ "}"))
  /\ App.job_info_of_response (PStr (pre ++ String "{" (mid ++ String "}" post)))
     = v.
Proof.
  intros Hpre Hpost Hloads.
  pose proof (search_braces_app pre mid post Hpre Hpost) as Hs.
  split; [exact Hs|].
  unfold App.job_info_of_response, App.parse_job_info.
  now rewrite Hs, Hloads.
Qed.

Lemma has_char_app c a b : has_char c (a ++ b) = has_char c a || has_char c b.
Proof.
  induction a as [|x a IH]; simpl; [reflexivity|].
  now rewrite IH, orb_assoc.
Qed.

Lemma from_first_open_some s :
  has_char "{" s = true ->
  exists pre rest,
    s = pre ++ String "{" rest /\ has_char "{" pre = false
    /\ App.from_first_open s = Some (String "{" rest).
Proof.
  induction s as [|c s IH]; simpl; [discriminate|].
  destruct (Ascii.eqb c "{") eqn:E; simpl.
  - intros _. apply Ascii.eqb_eq in E. subst c. now exists "", s.
  - intros H. destruct (IH H) as [pre [rest [-> [Hpre Hf]]]].
    exists (String c pre), rest. repeat split; [|exact Hf].
    simpl. now rewrite E.
Qed.

Lemma upto_last_close_some s :
  has_char "}" s = true -> exists t, App.upto_last_close s = Some t.
Proof.
  induction s as [|c s IH]; simpl; [discriminate|].
  destruct (App.upto_last_close s) as [t|]; [intros _; now eexists|].
  destruct (Ascii.eqb c "}"); simpl; [intros _; now eexists|].
  intros H. destruct (IH H) as [t Ht]. discriminate.
Qed.

(** The regular expression finds nothing exactly when the reply has no
    ['{'] followed, somewhere later, by a ['}']; the extractor then
    returns the default record without calling [json.loads]. *)
Theorem no_match_iff_no_brace_pair (s : string) :
  (App.search_braces s = None
   <-> ~ exists pre mid post, s = pre ++ String "{" (mid ++ String "}" post))
  /\ (App.search_braces s = None ->
      App.job_info_of_response (PStr s) = App.default_job_info).
Proof.
  split.
  - split.
    + intros Hnone [pre [mid [post ->]]].
      assert (Hopen : has_char "{" (pre ++ String "{" (mid ++ String "}" post)) = true).
      { rewrite has_char_app. simpl. now rewrite orb_true_r. }
      destruct (from_first_open_some _ Hopen) as [pre' [rest [Heq [Hpre' Hf]]]].
      unfold App.search_braces in Hnone. rewrite Hf in Hnone.
      assert (Hclose : has_char "}" rest = true).
      { assert (Hsuffix : exists x, rest = x ++ String "}" post).
        { clear Hf Hopen Hnone. revert pre' Heq Hpre'.
          induction pre as [|c pre IH]; intros pre' Heq Hpre'.
          - destruct pre' as [|c' pre'']; simpl in Heq.
            + injection Heq as <-. now exists mid.
            + injection Heq as <- _. simpl in Hpre'. discriminate.
          - destruct pre' as [|c' pre'']; simpl in Heq.
            + injection Heq as -> <-.
              exists (pre ++ String "{" mid). now rewrite append_assoc.
            + injection Heq as <- Heq. simpl in Hpre'.
              apply orb_false_elim in Hpre'. destruct Hpre' as [_ Hpre'].
              exact (IH pre'' Heq Hpre'). }
        destruct Hsuffix as [x ->]. rewrite has_char_app. simpl.
        now rewrite orb_true_r. }
      destruct (upto_last_close_some rest Hclose) as [t Ht].
      rewrite Ht in Hnone. discriminate.
    + intros Hno. destruct (App.search_braces s) as [g|] eqn:Hs; [|reflexivity].
      exfalso. apply Hno.
      destruct (search_braces_spec s g Hs) as [pre [mid [post [-> _]]]].
      now exists pre, mid, post.
  - intros Hnone. unfold App.job_info_of_response, App.parse_job_info.
    now rewrite Hnone.
Qed.

End ExtractionContinued.

(* ------------------------------------------------------------------ *)
(** ** The resume folder *)

Section ResumeFolder.
Context `{P : PathBuiltins}.

Lemma cache_entry_key e k info :
  ResumeHandler.cache_entry e = Some (k, info) ->
  k = ResumeHandler.de_name e
  /\ ResumeHandler.filename info = ResumeHandler.de_name e
  /\ ResumeHandler.filepath info = ResumeHandler.de_absolute e
  /\ ResumeHandler.de_is_file e = true
  /\ ResumeHandler.supported (ResumeHandler.file_type info) = true
  /\ ResumeHandler._extract_content e = Some (ResumeHandler.content info)
  /\ ResumeHandler.de_size e = Ok (ResumeHandler.size_bytes info).
Proof.
  unfold ResumeHandler.cache_entry.
  destruct (ResumeHandler.de_is_file e); [|discriminate].
  destruct (ResumeHandler.supported _) eqn:Hs; [|discriminate].
  cbn [andb].
  destruct (ResumeHandler._extract_content e) as [text|]; [|discriminate].
  destruct (ResumeHandler.de_size e) as [size|]; [|discriminate].
  intros [= <- <-]. cbn. repeat split. exact Hs.
Qed.

Lemma cache_set_fresh k info cache :
  ~ In k (map fst cache) ->
  ResumeHandler.cache_set k info cache = (cache ++ [(k, info)])%list.
Proof.
  induction cache as [|[k' v] cache IH]; simpl; intros Hni; [reflexivity|].
  destruct (String.eqb k k') eqn:E.
  - apply String.eqb_eq in E. subst k'. exfalso. apply Hni. now left.
  - rewrite IH; [reflexivity|]. intros Hin. apply Hni. now right.
Qed.

Lemma cache_set_keys k info cache :
  map fst (ResumeHandler.cache_set k info cache) = map fst cache
  \/ (~ In k (map fst cache)
      /\ map fst (ResumeHandler.cache_set k info cache)
         = (map fst cache ++ [k])%list).
Proof.
  induction cache as [|[k' v] cache IH]; simpl.
  - right. split; [tauto | reflexivity].
  - destruct (String.eqb k k') eqn:E; simpl.
    + now left.
    + apply String.eqb_neq in E.
      destruct IH as [->|[Hni ->]]; [now left|].
      right. split; [|reflexivity]. intros [Heq|Hin]; [congruence | contradiction].
Qed.

Lemma scan_fold_accepted entries cache :
  NoDup (map ResumeHandler.de_name entries) ->
  (forall e, In e entries -> ~ In (ResumeHandler.de_name e) (map fst cache)) ->
  fold_left ResumeHandler.scan_entry entries cache
  = (cache ++ accepted entries)%list.
Proof.
  revert cache. induction entries as [|e entries IH]; intros cache Hnd Hfresh.
  - simpl. now rewrite app_nil_r.
  - simpl. inversion Hnd as [|x xs Hni Hnd']; subst.
    unfold ResumeHandler.scan_entry at 2.
    destruct (ResumeHandler.cache_entry e) as [[k info]|] eqn:He.
    + destruct (cache_entry_key e k info He) as [-> _].
      rewrite cache_set_fresh by (apply Hfresh; now left).
      rewrite IH; [now rewrite <- app_assoc| exact Hnd' |].
      intros e' Hin'. rewrite map_app, in_app_iff. simpl.
      intros [H|[H|[]]].
      * apply (Hfresh e'); [now right | exact H].
      * apply Hni. rewrite H. now apply in_map.
    + simpl. apply IH; [exact Hnd'|].
      intros e' Hin'. apply Hfresh. now right.
Qed.

Lemma get_resume_in cache k info :
  ResumeHandler.get_resume cache k = Some info -> In (k, info) cache.
Proof.
  induction cache as [|[k' v] cache IH]; simpl; [discriminate|].
  destruct (String.eqb k k') eqn:E.
  - apply String.eqb_eq in E. subst k'. intros [= ->]. now left.
  - intros H. right. now apply IH.
Qed.

Lemma in_get_resume cache k info :
  NoDup (map fst cache) -> In (k, info) cache ->
  ResumeHandler.get_resume cache k = Some info.
Proof.
  induction cache as [|[k' v] cache IH]; simpl; intros Hnd Hin; [contradiction|].
  inversion Hnd as [|x xs Hni Hnd']; subst.
  destruct Hin as [[= -> ->]|Hin].
  - now rewrite String.eqb_refl.
  - destruct (String.eqb k k') eqn:E; [|now apply IH].
    apply String.eqb_eq in E. subst k'. exfalso. apply Hni.
    change k with (fst (k, info)). now apply in_map.
Qed.

Lemma in_accepted entries k info :
  In (k, info) (accepted entries)
  <-> exists e, In e entries /\ ResumeHandler.cache_entry e = Some (k, info).
Proof.
  unfold accepted. rewrite in_flat_map. split.
  - intros [e [Hin He]]. exists e. split; [exact Hin|].
    destruct (ResumeHandler.cache_entry e) as [p|]; [|contradiction].
    destruct He as [->|[]]. reflexivity.
  - intros [e [Hin He]]. exists e. split; [exact Hin|]. rewrite He. now left.
Qed.

Lemma accepted_keys_incl entries :
  exists sub, map fst (accepted entries) = sub
              /\ forall k, In k sub -> In k (map ResumeHandler.de_name entries).
Proof.
  eexists. split; [reflexivity|]. intros k Hk.
  apply in_map_iff in Hk. destruct Hk as [[k' info] [<- Hin]].
  apply in_accepted in Hin. destruct Hin as [e [Hin He]].
  destruct (cache_entry_key e k' info He) as [-> _]. simpl.
  apply (in_map ResumeHandler.de_name). exact Hin.
Qed.

Lemma accepted_keys_nodup entries :
  NoDup (map ResumeHandler.de_name entries) -> NoDup (map fst (accepted entries)).
Proof.
  induction entries as [|e entries IH]; simpl; intros Hnd; [constructor|].
  inversion Hnd as [|x xs Hni Hnd']; subst.
  unfold accepted. simpl. fold (accepted entries).
  destruct (ResumeHandler.cache_entry e) as [[k info]|] eqn:He; simpl.
  - constructor; [|now apply IH].
    destruct (cache_entry_key e k info He) as [-> _].
    intros Hin. apply Hni.
    destruct (accepted_keys_incl entries) as [sub [<- Hincl]]. now apply Hincl.
  - now apply IH.
Qed.

(** After the scan of a directory the cache holds exactly the entries
    that are files with a supported suffix and whose text and size could
    be read: a name is found in it, with a given record, exactly when
    the listing has such an entry under that name which yields that
    record.  The record keeps the entry's name and path, a supported
    file type and the extracted text. *)
Theorem scan_caches_exactly_readable_files
    (entries : list ResumeHandler.dir_entry) (cache : list (string * ResumeHandler.ResumeInfo)) :
  NoDup (map ResumeHandler.de_name entries) ->
  ResumeHandler.init (ResumeHandler.FolderOf entries) = Ok cache ->
  forall name info,
    ResumeHandler.get_resume cache name = Some info
    <-> exists e,
          In e entries
          /\ ResumeHandler.de_name e = name
          /\ ResumeHandler.de_is_file e = true
          /\ ResumeHandler.supported (py_lower (path_suffix name)) = true
          /\ ResumeHandler._extract_content e = Some (ResumeHandler.content info)
          /\ ResumeHandler.de_size e = Ok (ResumeHandler.size_bytes info)
          /\ ResumeHandler.filename info = name
          /\ ResumeHandler.filepath info = ResumeHandler.de_absolute e
          /\ ResumeHandler.file_type info = py_lower (path_suffix name).
Proof.
  intros Hnd Hinit name info.
  unfold ResumeHandler.init, ResumeHandler._scan_resumes in Hinit.
  injection Hinit as <-.
  rewrite (scan_fold_accepted entries [] Hnd) by (intros e _ []).
  cbn [app]. split.
  - intros Hget. apply get_resume_in in Hget. apply in_accepted in Hget.
    destruct Hget as [e [Hin He]]. exists e.
    pose proof He as He'. unfold ResumeHandler.cache_entry in He'.
    destruct (ResumeHandler.de_is_file e) eqn:Hfile; [|discriminate].
    destruct (ResumeHandler.supported _) eqn:Hs; [|discriminate].
    cbn [andb] in He'.
    destruct (ResumeHandler._extract_content e) as [text|]; [|discriminate].
    destruct (ResumeHandler.de_size e) as [size|]; [|discriminate].
    injection He' as <- <-. cbn. repeat split; try reflexivity; assumption.
  - intros [e [Hin [Hname [Hfile [Hs [Hext [Hsize [Hfn [Hfp Hft]]]]]]]]].
    apply in_get_resume; [now apply accepted_keys_nodup|].
    apply in_accepted. exists e. split; [exact Hin|].
    unfold ResumeHandler.cache_entry. rewrite Hname, Hfile, Hs, Hext, Hsize.
    cbn [andb]. do 2 f_equal.
    destruct info as [fn fp ft sz ct]. cbn in *. now subst.
Qed.

Lemma scan_fold_app entries1 entries2 cache :
  fold_left ResumeHandler.scan_entry (entries1 ++ entries2) cache
  = fold_left ResumeHandler.scan_entry entries2
      (fold_left ResumeHandler.scan_entry entries1 cache).
Proof. apply fold_left_app. Qed.

(** A directory entry that is rejected (a sub-directory, an unsupported
    suffix, a file whose extraction or [stat] raises) is skipped without
    any effect on the rest of the scan: the cache is the one the listing
    without that entry gives. *)
Theorem rejected_entry_is_skipped
    (before after : list ResumeHandler.dir_entry) (e : ResumeHandler.dir_entry) :
  ResumeHandler.cache_entry e = None ->
  ResumeHandler.init (ResumeHandler.FolderOf (before ++ e :: after))
  = ResumeHandler.init (ResumeHandler.FolderOf (before ++ after)).
Proof.
  intros He. unfold ResumeHandler.init, ResumeHandler._scan_resumes.
  rewrite !scan_fold_app. simpl.
  unfold ResumeHandler.scan_entry at 2. now rewrite He.
Qed.

Lemma init_first_accepted rejected rest e name info :
  NoDup (map ResumeHandler.de_name (rejected ++ e :: rest)) ->
  Forall (fun r => ResumeHandler.cache_entry r = None) rejected ->
  ResumeHandler.cache_entry e = Some (name, info) ->
  exists tail,
    ResumeHandler.init (ResumeHandler.FolderOf (rejected ++ e :: rest))
    = Ok ((name, info) :: tail).
Proof.
  intros Hnd Hrej He.
  unfold ResumeHandler.init, ResumeHandler._scan_resumes.
  rewrite (scan_fold_accepted _ [] Hnd) by (intros x _ []).
  cbn [app]. unfold accepted. rewrite flat_map_app.
  assert (Hnil : flat_map (fun e0 => match ResumeHandler.cache_entry e0 with
                                     | Some p => [p] | None => [] end) rejected
                 = []).
  { clear Hnd. induction Hrej as [|r rs Hr _ IH]; simpl; [reflexivity|].
    now rewrite Hr, IH. }
  rewrite Hnil. simpl. rewrite He. now eexists.
Qed.

Lemma init_all_rejected entries :
  Forall (fun r => ResumeHandler.cache_entry r = None) entries ->
  ResumeHandler.init (ResumeHandler.FolderOf entries) = Ok [].
Proof.
  unfold ResumeHandler.init, ResumeHandler._scan_resumes.
  intros Hrej. f_equal.
  induction Hrej as [|r rs Hr _ IH]; simpl; [reflexivity|].
  unfold ResumeHandler.scan_entry at 2. now rewrite Hr.
Qed.

(** The default resume is the first entry of the listing that the scan
    accepts: entries rejected before it do not count, and entries after
    it do not replace it.  With no override file, its text is what
    [load_resume] returns. *)
Theorem default_resume_is_first_accepted
    (fs : resume_files)
    (rejected rest : list ResumeHandler.dir_entry) (e : ResumeHandler.dir_entry)
    (name : string) (info : ResumeHandler.ResumeInfo) :
  NoDup (map ResumeHandler.de_name (rejected ++ e :: rest)) ->
  Forall (fun r => ResumeHandler.cache_entry r = None) rejected ->
  ResumeHandler.cache_entry e = Some (name, info) ->
  handler fs = ResumeHandler.init (ResumeHandler.FolderOf (rejected ++ e :: rest)) ->
  GenerateResume.current_role_file fs = None ->
  (exists cache,
      handler fs = Ok cache
      /\ ResumeHandler.get_default_resume cache = Some info)
  /\ forall (B : Builtins),
       GenerateResume.load_resume fs = Some (ResumeHandler.content info).
Proof.
  intros Hnd Hrej He Hh Hf.
  destruct (init_first_accepted rejected rest e name info Hnd Hrej He)
    as [tail Hinit].
  rewrite Hinit in Hh. split.
  - eexists. split; [exact Hh | reflexivity].
  - intros B. unfold GenerateResume.load_resume, GenerateResume.load_resume_body.
    now rewrite Hh, Hf.
Qed.

(** A resume folder with nothing usable leaves [main] with no resume: when
    the folder is missing, or none of its entries is accepted, or the
    path is not a directory, and there is no override file, [main] stops
    at "Could not load resume" without reading the prompts or posting
    anything. *)
Theorem unusable_folder_stops_main
    `{B : Builtins} `{L : DocumentLibraries}
    (f : ResumeHandler.folder) (stdin : list string) (w : world) :
  match f with
  | ResumeHandler.FolderOf entries =>
      Forall (fun r => ResumeHandler.cache_entry r = None) entries
  | _ => True
  end ->
  handler (files w) = ResumeHandler.init f ->
  GenerateResume.current_role_file (files w) = None ->
  GenerateResume.load_resume (files w)
  = match f with ResumeHandler.FolderIsFile => None | _ => Some "" end
  /\ GenerateResume.main stdin w
     = ({| GenerateResume.written := [];
           GenerateResume.ending := GenerateResume.CouldNotLoadResume |}, w).
Proof.
  intros Hrej Hh Hf.
  assert (Hload : GenerateResume.load_resume (files w)
                  = match f with ResumeHandler.FolderIsFile => None | _ => Some "" end).
  { unfold GenerateResume.load_resume, GenerateResume.load_resume_body.
    rewrite Hh. destruct f as [| |entries].
    - cbn. now rewrite Hf.
    - reflexivity.
    - rewrite (init_all_rejected entries Hrej). cbn. now rewrite Hf. }
  split; [exact Hload|].
  unfold GenerateResume.main. rewrite Hload. now destruct f.
Qed.

(** Whatever the listing holds, even repeated names, the file names of
    the cache are pairwise distinct and are names of the listing. *)
Theorem cache_names_distinct
    (f : ResumeHandler.folder) (cache : list (string * ResumeHandler.ResumeInfo)) :
  ResumeHandler.init f = Ok cache ->
  NoDup (ResumeHandler.list_resumes cache)
  /\ forall name,
       In name (ResumeHandler.list_resumes cache) ->
       exists entries e,
         f = ResumeHandler.FolderOf entries /\ In e entries
         /\ ResumeHandler.de_name e = name.
Proof.
  unfold ResumeHandler.init, ResumeHandler._scan_resumes, ResumeHandler.list_resumes.
  destruct f as [| |entries]; [| discriminate |].
  - intros [= <-]. split; [constructor | intros name []].
  - intros [= <-].
    assert (Hinv : forall es c,
               NoDup (map fst c) ->
               NoDup (map fst (fold_left ResumeHandler.scan_entry es c))
               /\ forall name,
                    In name (map fst (fold_left ResumeHandler.scan_entry es c)) ->
                    In name (map fst c)
                    \/ exists e, In e es /\ ResumeHandler.de_name e = name).
    { induction es as [|e es IH]; intros c Hc; simpl.
      - split; [exact Hc | intros name H; now left].
      - assert (Hstep : NoDup (map fst (ResumeHandler.scan_entry c e))
                        /\ forall name,
                             In name (map fst (ResumeHandler.scan_entry c e)) ->
                             In name (map fst c) \/ ResumeHandler.de_name e = name).
        { unfold ResumeHandler.scan_entry.
          destruct (ResumeHandler.cache_entry e) as [[k info]|] eqn:He.
          - destruct (cache_entry_key e k info He) as [-> _].
            destruct (cache_set_keys (ResumeHandler.de_name e) info c)
              as [->|[Hni ->]].
            + split; [exact Hc | intros name H; now left].
            + split.
              * apply NoDup_app; [exact Hc | repeat constructor; intros [] |].
                intros x Hx [<-|[]]. contradiction.
              * intros name H. apply in_app_iff in H.
                destruct H as [H|[<-|[]]]; [now left | now right].
          - split; [exact Hc | intros name H; now left]. }
        destruct Hstep as [Hnd Hsub].
        destruct (IH _ Hnd) as [Hnd' Hsub']. split; [exact Hnd'|].
        intros name H. destruct (Hsub' name H) as [H1|[e' [Hin' Hn']]].
        + destruct (Hsub name H1) as [H2|H2]; [now left|].
          right. exists e. split; [now left | exact H2].
        + right. exists e'. split; [now right | exact Hn']. }
    destruct (Hinv entries [] (NoDup_nil _)) as [Hnd Hsub].
    split; [exact Hnd|].
    intros name H. destruct (Hsub name H) as [[]|[e [Hin Hn]]].
    now exists entries, e.
Qed.

End ResumeFolder.

(* ------------------------------------------------------------------ *)
(** ** The command line *)

Section CommandLineProperties.
Context `{B : Builtins} `{P : PathBuiltins} `{L : DocumentLibraries}.

Lemma last_app_single (l : list string) (x d : string) : last (l ++ [x]) d = x.
Proof.
  induction l as [|a l IH]; [reflexivity|].
  simpl. destruct (l ++ [x])%list eqn:E; [now destruct l | exact IH].
Qed.

Lemma read_description_lines_spec stdin acc lines rest :
  GenerateResume.read_description_lines stdin acc = Some (lines, rest) ->
  lines <> [] /\ last lines "" = ""
  /\ exists consumed,
       stdin = (consumed ++ "" :: rest)%list /\ lines = (acc ++ consumed)%list.
Proof.
  revert acc. induction stdin as [|line stdin IH]; intros acc; simpl; [discriminate|].
  destruct (String.eqb line "" && match acc with [] => false | _ => true end
            && String.eqb (last acc "") "") eqn:Hbreak.
  - intros [= <- <-].
    apply andb_prop in Hbreak. destruct Hbreak as [Hb Hlast].
    apply andb_prop in Hb. destruct Hb as [Hline Hne].
    apply String.eqb_eq in Hline, Hlast. subst line.
    split; [now destruct acc|]. split; [exact Hlast|].
    exists []. now rewrite app_nil_r.
  - intros H. destruct (IH _ H) as [Hne [Hlast [consumed [-> ->]]]].
    split; [exact Hne|]. split; [exact Hlast|].
    exists (line :: consumed). now rewrite <- app_assoc.
Qed.

(** When the loop that reads the job description ends, the list it built
    is never empty: it holds every line typed before the closing blank
    line and ends in a blank line itself.  So the job description is
    always the typed lines without that last blank one, and the fallback
    text of the source can never be used. *)
Theorem description_fallback_never_used (stdin lines rest : list string) :
  GenerateResume.read_description_lines stdin [] = Some (lines, rest) ->
  lines <> []
  /\ stdin = (lines ++ "" :: rest)%list
  /\ last lines "" = ""
  /\ GenerateResume.job_description_of lines = join nl (removelast lines).
Proof.
  intros H. destruct (read_description_lines_spec _ _ _ _ H)
    as [Hne [Hlast [consumed [-> Hl]]]].
  simpl in Hl. subst consumed. repeat split; try assumption.
  unfold GenerateResume.job_description_of. destruct lines; [contradiction | reflexivity].
Qed.

Lemma no_blank_pair_app_inv acc x tail :
  no_blank_pair (acc ++ x :: tail) = true ->
  no_blank_pair (x :: tail) = true
  /\ (acc <> [] -> last acc "" = "" -> x <> "").
Proof.
  induction acc as [|a acc IH]; simpl app.
  - intros H. split; [exact H | intros Hne; contradiction].
  - intros H.
    assert (Hrest : no_blank_pair (acc ++ x :: tail) = true).
    { simpl in H. destruct (acc ++ x :: tail)%list; [reflexivity|].
      apply andb_prop in H. tauto. }
    destruct (IH Hrest) as [Htail Hx]. split; [exact Htail|].
    intros _ Hlast. destruct acc as [|b acc'].
    + simpl in Hlast. subst a. simpl in H.
      apply andb_prop in H. destruct H as [H _].
      intros ->. discriminate.
    + apply Hx; [discriminate|]. exact Hlast.
Qed.

Lemma read_description_lines_run body rest acc :
  no_blank_pair (acc ++ body ++ [""]) = true ->
  GenerateResume.read_description_lines (body ++ "" :: "" :: rest) acc
  = Some ((acc ++ body ++ [""])%list, rest).
Proof.
  revert acc. induction body as [|b body IH]; intros acc Hnb.
  - simpl app in *. cbn [GenerateResume.read_description_lines].
    destruct (no_blank_pair_app_inv acc "" [] Hnb) as [_ Hx].
    assert (Hstay : (match acc with [] => false | _ => true end
                     && String.eqb (last acc "") "") = false).
    { destruct acc as [|a acc']; [reflexivity|]. cbn [andb].
      destruct (String.eqb (last (a :: acc') "") "") eqn:E; [|reflexivity].
      apply String.eqb_eq in E. exfalso. now apply (Hx ltac:(discriminate) E). }
    replace (String.eqb "" "") with true by reflexivity. cbn [andb].
    rewrite Hstay, last_app_single.
    replace (String.eqb "" "") with true by reflexivity.
    destruct (acc ++ [""])%list eqn:E; [now destruct acc | reflexivity].
  - simpl app. cbn [GenerateResume.read_description_lines].
    destruct (no_blank_pair_app_inv acc b (body ++ [""]) Hnb) as [_ Hx].
    assert (Hstay : (String.eqb b "" && match acc with [] => false | _ => true end
                     && String.eqb (last acc "") "") = false).
    { destruct (String.eqb b "") eqn:Eb; [|reflexivity].
      apply String.eqb_eq in Eb. destruct acc as [|a acc']; [reflexivity|].
      cbn [andb].
      destruct (String.eqb (last (a :: acc') "") "") eqn:E; [|reflexivity].
      apply String.eqb_eq in E. exfalso. now apply (Hx ltac:(discriminate) E). }
    rewrite Hstay. rewrite IH.
    + now rewrite <- app_assoc.
    + now rewrite <- app_assoc.
Qed.

(** The job description ends at the first two consecutive blank lines:
    for typed lines without such a pair, followed by two blank lines, the
    loop stops there, leaves whatever comes after unread, and the job
    description is exactly the typed lines joined by newlines (single
    blank lines inside them are kept). *)
Theorem description_ends_at_first_blank_pair (body rest : list string) :
  no_blank_pair (body ++ [""]) = true ->
  GenerateResume.read_description_lines (body ++ "" :: "" :: rest) []
  = Some ((body ++ [""])%list, rest)
  /\ GenerateResume.job_description_of (body ++ [""]) = join nl body.
Proof.
  intros Hnb. split.
  - exact (read_description_lines_run body rest [] Hnb).
  - unfold GenerateResume.job_description_of.
    destruct (body ++ [""])%list eqn:E; [now destruct body|].
    rewrite <- E. now rewrite removelast_last.
Qed.

Lemma has_char_remove_same a s : has_char a (str_remove_char a s) = false.
Proof.
  induction s as [|c s IH]; simpl; [reflexivity|].
  destruct (Ascii.eqb c a) eqn:E; simpl; [exact IH | now rewrite E].
Qed.

Lemma has_char_remove_other a b s :
  has_char a s = false -> has_char a (str_remove_char b s) = false.
Proof.
  induction s as [|c s IH]; simpl; [reflexivity|].
  intros H. apply orb_false_elim in H. destruct H as [Hc Hs].
  destruct (Ascii.eqb c b); simpl; [now apply IH|].
  rewrite Hc. now apply IH.
Qed.

Lemma has_char_replace a b s :
  a <> b -> has_char a (str_replace_char a b s) = false.
Proof.
  intros Hne. induction s as [|c s IH]; simpl; [reflexivity|].
  rewrite IH, orb_false_r.
  destruct (Ascii.eqb c a) eqn:E; [|exact E].
  apply Ascii.eqb_neq. congruence.
Qed.

(** The company part of the output file names holds neither a blank nor
    a dot, whatever was typed; so each file name has the one dot that
    starts its extension. *)
Theorem safe_company_has_no_blank_or_dot (company : string) :
  has_char " " (GenerateResume.safe_company company) = false
  /\ has_char "." (GenerateResume.safe_company company) = false.
Proof.
  unfold GenerateResume.safe_company. split.
  - apply has_char_remove_other. apply has_char_replace. discriminate.
  - apply has_char_remove_same.
Qed.

(** Without a resume to start from ([load_resume] gives [None] or the
    empty text) [main] stops at once: nothing is read from the prompts,
    nothing is posted to the LLM and no file is written. *)
Theorem main_stops_without_resume (stdin : list string) (w : world) :
  GenerateResume.load_resume (files w) = None
  \/ GenerateResume.load_resume (files w) = Some "" ->
  GenerateResume.main stdin w
  = ({| GenerateResume.written := [];
        GenerateResume.ending := GenerateResume.CouldNotLoadResume |}, w).
Proof.
  intros [H|H]; unfold GenerateResume.main; now rewrite H.
Qed.

(** However [main] ends, it has posted at most one request.  It writes
    both files exactly when it reaches its last line; when an exception
    stops it, at most the PDF has been written (the DOCX renderer having
    failed after it); on its early returns nothing is written. *)
Theorem main_outcomes (stdin : list string) (w : world) :
  posts_at_most 1 w (snd (GenerateResume.main stdin w))
  /\ match GenerateResume.ending (fst (GenerateResume.main stdin w)) with
     | GenerateResume.Finished =>
         exists pdf_name story docx_name blocks,
           GenerateResume.written (fst (GenerateResume.main stdin w))
           = [ GenerateResume.WrittenPdf pdf_name story;
               GenerateResume.WrittenDocx docx_name blocks ]
     | GenerateResume.Crashed e =>
         GenerateResume.written (fst (GenerateResume.main stdin w)) = []
         \/ exists pdf_name story docx_name data,
              GenerateResume.written (fst (GenerateResume.main stdin w))
              = [ GenerateResume.WrittenPdf pdf_name story ]
              /\ GenerateResume.generate_pdf data pdf_name = Ok story
              /\ GenerateResume.generate_docx data docx_name = Raise e
     | _ => GenerateResume.written (fst (GenerateResume.main stdin w)) = []
     end.
Proof.
  assert (P0 : posts_at_most 1 w w).
  { apply posts_at_most_weaken with (n := 0%nat);
      [apply Nat.le_0_l | apply posts_at_most_refl]. }
  remember (GenerateResume.main stdin w) as out eqn:Hout.
  unfold GenerateResume.main in Hout.
  destruct (GenerateResume.load_resume (files w)) as [resume|];
    [|subst out; now split].
  destruct (String.eqb resume ""); [subst out; now split|].
  destruct stdin as [|line1 stdin1]; [subst out; now split|].
  destruct stdin1 as [|line2 stdin2]; [subst out; now split|].
  destruct (GenerateResume.read_description_lines stdin2 []) as [[lines rest]|];
    [|subst out; now split].
  match type of Hout with
  | context [GenerateResume.get_structured_resume ?a ?b ?c ?d w] =>
      pose proof (get_structured_resume_world a b c d w) as Hw;
      destruct (GenerateResume.get_structured_resume a b c d w) as [[data|e] w']
  end; simpl in Hw; apply posts_at_most_one_of in Hw; destruct Hw as [Hw _].
  - destruct (truthy data); cbn [negb] in Hout; [|subst out; now split].
    destruct mkdir_output; [|subst out; split; [exact Hw | now left]].
    destruct (GenerateResume.generate_pdf data _) as [story|e] eqn:Hpdf;
      [|subst out; split; [exact Hw | now left]].
    destruct (GenerateResume.generate_docx data _) as [blocks|e] eqn:Hdocx;
      subst out; (split; [exact Hw|]); cbn.
    + now do 4 eexists.
    + right. do 2 eexists. eexists. exists data.
      split; [reflexivity|]. split; [exact Hpdf | exact Hdocx].
  - subst out. split; [exact Hw | now left].
Qed.

End CommandLineProperties.

(* ------------------------------------------------------------------ *)
(** ** The theorems at concrete inputs *)

#[local] Existing Instance Samples.sample_builtins.
#[local] Existing Instance Samples.sample_libraries.

(** The prompt's example object stores the bullets under ["points"] and
    never mentions ["bullets"]. *)
Lemma tailoring_prompt_uses_points :
  is_substring (dq ++ "points" ++ dq ++ ": [") GenerateResume.tailoring_prompt = true
  /\ is_substring "bullets" GenerateResume.tailoring_prompt = false.
Proof. split; vm_compute; reflexivity. Qed.

(** C1 as first stated fails: the PDF story of a resume whose one entry
    has six points carries six bullet paragraphs, not four. *)
Lemma C1_pdf_renders_six_bullets :
  exists story,
    GenerateResume.generate_pdf Samples.six_point_resume "resume_citi.pdf" = Ok story
    /\ length (filter is_bullet_flowable story) = 6%nat
    /\ length (filter is_bullet_flowable story) <> 4%nat.
Proof.
  eexists. split; [vm_compute; reflexivity|].
  split; [reflexivity | discriminate].
Qed.

Lemma C1_no_bullet_cap_witness :
  exists story added,
    GenerateResume.generate_pdf Samples.six_point_resume "resume_citi.pdf" = Ok story
    /\ GenerateResume.generate_docx Samples.six_point_resume "resume_citi.docx"
       = Ok added
    /\ length (filter is_bullet_flowable story) = 6%nat
    /\ length (filter is_list_bullet added) = 6%nat.
Proof.
  destruct (C1_no_bullet_cap Samples.six_point_fields [ Samples.six_point_job ]
              eq_refl) as [Hpdf Hdocx].
  destruct (GenerateResume.generate_pdf Samples.six_point_resume "resume_citi.pdf")
    as [story|e] eqn:Es; [|vm_compute in Es; discriminate].
  destruct (GenerateResume.generate_docx Samples.six_point_resume "resume_citi.docx")
    as [added|e] eqn:Ea; [|vm_compute in Ea; discriminate].
  exists story, added. split; [reflexivity|]. split; [reflexivity|].
  destruct (Hpdf _ _ Es) as (head & groups & -> & Hhead & Hgroups).
  destruct (Hdocx _ _ Ea) as (head' & groups' & -> & Hhead' & Hgroups').
  inversion Hgroups as [|job fs jobs gs Hfs Hrest]; subst.
  inversion Hrest; subst.
  inversion Hgroups' as [|job' bs jobs' gs' Hbs Hrest']; subst.
  inversion Hrest'; subst.
  cbn [List.concat]. rewrite !app_nil_r, !filter_app, !length_app.
  rewrite Hhead, Hhead', Hfs, Hbs. split; reflexivity.
Defined.

Lemma C2_points_never_rendered_witness :
  GenerateResume.follows_schema Samples.six_point_resume = true
  /\ exists story head,
       fst (App.download_resume (Some "pdf") (Some "Citi")
              (Samples.sample_world (Raise RequestException)
                 (Some (PDict [ ("resume", Samples.six_point_resume) ]))))
       = Ok (App.SendFile "resume_Citi.pdf" "resume_Citi_pdf.pdf"
               (App.PdfDocument story))
       /\ story
          = (head
             ++ Paragraph (PStr "<b>PROFESSIONAL EXPERIENCE</b>") StyleHeading2
                :: pdf_entry_heading Samples.six_point_job)%list.
Proof.
  split; [reflexivity|].
  destruct (C2_points_never_rendered Samples.six_point_resume eq_refl)
    as (jobs & Hexp & _ & Hpdf & _ & Hdown).
  injection Hexp as <-.
  set (w := Samples.sample_world (Raise RequestException)
              (Some (PDict [ ("resume", Samples.six_point_resume) ]))).
  destruct (App.download_resume (Some "pdf") (Some "Citi") w)
    as [[[|download_name file [story|added]]|e] w'] eqn:Hd;
    try (vm_compute in Hd; discriminate).
  pose proof (Hdown w [] _ _ _ _ _ _ eq_refl Hd) as Hstory. cbn in Hstory.
  destruct (Hpdf _ _ Hstory) as (name & contact & summary & skills & _ & _ & Hhead).
  vm_compute in Hd. injection Hd as Hn Hf _ _. subst download_name file.
  exists story.
  exists ([ Paragraph name StyleName; Paragraph contact StyleNormal; Spacer 1 12 ]
          ++ summary ++ skills)%list.
  split; [reflexivity|].
  rewrite Hhead. cbn [flat_map]. now rewrite app_nil_r, <- !app_assoc.
Defined.

(** C3 as first stated fails: when the transport fails, the extractor
    raises instead of returning the default record. *)
Lemma C3_extractor_raises_on_transport_failure :
  fst (App.extract_job_info (PStr "Senior QA Engineer, remote")
         (Samples.sample_world (Raise RequestException) None))
  = Raise RequestException.
Proof. vm_compute. reflexivity. Qed.

Lemma C3_llm_failure_propagates_witness :
  fst (App.extract_job_info (PStr "Senior QA Engineer, remote")
         (Samples.sample_world (Raise RequestException) None))
  = Raise RequestException
  /\ fst (App.generate
            (PDict [ ("job_description", PStr "Senior QA Engineer, remote") ])
            (Samples.sample_world (Raise RequestException) None))
     = Ok (App.ServerError RequestException).
Proof.
  pose proof (C3_llm_failure_propagates (PStr "Senior QA Engineer, remote")
                (Samples.sample_world (Raise RequestException) None)) as H.
  destruct (App.call_llm _ 500 _) as [[content|e] w'] eqn:Hcall.
  - vm_compute in Hcall. discriminate.
  - assert (He : e = RequestException).
    { vm_compute in Hcall. now injection Hcall as -> _. }
    subst e. destruct H as [Hex Hgen].
    split.
    + now rewrite Hex.
    + now rewrite (Hgen eq_refl []).
Defined.

(** C4 as first stated fails: with a base resume on disk and an override
    file that does not parse, the assembly returns [None] and not the
    base text. *)
Lemma C4_parse_error_loses_base_resume :
  GenerateResume.load_resume (Samples.sample_files (Some (Raise JSONDecodeError)))
  = None
  /\ GenerateResume.load_resume (Samples.sample_files (Some (Raise JSONDecodeError)))
     <> Some "BASE RESUME".
Proof. split; [reflexivity | discriminate]. Qed.

Lemma C4_config_error_returns_none_witness :
  GenerateResume.current_role_file (Samples.sample_files (Some (Raise JSONDecodeError)))
  = Some (Raise JSONDecodeError)
  /\ GenerateResume.load_resume (Samples.sample_files (Some (Raise JSONDecodeError)))
     = None.
Proof.
  split; [reflexivity|].
  exact (proj1 (C4_config_error_returns_none
                  (Samples.sample_files (Some (Raise JSONDecodeError))))
           JSONDecodeError eq_refl).
Defined.

(** C5 as first stated fails: an override file holds all four sections,
    the one client of its current role has no ["dates"], and nothing is
    assembled. *)
Lemma C5_missing_dates_loses_context :
  has_section Samples.undated_client_fields "date_corrections" = true
  /\ has_section Samples.undated_client_fields "experience_restructure" = true
  /\ has_section Samples.undated_client_fields "missing_experience" = true
  /\ has_section Samples.undated_client_fields "current_experience" = true
  /\ GenerateResume.load_resume
       (Samples.sample_files (Some (Ok Samples.undated_client_config)))
     = None.
Proof. repeat split. Qed.

Lemma C5_override_order_witness :
  GenerateResume.load_resume
    (Samples.sample_files (Some (Ok Samples.four_section_config)))
  = Some
      ((nl ++ nl ++ "DATE CORRECTIONS (use these dates instead):" ++ nl
        ++ "- Amazon: Sep 2022 - Oct 2023" ++ nl)
       ++ (nl ++ nl
           ++ "EXPERIENCE RESTRUCTURE (show these as contract roles under parent company):"
           ++ nl
           ++ nl ++ "Altimetrik (2014 - 2021) - Contract" ++ nl
           ++ "Clients: PayPal, Intuit" ++ nl)
       ++ (nl ++ nl
           ++ "MISSING EXPERIENCE (MUST include in resume - insert in correct chronological order):"
           ++ nl
           ++ nl ++ "[USE FOR QE ROLES]" ++ nl
           ++ "PayPal" ++ nl
           ++ "Title: SDET" ++ nl
           ++ "Location: " ++ nl
           ++ "Dates: " ++ nl
           ++ "Achievements:" ++ nl
           ++ "• Automated tests" ++ nl)
       ++ (nl ++ nl ++ "CURRENT ROLE at Galaxy I Tech (Contract):" ++ nl
           ++ "Location: San Jose, CA" ++ nl
           ++ "Dates: Jun 2025 - Present" ++ nl ++ nl
           ++ "Client: Intuit" ++ nl
           ++ "Title: Senior Software Engineer" ++ nl
           ++ "Dates: Jun 2025 - Present" ++ nl
           ++ "• Built services" ++ nl ++ nl)
       ++ "BASE RESUME").
Proof.
  destruct (C5_override_order
              (Samples.sample_files (Some (Ok Samples.four_section_config)))
              [ ("resume.txt", Samples.sample_resume_info) ]
              Samples.four_section_fields _ _ _ _
              eq_refl eq_refl
              eq_refl eq_refl eq_refl eq_refl eq_refl eq_refl eq_refl eq_refl)
    as [Hok _].
  destruct (Hok _ _ _ _ eq_refl eq_refl eq_refl eq_refl) as [Hload _].
  rewrite Hload. reflexivity.
Defined.

Lemma C6_fallback_record_witness :
  fst (App.extract_job_info (PStr "Senior QA Engineer, remote")
         (Samples.sample_world
            (Ok (Samples.reply (PStr "Sorry, I can only answer in prose.")))
            None))
  = Ok (PDict [ ("job_title", PStr "Software Engineer");
                ("company", PStr "Company");
                ("location", PStr "Remote");
                ("job_type", PStr "hybrid");
                ("key_skills", PList []) ]).
Proof.
  set (w := Samples.sample_world
              (Ok (Samples.reply (PStr "Sorry, I can only answer in prose.")))
              None).
  rewrite (C6_fallback_record (PStr "Senior QA Engineer, remote")
             "Sorry, I can only answer in prose." w
             (snd (App.call_llm
                     (App.extract_prompt (PStr "Senior QA Engineer, remote")) 500 w))).
  - reflexivity.
  - vm_compute. reflexivity.
  - intros g v Hg. vm_compute in Hg. discriminate.
Defined.

(** A reply with braces around text that is not JSON also falls back. *)
Example fallback_on_unparseable_braces :
  fst (App.extract_job_info (PStr "jd")
         (Samples.sample_world
            (Ok (Samples.reply (PStr "Here you go: {job_title: QA} done")))
            None))
  = Ok App.default_job_info.
Proof. vm_compute. reflexivity. Qed.

Lemma C7_skills_join_witness :
  exists story added,
    GenerateResume.generate_pdf Samples.listed_skills_resume "resume_acme.pdf"
    = Ok story
    /\ GenerateResume.generate_docx Samples.listed_skills_resume "resume_acme.docx"
       = Ok added
    /\ In (Paragraph (PStr "<b>Languages:</b> Java, Python") StyleBody) story
    /\ In (AddParagraph (PStr "") None
             [ {| run_text := "Languages: "; run_bold := true |};
               {| run_text := "Java, Python"; run_bold := false |} ]) added
    /\ In (Paragraph (PStr "<b>Short:</b> Go, C") StyleBody) story
    /\ In (AddParagraph (PStr "") None
             [ {| run_text := "Short: "; run_bold := true |};
               {| run_text := "GoC"; run_bold := false |} ]) added.
Proof.
  destruct (GenerateResume.generate_pdf Samples.listed_skills_resume "resume_acme.pdf")
    as [story|e] eqn:Es; [|vm_compute in Es; discriminate].
  destruct (GenerateResume.generate_docx Samples.listed_skills_resume "resume_acme.docx")
    as [added|e] eqn:Ea; [|vm_compute in Ea; discriminate].
  exists story, added. split; [reflexivity|]. split; [reflexivity|].
  destruct (C7_skills_join Samples.listed_skills_resume Samples.listed_skills
              "Languages" [ "Java"; "Python" ] (or_introl eq_refl))
    as [Hpdf1 Hdocx1].
  destruct (C7_skills_join Samples.listed_skills_resume Samples.listed_skills
              "Short" [ "Go"; "C" ] (or_intror (or_introl eq_refl)))
    as [Hpdf2 Hdocx2].
  split; [exact (Hpdf1 _ _ eq_refl Es)|].
  split; [exact (Hdocx1 _ _ eq_refl Ea)|].
  split; [exact (Hpdf2 _ _ eq_refl Es)|].
  exact (Hdocx2 _ _ eq_refl Ea).
Defined.




Lemma C10_session_overwritten_witness :
  let w := Samples.sample_world (Ok (Samples.reply (PStr "{}")))
             (Some (PDict [ ("resume", Samples.six_point_resume) ])) in
  let w3 := snd (App.generate (PDict [ ("job_description", PStr "jd") ]) w) in
  session_file w3
  = Some (PDict [ ("resume", PNone); ("job_info", PDict []); ("jd", PStr "jd") ])
  /\ fst (App.download_resume None None w3) = Ok App.NoResumeGenerated.
Proof.
  intros w w3.
  destruct (C10_session_overwritten
              (PDict [ ("job_description", PStr "jd") ]) (PStr "jd") (PDict [])
              w (snd (App.extract_job_info (PStr "jd") w))
              eq_refl eq_refl)
    as [resume [w2 [r [w3' [Hres [Hgen [Hsession Hdownload]]]]]]].
  { vm_compute. reflexivity. }
  assert (Hw3 : w3 = w3') by (unfold w3; now rewrite Hgen).
  assert (Hnone : resume = PNone).
  { apply (f_equal fst) in Hres. vm_compute in Hres. now injection Hres as <-. }
  subst w3' resume. split.
  - exact Hsession.
  - now rewrite (Hdownload eq_refl None None).
Defined.

(* ------------------------------------------------------------------ *)
(** ** Further properties at concrete inputs *)

#[local] Existing Instance Samples.sample_path_builtins.

Lemma malformed_envelope_raises_witness :
  lookup "error" [ ("choices", PList []) ] = None
  /\ fst (GenerateResume.handle_result (PDict [ ("choices", PList []) ])
            Samples.keyless_world)
     = Raise IndexError.
Proof.
  split; [reflexivity|].
  destruct (malformed_envelope_raises [ ("choices", PList []) ]
              Samples.keyless_world eq_refl) as [_ [Hraise _]].
  rewrite (Hraise IndexError); [reflexivity | discriminate | reflexivity].
Defined.

Lemma call_llm_posts_once_witness :
  fst (App.call_llm "Hello" 500
         (Samples.sample_world
            (Ok {| status_code := 500;
                   response_json := response_json (Samples.reply (PStr "busy")) |})
            None))
  = Raise HTTPError.
Proof.
  set (resp := {| status_code := 500;
                  response_json := response_json (Samples.reply (PStr "busy")) |}).
  destruct (call_llm_posts_once "Hello" 500 (Samples.sample_world (Ok resp) None))
    as [req [_ [_ [_ [_ Hstatus]]]]].
  apply (Hstatus resp); [reflexivity|]. split; [discriminate | reflexivity].
Defined.


Lemma untailored_outcomes_give_none_witness :
  fst (App.generate_resume_data (PDict []) (PStr "jd")
         (Samples.sample_world (Ok (Samples.reply (PStr "{}"))) None))
  = Ok PNone.
Proof.
  set (w := Samples.sample_world (Ok (Samples.reply (PStr "{}"))) None).
  rewrite (untailored_outcomes_give_none [] (PStr "jd") (Ok (PDict [])) w
             (snd (GenerateResume.get_structured_resume
                     (PStr "Software Engineer") (PStr "Company") (PStr "jd")
                     (App.resume_value (GenerateResume.load_resume (files w))) w))).
  - reflexivity.
  - vm_compute. reflexivity.
  - discriminate.
Defined.

Lemma email_failure_keeps_new_session_witness :
  let w := Samples.failing_after 2
             (Ok (Samples.reply (PStr Samples.object_reply)))
             (Some (PDict [ ("resume", Samples.six_point_resume) ])) in
  let data := PDict [ ("job_description", PStr "jd") ] in
  fst (App.generate data w) = Ok (App.ServerError RequestException)
  /\ session_file (snd (App.generate data w))
     = Some (PDict [ ("resume",
                      PDict (("title", PStr "QA Engineer") :: App.USER_PROFILE));
                     ("job_info", PDict [ ("title", PStr "QA Engineer") ]);
                     ("jd", PStr "jd") ]).
Proof.
  intros w data.
  set (ji := PDict [ ("title", PStr "QA Engineer") ]).
  set (resume := PDict (("title", PStr "QA Engineer") :: App.USER_PROFILE)).
  set (w1 := snd (App.extract_job_info (PStr "jd") w)).
  set (w2 := snd (App.generate_resume_data ji (PStr "jd") w1)).
  set (w3 := snd (App.generate_response_email ji (PStr "jd")
                    (with_session w2
                       (Some (PDict [ ("resume", resume); ("job_info", ji);
                                      ("jd", PStr "jd") ]))))).
  destruct (email_failure_keeps_new_session data (PStr "jd") ji resume
              w w1 w2 w3 RequestException) as [Hgen Hsession];
    try (vm_compute; reflexivity).
  rewrite Hgen. split; [reflexivity | exact Hsession].
Defined.

Lemma download_refused_iff_no_resume_witness :
  fst (App.download_resume (Some "pdf") (Some "acme") Samples.keyless_world)
  = Ok App.NoResumeGenerated.
Proof.
  apply (download_refused_iff_no_resume (Some "pdf") (Some "acme")
           Samples.keyless_world []).
  - left. split; reflexivity.
  - reflexivity.
Defined.

Lemma download_other_format_is_docx_witness :
  let w := Samples.sample_world (Raise RequestException)
             (Some (PDict [ ("resume", Samples.six_bullet_resume) ])) in
  (exists blocks,
      fst (App.download_resume (Some "txt") None w)
      = Ok (App.SendFile "resume_resume.txt" "resume_resume_txt.txt"
              (App.DocxDocument blocks)))
  /\ fst (App.download_resume (Some "docx") (Some "a/b") w)
     = Raise FileNotFoundError.
Proof.
  intros w. split.
  - eexists.
    rewrite (download_other_format_is_docx "txt" None w
               [ ("resume", Samples.six_bullet_resume) ]
               Samples.six_bullet_resume eq_refl eq_refl eq_refl);
      [vm_compute; reflexivity | discriminate].
  - rewrite (download_other_format_is_docx "docx" (Some "a/b") w
               [ ("resume", Samples.six_bullet_resume) ]
               Samples.six_bullet_resume eq_refl eq_refl eq_refl);
      [vm_compute; reflexivity | discriminate].
Defined.

Lemma served_pdf_opens_with_profile_witness :
  let w := Samples.sample_world
             (Ok (Samples.reply (PStr Samples.object_reply))) None in
  let data := PDict [ ("job_description", PStr "jd") ] in
  exists story rest,
    fst (App.download_resume (Some "pdf") None (snd (App.generate data w)))
    = Ok (App.SendFile "resume_resume.pdf" "resume_resume_pdf.pdf"
            (App.PdfDocument story))
    /\ story
       = Paragraph (PStr "Muhammad Kasim Naina Mohammed") StyleName
         :: Paragraph
              (PStr "mohammedmazhermd@gmail.com | (510) 771-4493 | San Jose, CA")
              StyleNormal
         :: rest.
Proof.
  intros w data.
  set (ji := PDict [ ("title", PStr "QA Engineer") ]).
  set (resume := PDict (("title", PStr "QA Engineer") :: App.USER_PROFILE)).
  destruct (App.download_resume (Some "pdf") None (snd (App.generate data w)))
    as [[[|download_name file doc]|e] w'] eqn:Hd;
    try (vm_compute in Hd; discriminate).
  destruct (served_pdf_opens_with_profile data (PStr "jd") ji resume w
              (snd (App.extract_job_info (PStr "jd") w))
              (snd (App.generate_resume_data ji (PStr "jd")
                      (snd (App.extract_job_info (PStr "jd") w))))
              w' None download_name file doc)
    as (story & rest & -> & _ & Hrest);
    try solve [vm_compute; reflexivity | discriminate | exact Hd].
  vm_compute in Hd. injection Hd as Hn Hf _ _. subst download_name file.
  exists story, rest. split; [reflexivity | exact Hrest].
Defined.

Lemma app_renderers_cap_bullets_witness :
  exists story added head head',
    App.generate_pdf Samples.six_bullet_resume "resume_citi.pdf" = Ok story
    /\ App.generate_docx Samples.six_bullet_resume "resume_citi.docx" = Ok added
    /\ story
       = (head
          ++ firstn 2 (pdf_entry_heading Samples.six_bullet_job)
          ++ map pdf_bullet_line [ PStr "b1"; PStr "b2"; PStr "b3"; PStr "b4" ]
          ++ [ Spacer 1 8 ])%list
    /\ added
       = (head'
          ++ docx_entry_heading Samples.six_bullet_job
          ++ map docx_bullet_line [ PStr "b1"; PStr "b2"; PStr "b3"; PStr "b4" ])%list.
Proof.
  destruct (app_renderers_cap_bullets Samples.six_bullet_resume
              [ Samples.six_bullet_job ] eq_refl) as [Hpdf Hdocx].
  destruct (App.generate_pdf Samples.six_bullet_resume "resume_citi.pdf")
    as [story|e] eqn:Es; [|vm_compute in Es; discriminate].
  destruct (App.generate_docx Samples.six_bullet_resume "resume_citi.docx")
    as [added|e] eqn:Ea; [|vm_compute in Ea; discriminate].
  destruct (Hpdf _ _ Es) as (head & groups & -> & Hgroups).
  destruct (Hdocx _ _ Ea) as (head' & groups' & -> & Hgroups').
  inversion Hgroups as [|job fs jobs gs Hfs Hrest]; subst.
  inversion Hrest; subst.
  inversion Hgroups' as [|job' ds jobs' gs' Hds Hrest']; subst.
  inversion Hrest'; subst.
  destruct (Hfs _ _ eq_refl eq_refl) as [-> _].
  destruct (Hds _ _ eq_refl eq_refl) as [-> _].
  do 2 eexists. exists head, head'.
  split; [reflexivity|]. split; [reflexivity|].
  cbn [List.concat]. rewrite !app_nil_r. split; reflexivity.
Defined.

Lemma app_skills_join_shapes_witness :
  (exists story added,
      App.generate_pdf Samples.six_bullet_resume "resume_citi.pdf" = Ok story
      /\ App.generate_docx Samples.six_bullet_resume "resume_citi.docx" = Ok added
      /\ In (Paragraph (PStr "<b>Languages:</b> Java, Python") StyleNormal) story
      /\ In (AddParagraph (PStr "") None
               [ {| run_text := "Languages: "; run_bold := true |};
                 {| run_text := "Java, Python"; run_bold := false |} ]) added)
  /\ (forall story,
         App.generate_pdf
           (PDict [ ("skills",
                     PDict [ ("Languages", PList [ PStr "Java"; PInt 5 ]) ]) ])
           "resume_citi.pdf"
         <> Ok story).
Proof.
  split.
  - destruct (App.generate_pdf Samples.six_bullet_resume "resume_citi.pdf")
      as [story|e] eqn:Es; [|vm_compute in Es; discriminate].
    destruct (App.generate_docx Samples.six_bullet_resume "resume_citi.docx")
      as [added|e] eqn:Ea; [|vm_compute in Ea; discriminate].
    exists story, added. split; [reflexivity|]. split; [reflexivity|].
    destruct (app_skills_join_shapes Samples.six_bullet_resume
                Samples.listed_skills "Languages"
                (PList [ PStr "Java"; PStr "Python" ]) eq_refl
                (or_introl eq_refl)) as [Hlines _].
    destruct (Hlines "Java, Python" eq_refl) as [Hpdf Hdocx].
    split; [exact (Hpdf _ _ Es) | exact (Hdocx _ _ Ea)].
  - intros story.
    destruct (app_skills_join_shapes
                (PDict [ ("skills",
                          PDict [ ("Languages", PList [ PStr "Java"; PInt 5 ]) ]) ])
                [ ("Languages", PList [ PStr "Java"; PInt 5 ]) ] "Languages"
                (PList [ PStr "Java"; PInt 5 ]) eq_refl (or_introl eq_refl))
      as [_ [_ [_ Hbad]]].
    exact (proj1 (Hbad [ PStr "Java"; PInt 5 ] (PInt 5) eq_refl
                    (or_intror (or_introl eq_refl)) eq_refl)
             "resume_citi.pdf" story).
Defined.

Lemma pdf_story_bullet_total_witness :
  exists story,
    GenerateResume.generate_pdf Samples.six_point_resume "resume_citi.pdf" = Ok story
    /\ length (filter is_bullet_flowable story) = 6%nat.
Proof.
  destruct (GenerateResume.generate_pdf Samples.six_point_resume "resume_citi.pdf")
    as [story|e] eqn:Hstory; [|vm_compute in Hstory; discriminate].
  exists story. split; [reflexivity|].
  destruct (pdf_story_bullet_total Samples.six_point_resume _ story Hstory)
    as [experience [jobs [Hexp [Hjobs Hcount]]]].
  rewrite Hcount.
  injection Hexp as <-. injection Hjobs as <-. reflexivity.
Defined.

Lemma docx_requires_fields_pdf_defaults_witness :
  (forall added,
      GenerateResume.generate_docx
        (PDict [ ("name", PStr "Full Name"); ("title", PStr "Engineer") ])
        "resume_acme.docx"
      <> Ok added)
  /\ exists story,
       GenerateResume.generate_pdf
         (PDict [ ("name", PStr "Full Name"); ("title", PStr "Engineer") ])
         "resume_acme.pdf"
       = Ok story
       /\ length story = 7%nat
       /\ exists style, In (Paragraph (PStr "") style) story.
Proof.
  destruct (docx_requires_fields_pdf_defaults
              [ ("name", PStr "Full Name"); ("title", PStr "Engineer") ])
    as [Hdocx Hpdf].
  split.
  - intros added. apply (Hdocx "summary"); [simpl; tauto | reflexivity].
  - destruct (GenerateResume.generate_pdf
                (PDict [ ("name", PStr "Full Name"); ("title", PStr "Engineer") ])
                "resume_acme.pdf") as [story|e] eqn:Es;
      [|vm_compute in Es; discriminate].
    destruct (Hpdf eq_refl eq_refl _ story Es) as [Hl Hblank].
    exists story. split; [reflexivity|]. split; [exact Hl|].
    apply (Hblank "summary"); [simpl; tauto | reflexivity].
Defined.

Lemma docx_rejoins_fragmented_string_witness :
  GenerateResume.docx_skills_text
    (PList [ PStr "J"; PStr "a"; PStr "v"; PStr "a" ])
  = "Java".
Proof.
  exact (docx_rejoins_fragmented_string "Java" eq_refl).
Defined.

Lemma overrides_only_prepend_witness :
  exists prefix,
    GenerateResume.apply_overrides Samples.four_section_config "BASE RESUME"
    = Ok (prefix ++ "BASE RESUME")
    /\ prefix <> "".
Proof.
  destruct (GenerateResume.apply_overrides Samples.four_section_config "BASE RESUME")
    as [ctx|e] eqn:Hctx; [|vm_compute in Hctx; discriminate].
  unfold Samples.four_section_config in Hctx.
  destruct (overrides_only_prepend _ _ _ Hctx) as [prefix [-> Hiff]].
  exists prefix. split; [reflexivity|].
  intros Hempty. apply Hiff in Hempty. destruct Hempty as [H _].
  vm_compute in H. discriminate.
Defined.

Lemma non_object_config_fails_witness :
  GenerateResume.load_resume
    (Samples.sample_files (Some (Ok (PList [ PStr "current_experience" ]))))
  = None.
Proof.
  apply (non_object_config_fails _ (PList [ PStr "current_experience" ]));
    [reflexivity | discriminate].
Defined.

Lemma client_without_name_or_dates_fails_witness :
  GenerateResume.load_resume
    (Samples.sample_files
       (Some (Ok (PDict
                    [ ("current_experience",
                       PDict [ ("company", PStr "Galaxy I Tech");
                               ("clients",
                                PList [ PDict [ ("name", PStr "Intuit") ] ]) ]) ]))))
  = None.
Proof.
  apply (client_without_name_or_dates_fails _
           [ ("current_experience",
              PDict [ ("company", PStr "Galaxy I Tech");
                      ("clients", PList [ PDict [ ("name", PStr "Intuit") ] ]) ]) ]
           [ ("company", PStr "Galaxy I Tech");
             ("clients", PList [ PDict [ ("name", PStr "Intuit") ] ]) ]
           [ ("name", PStr "Intuit") ]
           [ PDict [ ("name", PStr "Intuit") ] ]);
    solve [reflexivity | discriminate | now left | now right].
Defined.

Lemma extractor_ignores_surrounding_prose_witness :
  App.job_info_of_response
    (PStr ("Sure, here it is: " ++ Samples.object_reply ++ " Hope it helps."))
  = PDict [ ("title", PStr "QA Engineer") ].
Proof.
  exact (proj2 (extractor_ignores_surrounding_prose
                  "Sure, here it is: "
                  (dq ++ "title" ++ dq ++ ": " ++ dq ++ "QA Engineer" ++ dq)
                  " Hope it helps."
                  (PDict [ ("title", PStr "QA Engineer") ])
                  eq_refl eq_refl eq_refl)).
Defined.

Lemma no_match_iff_no_brace_pair_witness :
  App.job_info_of_response (PStr "closing } comes before opening {")
  = App.default_job_info.
Proof.
  apply (proj2 (no_match_iff_no_brace_pair "closing } comes before opening {")).
  reflexivity.
Defined.

Lemma sample_listing_names_distinct :
  NoDup (map ResumeHandler.de_name Samples.sample_listing).
Proof.
  repeat constructor; simpl; intuition discriminate.
Defined.

Lemma scan_caches_exactly_readable_files_witness :
  exists cache,
    ResumeHandler.init (ResumeHandler.FolderOf Samples.sample_listing) = Ok cache
    /\ ResumeHandler.get_resume cache "cv.TXT" = Some Samples.cv_info.
Proof.
  destruct (ResumeHandler.init (ResumeHandler.FolderOf Samples.sample_listing))
    as [cache|e] eqn:Hinit; [|vm_compute in Hinit; discriminate].
  exists cache. split; [reflexivity|].
  apply (scan_caches_exactly_readable_files Samples.sample_listing cache
           sample_listing_names_distinct Hinit "cv.TXT" Samples.cv_info).
  exists (Samples.text_file "cv.TXT" "MY CV").
  split; [simpl; tauto|]. repeat split.
Defined.

Lemma rejected_entry_is_skipped_witness :
  ResumeHandler.init (ResumeHandler.FolderOf Samples.sample_listing)
  = ResumeHandler.init
      (ResumeHandler.FolderOf
         [ Samples.sub_directory "old";
           Samples.text_file "notes.md" "todo";
           Samples.text_file "cv.TXT" "MY CV";
           Samples.text_file "second.txt" "OTHER CV" ]).
Proof.
  exact (rejected_entry_is_skipped
           [ Samples.sub_directory "old"; Samples.text_file "notes.md" "todo" ]
           [ Samples.text_file "cv.TXT" "MY CV";
             Samples.text_file "second.txt" "OTHER CV" ]
           (Samples.text_file "broken.pdf" "%PDF") eq_refl).
Defined.

Lemma default_resume_is_first_accepted_witness :
  GenerateResume.load_resume
    (files (Samples.folder_world (ResumeHandler.FolderOf Samples.sample_listing)))
  = Some "MY CV".
Proof.
  apply (default_resume_is_first_accepted
           (files (Samples.folder_world
                     (ResumeHandler.FolderOf Samples.sample_listing)))
           [ Samples.sub_directory "old";
             Samples.text_file "notes.md" "todo";
             Samples.text_file "broken.pdf" "%PDF" ]
           [ Samples.text_file "second.txt" "OTHER CV" ]
           (Samples.text_file "cv.TXT" "MY CV")
           "cv.TXT" Samples.cv_info
           sample_listing_names_distinct).
  - repeat constructor.
  - reflexivity.
  - reflexivity.
  - reflexivity.
Defined.

Lemma unusable_folder_stops_main_witness :
  GenerateResume.main [ "QA Engineer"; "Acme"; "jd"; ""; "" ]
    (Samples.folder_world ResumeHandler.FolderMissing)
  = ({| GenerateResume.written := [];
        GenerateResume.ending := GenerateResume.CouldNotLoadResume |},
     Samples.folder_world ResumeHandler.FolderMissing).
Proof.
  exact (proj2 (unusable_folder_stops_main ResumeHandler.FolderMissing
                  [ "QA Engineer"; "Acme"; "jd"; ""; "" ]
                  (Samples.folder_world ResumeHandler.FolderMissing)
                  I eq_refl eq_refl)).
Defined.

Lemma description_fallback_never_used_witness :
  GenerateResume.read_description_lines [ ""; ""; "x" ] [] = Some ([ "" ], [ "x" ])
  /\ GenerateResume.job_description_of [ "" ] = "".
Proof.
  split; [reflexivity|].
  destruct (description_fallback_never_used [ ""; ""; "x" ] [ "" ] [ "x" ] eq_refl)
    as [_ [_ [_ H]]].
  exact H.
Defined.

Lemma description_ends_at_first_blank_pair_witness :
  GenerateResume.read_description_lines
    [ "Senior QA Engineer"; ""; "Selenium required"; ""; ""; "ignored" ] []
  = Some ([ "Senior QA Engineer"; ""; "Selenium required"; "" ], [ "ignored" ])
  /\ GenerateResume.job_description_of
       [ "Senior QA Engineer"; ""; "Selenium required"; "" ]
     = "Senior QA Engineer" ++ nl ++ nl ++ "Selenium required".
Proof.
  exact (description_ends_at_first_blank_pair
           [ "Senior QA Engineer"; ""; "Selenium required" ] [ "ignored" ] eq_refl).
Defined.
